(** * Clinic administration: record store and patient directory filter

A shallow embedding of [server/database.ts] (the record store over the
embedded SQL database), of [server/routes/data.ts] (the listing
handlers) and of the filter of the patient directory page
(CustomersManagement), followed by the properties of the registration
workflow, of user management and of the filter.

The SQL engine is modelled at the level the program observes it: a
catalog of table names, the rows of each table in insertion order,
the AUTOINCREMENT counters, [last_insert_rowid()] and the column
constraints declared by [createTables].  A statement that raises leaves
the effects of the earlier statements in place: the program never opens
a transaction. *)

From Stdlib Require Import ZArith List String Ascii Bool Lia QArith Permutation Sorted.
Import ListNotations.

Local Open Scope string_scope.
Local Open Scope list_scope.
Local Open Scope Z_scope.

(** ** JavaScript values used by both sides *)

Module Js.

(** [x || null] on an optional string: [undefined], [null] and the empty
  string all become [null]. *)
Definition or_null (x : option string) : option string :=
  match x with
  | Some s => if String.eqb s "" then None else Some s
  | None => None
  end.

(** [x || null] on an optional integer: [0] is falsy. *)
Definition or_null_int (x : option Z) : option Z :=
  match x with
  | Some n => if n =? 0 then None else Some n
  | None => None
  end.

(** [x || null] on an optional number with a fractional part. *)
Definition or_null_num (x : option Q) : option Q :=
  match x with
  | Some q => if Qeq_bool q 0 then None else Some q
  | None => None
  end.

(** Truthiness of an optional string. *)
Definition truthy (x : option string) : bool :=
  match or_null x with Some _ => true | None => false end.

Definition opt_eqb (x : option string) (s : string) : bool :=
  match x with Some t => String.eqb t s | None => false end.

End Js.

(** ** The record store, [server/database.ts] *)

Module Store.

(** *** Interfaces of the module *)

(** [role: "doctor" | "staff"] of [PendingRegistration]. *)
Inductive StagedRole := StagedDoctor | StagedStaff.

Definition role_text (r : StagedRole) : string :=
  match r with StagedDoctor => "doctor" | StagedStaff => "staff" end.

Module User.
Record t := {
  username : string;
  email : string;
  password : string;
  role : string;
  full_name : string;
  phone : option string
}.
End User.

Module Patient.
Record t := {
  user_id : Z;
  date_of_birth : option string;
  gender : option string;
  blood_group : option string;
  address : option string;
  emergency_contact : option string;
  emergency_contact_name : option string;
  emergency_contact_relation : option string;
  allergies : option string;
  medical_conditions : option string;
  current_medications : option string;
  insurance : option string;
  insurance_policy_number : option string;
  occupation : option string;
  height : option Z;
  weight : option Z
}.
End Patient.

Module Doctor.
Record t := {
  user_id : Z;
  specialization : option string;
  license_number : option string;
  experience_years : option Z;
  consultation_fee : option Q;
  available_days : option string;
  available_time_start : option string;
  available_time_end : option string
}.
End Doctor.

Module PendingRegistration.
Record t := {
  username : string;
  email : string;
  password : string;
  role : StagedRole;
  full_name : string;
  phone : option string;
  specialization : option string;
  license_number : option string;
  experience_years : option Z;
  consultation_fee : option Q;
  available_days : option string;
  available_time_start : option string;
  available_time_end : option string;
  department : option string;
  employee_id : option string
}.
End PendingRegistration.

(** *** Rows of the tables, one record per [CREATE TABLE] *)

Module UserRow.
Record t := {
  id : Z;
  username : string;
  email : string;
  password : string;
  role : string;
  full_name : string;
  phone : option string;
  status : option string;
  created_at : string;
  updated_at : string
}.
End UserRow.

Module CustomerRow.
Record t := {
  id : Z;
  profile : Patient.t;
  created_at : string;
  updated_at : string
}.
End CustomerRow.

(** A [patients] table is named by [createPatient], [getAllPatients],
  [getDatabaseStats] and [deleteUser] but by no [CREATE TABLE]: it exists
  only when the database file that was loaded already had one.  Its rows
  carry the columns that the statements name; no constraint is known for
  it. *)
Module PatientRow.
Record t := {
  id : Z;
  profile : Patient.t;
  created_at : string
}.
End PatientRow.

Module DoctorRow.
Record t := {
  id : Z;
  user_id : Z;
  specialization : option string;
  license_number : option string;
  experience_years : option Z;
  consultation_fee : option Q;
  available_days : option string;
  available_time_start : option string;
  available_time_end : option string;
  created_at : string;
  updated_at : string
}.
End DoctorRow.

Module PendingRow.
Record t := {
  id : Z;
  username : string;
  email : string;
  password : string;
  role : string;
  full_name : string;
  phone : option string;
  status : option string;
  admin_notes : option string;
  approved_by : option Z;
  specialization : option string;
  license_number : option string;
  experience_years : option Z;
  consultation_fee : option Q;
  available_days : option string;
  available_time_start : option string;
  available_time_end : option string;
  department : option string;
  employee_id : option string;
  created_at : string;
  updated_at : string
}.
End PendingRow.

(** *** The connection [db]

  [catalog] lists the tables that exist; [foreign_keys] is the setting of
  the pragma of that name; [last_insert_rowid] is what the function of
  that name returns; each [_seq] field is the AUTOINCREMENT counter of its
  table.  Rows are kept for the tables that the operations below read or
  write; the other tables of the schema appear in the catalog only.
  Rowids are unbounded integers. *)

Record Database := {
  catalog : list string;
  foreign_keys : bool;
  last_insert_rowid : Z;
  users : list UserRow.t;
  users_seq : Z;
  customers : list CustomerRow.t;
  customers_seq : Z;
  doctors : list DoctorRow.t;
  doctors_seq : Z;
  pending_registrations : list PendingRow.t;
  pending_registrations_seq : Z;
  patients : list PatientRow.t;
  patients_seq : Z
}.

(** [new SQL.Database()]: no table, and foreign keys not enforced (the
  engine's default; the program issues no [PRAGMA foreign_keys]). *)
Definition new_Database : Database := {|
  catalog := [];
  foreign_keys := false;
  last_insert_rowid := 0;
  users := []; users_seq := 0;
  customers := []; customers_seq := 0;
  doctors := []; doctors_seq := 0;
  pending_registrations := []; pending_registrations_seq := 0;
  patients := []; patients_seq := 0
|}.

Definition table_exists (name : string) (db : Database) : bool :=
  existsb (String.eqb name) (catalog db).

Definition with_catalog (c : list string) (db : Database) : Database := {|
  catalog := c;
  foreign_keys := foreign_keys db;
  last_insert_rowid := last_insert_rowid db;
  users := users db; users_seq := users_seq db;
  customers := customers db; customers_seq := customers_seq db;
  doctors := doctors db; doctors_seq := doctors_seq db;
  pending_registrations := pending_registrations db;
  pending_registrations_seq := pending_registrations_seq db;
  patients := patients db; patients_seq := patients_seq db
|}.

Definition with_users (rows : list UserRow.t) (db : Database) : Database := {|
  catalog := catalog db;
  foreign_keys := foreign_keys db;
  last_insert_rowid := last_insert_rowid db;
  users := rows; users_seq := users_seq db;
  customers := customers db; customers_seq := customers_seq db;
  doctors := doctors db; doctors_seq := doctors_seq db;
  pending_registrations := pending_registrations db;
  pending_registrations_seq := pending_registrations_seq db;
  patients := patients db; patients_seq := patients_seq db
|}.

Definition with_customers (rows : list CustomerRow.t) (db : Database) : Database := {|
  catalog := catalog db;
  foreign_keys := foreign_keys db;
  last_insert_rowid := last_insert_rowid db;
  users := users db; users_seq := users_seq db;
  customers := rows; customers_seq := customers_seq db;
  doctors := doctors db; doctors_seq := doctors_seq db;
  pending_registrations := pending_registrations db;
  pending_registrations_seq := pending_registrations_seq db;
  patients := patients db; patients_seq := patients_seq db
|}.

Definition with_doctors (rows : list DoctorRow.t) (db : Database) : Database := {|
  catalog := catalog db;
  foreign_keys := foreign_keys db;
  last_insert_rowid := last_insert_rowid db;
  users := users db; users_seq := users_seq db;
  customers := customers db; customers_seq := customers_seq db;
  doctors := rows; doctors_seq := doctors_seq db;
  pending_registrations := pending_registrations db;
  pending_registrations_seq := pending_registrations_seq db;
  patients := patients db; patients_seq := patients_seq db
|}.

Definition with_pending_registrations (rows : list PendingRow.t) (db : Database) : Database := {|
  catalog := catalog db;
  foreign_keys := foreign_keys db;
  last_insert_rowid := last_insert_rowid db;
  users := users db; users_seq := users_seq db;
  customers := customers db; customers_seq := customers_seq db;
  doctors := doctors db; doctors_seq := doctors_seq db;
  pending_registrations := rows;
  pending_registrations_seq := pending_registrations_seq db;
  patients := patients db; patients_seq := patients_seq db
|}.

Definition with_patients (rows : list PatientRow.t) (db : Database) : Database := {|
  catalog := catalog db;
  foreign_keys := foreign_keys db;
  last_insert_rowid := last_insert_rowid db;
  users := users db; users_seq := users_seq db;
  customers := customers db; customers_seq := customers_seq db;
  doctors := doctors db; doctors_seq := doctors_seq db;
  pending_registrations := pending_registrations db;
  pending_registrations_seq := pending_registrations_seq db;
  patients := rows; patients_seq := patients_seq db
|}.

(** The rowid that an AUTOINCREMENT table gives to its next row: one more
  than the largest rowid the table holds or has ever held.  The engine
  does this up to the largest 64-bit integer, and [last_insert_rowid()]
  reaches the program as a number, exact up to 2^53: the properties that
  turn on the value of a rowid are stated for tables within that bound
  ([History.rowids_exact]). *)
Definition next_rowid (ids : list Z) (seq : Z) : Z :=
  Z.max (fold_right Z.max 0 ids) seq + 1.

(** The state of the connection after a row with rowid [rowid] went into
  the AUTOINCREMENT table [name]. *)
Definition inserted (name : string) (rowid : Z) (db : Database) : Database := {|
  catalog := catalog db;
  foreign_keys := foreign_keys db;
  last_insert_rowid := rowid;
  users := users db;
  users_seq := if String.eqb name "users" then rowid else users_seq db;
  customers := customers db;
  customers_seq := customers_seq db;
  doctors := doctors db;
  doctors_seq := if String.eqb name "doctors" then rowid else doctors_seq db;
  pending_registrations := pending_registrations db;
  pending_registrations_seq :=
    if String.eqb name "pending_registrations" then rowid
    else pending_registrations_seq db;
  patients := patients db;
  patients_seq := if String.eqb name "patients" then rowid else patients_seq db
|}.

(** [CREATE TABLE IF NOT EXISTS name (...)]. *)
Definition create_table_if_not_exists (name : string) (db : Database) : Database :=
  if table_exists name db then db else with_catalog (catalog db ++ [name]) db.

(** The tables of [createTables], in the order of its statements. *)
Definition schema_tables : list string :=
  [ "users"; "customers"; "doctors"; "appointments"; "ambulance_requests";
    "pending_registrations"; "feedback_complaints"; "complaint_feedback" ].

Definition createTables (db : Database) : Database :=
  fold_left (fun d name => create_table_if_not_exists name d) schema_tables db.

(** A database file, as [new SQL.Database(data)] opens it.  [data] holds
  the tables and their rows.  An older file may have a [users] table from
  before the [status] column and a [feedback_complaints] table from before
  the [rating] column: the two flags tell whether the column is there.
  When [users_status] is false the [status] fields of the rows of [users]
  stand for nothing. *)
Module File.
Record t := {
  data : Database;
  users_status : bool;
  feedback_complaints_rating : bool
}.
End File.

(** [db.export()]: the file of a database whose tables have the columns of
  the current schema, as every database has once [initDatabase] is
  through. *)
Definition export (db : Database) : File.t := {|
  File.data := db;
  File.users_status := true;
  File.feedback_complaints_rating := true
|}.

(** [ALTER TABLE users ADD COLUMN status TEXT DEFAULT 'active' ...]: every
  row that is there reads the default from now on; the
  [UPDATE users SET status = 'active' WHERE status IS NULL] that follows
  finds no row. *)
Definition add_status_column (db : Database) : Database :=
  with_users
    (map (fun u => {|
            UserRow.id := UserRow.id u;
            UserRow.username := UserRow.username u;
            UserRow.email := UserRow.email u;
            UserRow.password := UserRow.password u;
            UserRow.role := UserRow.role u;
            UserRow.full_name := UserRow.full_name u;
            UserRow.phone := UserRow.phone u;
            UserRow.status := Some "active";
            UserRow.created_at := UserRow.created_at u;
            UserRow.updated_at := UserRow.updated_at u |})
       (users db))
    db.

(** [ALTER TABLE feedback_complaints ADD COLUMN rating INTEGER ...]: the
  table stays in the catalog; no statement of the module reads or writes
  its rows, which are not followed here. *)
Definition add_rating_column (db : Database) : Database := db.

(** [runMigrations()], called once [createTables] has run, so that both
  tables exist.  [hasStatusColumn] and [hasRatingColumn] are what the two
  [PRAGMA table_info] queries find. *)
Definition runMigrations (hasStatusColumn hasRatingColumn : bool) (db : Database)
    : Database :=
  let db := if negb hasStatusColumn then add_status_column db else db in
  let db := if negb hasRatingColumn then add_rating_column db else db in
  db.

(** [initDatabase()]: open the file when there is one, a new database
  otherwise; create the tables; run the migrations; make sure that
  [pending_registrations] is there.  A table that [createTables] had to
  create has every column of the schema. *)
Definition initDatabase (file : option File.t) : Database :=
  let opened := match file with Some f => f | None => export new_Database end in
  let hasStatusColumn :=
    if table_exists "users" (File.data opened) then File.users_status opened else true in
  let hasRatingColumn :=
    if table_exists "feedback_complaints" (File.data opened)
    then File.feedback_complaints_rating opened else true in
  let db := createTables (File.data opened) in
  let db := runMigrations hasStatusColumn hasRatingColumn db in
  if table_exists "pending_registrations" db then db
  else create_table_if_not_exists "pending_registrations" db.

(** *** Failures and the effect monad

  A call either returns a value or throws; in both cases it leaves a
  connection state behind. *)

Inductive Error :=
| JsError (message : string)
| NoSuchTable (name : string)
| UniqueConstraintFailed (table : string)
| CheckConstraintFailed (table : string)
| ForeignKeyConstraintFailed.

Inductive Outcome (A : Type) :=
| Returns (a : A) (db : Database)
| Throws (e : Error) (db : Database).

Arguments Returns {A} a db.
Arguments Throws {A} e db.

Definition M (A : Type) : Type := Database -> Outcome A.

Definition ret {A} (a : A) : M A := fun db => Returns a db.

Definition throw {A} (e : Error) : M A := fun db => Throws e db.

Definition bind {A B} (m : M A) (k : A -> M B) : M B :=
  fun db =>
    match m db with
    | Returns a db' => k a db'
    | Throws e db' => Throws e db'
    end.

(** [try { m } catch (error) { h error }]. *)
Definition try_catch {A} (m : M A) (h : Error -> M A) : M A :=
  fun db =>
    match m db with
    | Returns a db' => Returns a db'
    | Throws e db' => h e db'
    end.

Declare Scope store_scope.
Delimit Scope store_scope with store.

Notation "x <- m ;; k" := (bind m (fun x => k))
  (at level 100, m at next level, right associativity) : store_scope.
Notation "m ;; k" := (bind m (fun _ => k))
  (at level 100, right associativity) : store_scope.

Definition state_of {A} (o : Outcome A) : Database :=
  match o with Returns _ db => db | Throws _ db => db end.

(** [saveDatabase()] exports the connection to the file on disk and
  swallows its own failures; the connection itself does not change. *)
Definition saveDatabase : M unit := ret tt.

(** A statement on a table that the catalog does not list fails to
  compile. *)
Definition on_table {A} (name : string) (m : M A) : M A :=
  fun db => if table_exists name db then m db else Throws (NoSuchTable name) db.

Definition select_last_insert_rowid : M Z :=
  fun db => Returns (last_insert_rowid db) db.

(** *** The SQL statements of the module

  One definition per statement text, in the order the file first uses
  them.  Text comparison is byte-wise (the default collation). *)

(** [SELECT * FROM users WHERE email = ?]. *)
Definition select_users_by_email (email : string) : M (list UserRow.t) :=
  on_table "users" (fun db =>
    Returns (filter (fun u => String.eqb (UserRow.email u) email) (users db)) db).

(** [CHECK(role IN ('admin', 'doctor', 'customer', 'staff'))]. *)
Definition users_role_check (role : string) : bool :=
  existsb (String.eqb role) ["admin"; "doctor"; "customer"; "staff"].

(** [username TEXT UNIQUE], [email TEXT UNIQUE] of [users]. *)
Definition users_unique_clash (username email : string) (rows : list UserRow.t) : bool :=
  existsb (fun u => String.eqb (UserRow.username u) username
                    || String.eqb (UserRow.email u) email) rows.

(** [INSERT INTO users (username, email, password, role, full_name, phone,
  created_at) VALUES (?, ?, ?, ?, ?, ?, datetime('now'))]; [status] and
  [updated_at] take their defaults. *)
Definition insert_users (username email password role full_name : string)
    (phone : option string) (now : string) : M unit :=
  on_table "users" (fun db =>
    if negb (users_role_check role) then Throws (CheckConstraintFailed "users") db
    else if users_unique_clash username email (users db)
    then Throws (UniqueConstraintFailed "users") db
    else
      let rowid := next_rowid (map UserRow.id (users db)) (users_seq db) in
      let row := {|
        UserRow.id := rowid;
        UserRow.username := username;
        UserRow.email := email;
        UserRow.password := password;
        UserRow.role := role;
        UserRow.full_name := full_name;
        UserRow.phone := phone;
        UserRow.status := Some "active";
        UserRow.created_at := now;
        UserRow.updated_at := now |} in
      Returns tt (inserted "users" rowid (with_users (users db ++ [row]) db))).

Definition with_password (password now : string) (u : UserRow.t) : UserRow.t := {|
  UserRow.id := UserRow.id u;
  UserRow.username := UserRow.username u;
  UserRow.email := UserRow.email u;
  UserRow.password := password;
  UserRow.role := UserRow.role u;
  UserRow.full_name := UserRow.full_name u;
  UserRow.phone := UserRow.phone u;
  UserRow.status := UserRow.status u;
  UserRow.created_at := UserRow.created_at u;
  UserRow.updated_at := now |}.

(** [UPDATE users SET password = ?, updated_at = datetime('now')
  WHERE email = ?]. *)
Definition update_users_password (password email now : string) : M unit :=
  on_table "users" (fun db =>
    Returns tt
      (with_users
         (map (fun u => if String.eqb (UserRow.email u) email
                        then with_password password now u else u)
            (users db))
         db)).

(** [INSERT INTO patients (user_id, ..., weight, created_at)
  VALUES (?, ..., ?, datetime('now'))].  No statement of the program
  creates [patients]; where a file brings such a table, the columns that
  the statement names are taken to be there, with an AUTOINCREMENT rowid
  and no further constraint. *)
Definition insert_patients (profile : Patient.t) (now : string) : M unit :=
  on_table "patients" (fun db =>
    let rowid := next_rowid (map PatientRow.id (patients db)) (patients_seq db) in
    let row := {|
      PatientRow.id := rowid;
      PatientRow.profile := profile;
      PatientRow.created_at := now |} in
    Returns tt (inserted "patients" rowid (with_patients (patients db ++ [row]) db))).

(** [license_number TEXT UNIQUE] of [doctors]: NULLs never clash. *)
Definition doctors_unique_clash (license_number : option string)
    (rows : list DoctorRow.t) : bool :=
  match license_number with
  | Some l => existsb (fun d => Js.opt_eqb (DoctorRow.license_number d) l) rows
  | None => false
  end.

(** [FOREIGN KEY (user_id) REFERENCES users (id)], when enforced. *)
Definition references_user (user_id : Z) (db : Database) : bool :=
  negb (foreign_keys db) || existsb (fun u => UserRow.id u =? user_id) (users db).

(** [INSERT INTO doctors (user_id, specialization, license_number,
  experience_years, consultation_fee, available_days, available_time_start,
  available_time_end, created_at) VALUES (?, ..., datetime('now'))]. *)
Definition insert_doctors (d : Doctor.t) (now : string) : M unit :=
  on_table "doctors" (fun db =>
    if doctors_unique_clash (Doctor.license_number d) (doctors db)
    then Throws (UniqueConstraintFailed "doctors") db
    else if negb (references_user (Doctor.user_id d) db)
    then Throws ForeignKeyConstraintFailed db
    else
      let rowid := next_rowid (map DoctorRow.id (doctors db)) (doctors_seq db) in
      let row := {|
        DoctorRow.id := rowid;
        DoctorRow.user_id := Doctor.user_id d;
        DoctorRow.specialization := Doctor.specialization d;
        DoctorRow.license_number := Doctor.license_number d;
        DoctorRow.experience_years := Doctor.experience_years d;
        DoctorRow.consultation_fee := Doctor.consultation_fee d;
        DoctorRow.available_days := Doctor.available_days d;
        DoctorRow.available_time_start := Doctor.available_time_start d;
        DoctorRow.available_time_end := Doctor.available_time_end d;
        DoctorRow.created_at := now;
        DoctorRow.updated_at := now |} in
      Returns tt (inserted "doctors" rowid (with_doctors (doctors db ++ [row]) db))).

(** The row object of the query in [getAllPatients]. *)
Module PatientListing.
Record t := {
  user_id : Z;
  full_name : string;
  email : string;
  phone : option string;
  date_of_birth : option string;
  gender : option string;
  blood_group : option string;
  address : option string;
  medical_conditions : option string;
  height : option Z;
  weight : option Z;
  created_at : string
}.
End PatientListing.

Definition listing (u : UserRow.t) (p : PatientRow.t) : PatientListing.t := {|
  PatientListing.user_id := UserRow.id u;
  PatientListing.full_name := UserRow.full_name u;
  PatientListing.email := UserRow.email u;
  PatientListing.phone := UserRow.phone u;
  PatientListing.date_of_birth := Patient.date_of_birth (PatientRow.profile p);
  PatientListing.gender := Patient.gender (PatientRow.profile p);
  PatientListing.blood_group := Patient.blood_group (PatientRow.profile p);
  PatientListing.address := Patient.address (PatientRow.profile p);
  PatientListing.medical_conditions := Patient.medical_conditions (PatientRow.profile p);
  PatientListing.height := Patient.height (PatientRow.profile p);
  PatientListing.weight := Patient.weight (PatientRow.profile p);
  PatientListing.created_at := PatientRow.created_at p |}.

Fixpoint insert_by_full_name (x : PatientListing.t) (l : list PatientListing.t)
    : list PatientListing.t :=
  match l with
  | [] => [x]
  | y :: l' =>
      if String.leb (PatientListing.full_name x) (PatientListing.full_name y)
      then x :: l else y :: insert_by_full_name x l'
  end.

Definition order_by_full_name (l : list PatientListing.t) : list PatientListing.t :=
  fold_right insert_by_full_name [] l.

(** [SELECT u.id as user_id, ..., p.created_at FROM users u
  JOIN patients p ON u.id = p.user_id ORDER BY u.full_name]. *)
Definition select_users_join_patients : M (list PatientListing.t) :=
  on_table "users" (on_table "patients" (fun db =>
    Returns
      (order_by_full_name
         (flat_map (fun u =>
            map (listing u)
              (filter (fun p => UserRow.id u =? Patient.user_id (PatientRow.profile p))
                 (patients db)))
            (users db)))
      db)).

(** [email TEXT UNIQUE NOT NULL] of [pending_registrations]. *)
Definition pending_unique_clash (email : string) (rows : list PendingRow.t) : bool :=
  existsb (fun r => String.eqb (PendingRow.email r) email) rows.

(** [INSERT INTO pending_registrations (username, email, password, role,
  full_name, phone, specialization, ..., employee_id) VALUES (?, ..., ?)];
  [status] defaults to ['pending'], both timestamps to the current time,
  [admin_notes] and [approved_by] to NULL. *)
Definition insert_pending_registrations (username email password role full_name : string)
    (phone specialization license_number : option string)
    (experience_years : option Z) (consultation_fee : option Q)
    (available_days available_time_start available_time_end : option string)
    (department employee_id : option string) (now : string) : M unit :=
  on_table "pending_registrations" (fun db =>
    if pending_unique_clash email (pending_registrations db)
    then Throws (UniqueConstraintFailed "pending_registrations") db
    else
      let rowid := next_rowid (map PendingRow.id (pending_registrations db))
                     (pending_registrations_seq db) in
      let row := {|
        PendingRow.id := rowid;
        PendingRow.username := username;
        PendingRow.email := email;
        PendingRow.password := password;
        PendingRow.role := role;
        PendingRow.full_name := full_name;
        PendingRow.phone := phone;
        PendingRow.status := Some "pending";
        PendingRow.admin_notes := None;
        PendingRow.approved_by := None;
        PendingRow.specialization := specialization;
        PendingRow.license_number := license_number;
        PendingRow.experience_years := experience_years;
        PendingRow.consultation_fee := consultation_fee;
        PendingRow.available_days := available_days;
        PendingRow.available_time_start := available_time_start;
        PendingRow.available_time_end := available_time_end;
        PendingRow.department := department;
        PendingRow.employee_id := employee_id;
        PendingRow.created_at := now;
        PendingRow.updated_at := now |} in
      Returns tt (inserted "pending_registrations" rowid
                    (with_pending_registrations (pending_registrations db ++ [row]) db))).

(** [SELECT * FROM pending_registrations WHERE email = ?]. *)
Definition select_pending_registrations_by_email (email : string) : M (list PendingRow.t) :=
  on_table "pending_registrations" (fun db =>
    Returns (filter (fun r => String.eqb (PendingRow.email r) email)
               (pending_registrations db)) db).

(** [SELECT * FROM pending_registrations WHERE id = ?]. *)
Definition select_pending_registrations_by_id (id : Z) : M (list PendingRow.t) :=
  on_table "pending_registrations" (fun db =>
    Returns (filter (fun r => PendingRow.id r =? id) (pending_registrations db)) db).

Definition decided (status : string) (approved_by : Z) (admin_notes : option string)
    (now : string) (r : PendingRow.t) : PendingRow.t := {|
  PendingRow.id := PendingRow.id r;
  PendingRow.username := PendingRow.username r;
  PendingRow.email := PendingRow.email r;
  PendingRow.password := PendingRow.password r;
  PendingRow.role := PendingRow.role r;
  PendingRow.full_name := PendingRow.full_name r;
  PendingRow.phone := PendingRow.phone r;
  PendingRow.status := Some status;
  PendingRow.admin_notes := admin_notes;
  PendingRow.approved_by := Some approved_by;
  PendingRow.specialization := PendingRow.specialization r;
  PendingRow.license_number := PendingRow.license_number r;
  PendingRow.experience_years := PendingRow.experience_years r;
  PendingRow.consultation_fee := PendingRow.consultation_fee r;
  PendingRow.available_days := PendingRow.available_days r;
  PendingRow.available_time_start := PendingRow.available_time_start r;
  PendingRow.available_time_end := PendingRow.available_time_end r;
  PendingRow.department := PendingRow.department r;
  PendingRow.employee_id := PendingRow.employee_id r;
  PendingRow.created_at := PendingRow.created_at r;
  PendingRow.updated_at := now |}.

(** [UPDATE pending_registrations SET status = '...', approved_by = ?,
  admin_notes = ?, updated_at = datetime('now') WHERE id = ?]. *)
Definition update_pending_registrations (status : string) (approved_by : Z)
    (admin_notes : option string) (id : Z) (now : string) : M unit :=
  on_table "pending_registrations" (fun db =>
    Returns tt
      (with_pending_registrations
         (map (fun r => if PendingRow.id r =? id
                        then decided status approved_by admin_notes now r else r)
            (pending_registrations db))
         db)).

Definition with_status (status now : string) (u : UserRow.t) : UserRow.t := {|
  UserRow.id := UserRow.id u;
  UserRow.username := UserRow.username u;
  UserRow.email := UserRow.email u;
  UserRow.password := UserRow.password u;
  UserRow.role := UserRow.role u;
  UserRow.full_name := UserRow.full_name u;
  UserRow.phone := UserRow.phone u;
  UserRow.status := Some status;
  UserRow.created_at := UserRow.created_at u;
  UserRow.updated_at := now |}.

(** The rows selected by [WHERE id = ? AND role != 'admin']. *)
Definition non_admin_with_id (id : Z) (u : UserRow.t) : bool :=
  (UserRow.id u =? id) && negb (String.eqb (UserRow.role u) "admin").

(** [UPDATE users SET status = '...', updated_at = datetime('now')
  WHERE id = ? AND role != 'admin']. *)
Definition update_users_status (status : string) (id : Z) (now : string) : M unit :=
  on_table "users" (fun db =>
    Returns tt
      (with_users
         (map (fun u => if non_admin_with_id id u then with_status status now u else u)
            (users db))
         db)).

(** [SELECT role FROM users WHERE id = ?]. *)
Definition select_role_by_id (id : Z) : M (list string) :=
  on_table "users" (fun db =>
    Returns (map UserRow.role (filter (fun u => UserRow.id u =? id) (users db))) db).

(** [DELETE FROM patients WHERE user_id = ?]. *)
Definition delete_patients_by_user_id (user_id : Z) : M unit :=
  on_table "patients" (fun db =>
    Returns tt
      (with_patients
         (filter (fun p => negb (Patient.user_id (PatientRow.profile p) =? user_id))
            (patients db))
         db)).

(** [DELETE FROM doctors WHERE user_id = ?]. *)
Definition delete_doctors_by_user_id (user_id : Z) : M unit :=
  on_table "doctors" (fun db =>
    Returns tt
      (with_doctors
         (filter (fun d => negb (DoctorRow.user_id d =? user_id)) (doctors db)) db)).

(** [ON DELETE CASCADE] of [customers.user_id] and [doctors.user_id]: when
  foreign keys are enforced, the rows that reference a deleted user go
  with it. *)
Definition cascade_user (user_id : Z) (db : Database) : Database :=
  with_customers
    (filter (fun c => negb (Patient.user_id (CustomerRow.profile c) =? user_id))
       (customers db))
    (with_doctors
       (filter (fun d => negb (DoctorRow.user_id d =? user_id)) (doctors db)) db).

(** [DELETE FROM users WHERE id = ? AND role != 'admin']. *)
Definition delete_users_non_admin (id : Z) : M unit :=
  on_table "users" (fun db =>
    let db' := with_users (filter (fun u => negb (non_admin_with_id id u)) (users db)) db in
    Returns tt
      (if foreign_keys db && existsb (non_admin_with_id id) (users db)
       then cascade_user id db' else db')).

(** *** The exported operations

  [datetime('now')] is the argument [now]; the statements of one call see
  the same second.  A salt is the argument [salt]. *)

Local Open Scope store_scope.

Definition createPendingRegistrationsTable : M unit :=
  try_catch
    ((fun db => Returns tt (create_table_if_not_exists "pending_registrations" db)) ;;
     saveDatabase)
    (fun error => throw error).

(** [bcrypt.hash(data, saltRounds)] draws a salt and is a function of the
  data, the rounds and that salt. *)
Class Bcrypt := { bcrypt_hash : string -> Z -> string -> string }.

Definition createUser `{Bcrypt} (user : User.t) (salt now : string) : M Z :=
  try_catch
    (let hashedPassword := bcrypt_hash (User.password user) 10 salt in
     insert_users
       (User.username user)
       (User.email user)
       hashedPassword
       (User.role user)
       (User.full_name user)
       (Js.or_null (User.phone user))
       now ;;
     userId <- select_last_insert_rowid ;;
     saveDatabase ;;
     ret userId)
    (fun error => throw error).

(** The operations below run on the open connection; the test [!db] of
  the lookups is false there. *)
Definition getUserByEmail (email : string) : M (option UserRow.t) :=
  try_catch
    (result <- select_users_by_email email ;;
     ret (hd_error result))
    (fun _ => ret None).

Definition updateUserPassword `{Bcrypt} (email newPassword salt now : string) : M bool :=
  try_catch
    (let hashedPassword := bcrypt_hash newPassword 10 salt in
     update_users_password hashedPassword email now ;;
     saveDatabase ;;
     ret true)
    (fun _ => ret false).

Definition createPatient (patient : Patient.t) (now : string) : M Z :=
  try_catch
    (insert_patients {|
       Patient.user_id := Patient.user_id patient;
       Patient.date_of_birth := Js.or_null (Patient.date_of_birth patient);
       Patient.gender := Js.or_null (Patient.gender patient);
       Patient.blood_group := Js.or_null (Patient.blood_group patient);
       Patient.address := Js.or_null (Patient.address patient);
       Patient.emergency_contact := Js.or_null (Patient.emergency_contact patient);
       Patient.emergency_contact_name := Js.or_null (Patient.emergency_contact_name patient);
       Patient.emergency_contact_relation :=
         Js.or_null (Patient.emergency_contact_relation patient);
       Patient.allergies := Js.or_null (Patient.allergies patient);
       Patient.medical_conditions := Js.or_null (Patient.medical_conditions patient);
       Patient.current_medications := Js.or_null (Patient.current_medications patient);
       Patient.insurance := Js.or_null (Patient.insurance patient);
       Patient.insurance_policy_number :=
         Js.or_null (Patient.insurance_policy_number patient);
       Patient.occupation := Js.or_null (Patient.occupation patient);
       Patient.height := Js.or_null_int (Patient.height patient);
       Patient.weight := Js.or_null_int (Patient.weight patient) |} now ;;
     patientId <- select_last_insert_rowid ;;
     saveDatabase ;;
     ret patientId)
    (fun error => throw error).

Definition createDoctor (doctor : Doctor.t) (now : string) : M Z :=
  try_catch
    (insert_doctors {|
       Doctor.user_id := Doctor.user_id doctor;
       Doctor.specialization := Js.or_null (Doctor.specialization doctor);
       Doctor.license_number := Js.or_null (Doctor.license_number doctor);
       Doctor.experience_years := Js.or_null_int (Doctor.experience_years doctor);
       Doctor.consultation_fee := Js.or_null_num (Doctor.consultation_fee doctor);
       Doctor.available_days := Js.or_null (Doctor.available_days doctor);
       Doctor.available_time_start := Js.or_null (Doctor.available_time_start doctor);
       Doctor.available_time_end := Js.or_null (Doctor.available_time_end doctor) |} now ;;
     doctorId <- select_last_insert_rowid ;;
     saveDatabase ;;
     ret doctorId)
    (fun error => throw error).

Definition getAllPatients : M (list PatientListing.t) :=
  try_catch
    (result <- select_users_join_patients ;;
     ret result)
    (fun _ => ret []).

Definition createPendingRegistration `{Bcrypt}
    (registration : PendingRegistration.t) (salt now : string) : M Z :=
  try_catch
    (let hashedPassword :=
       bcrypt_hash (PendingRegistration.password registration) 10 salt in
     insert_pending_registrations
       (PendingRegistration.username registration)
       (PendingRegistration.email registration)
       hashedPassword
       (role_text (PendingRegistration.role registration))
       (PendingRegistration.full_name registration)
       (Js.or_null (PendingRegistration.phone registration))
       (Js.or_null (PendingRegistration.specialization registration))
       (Js.or_null (PendingRegistration.license_number registration))
       (Js.or_null_int (PendingRegistration.experience_years registration))
       (Js.or_null_num (PendingRegistration.consultation_fee registration))
       (Js.or_null (PendingRegistration.available_days registration))
       (Js.or_null (PendingRegistration.available_time_start registration))
       (Js.or_null (PendingRegistration.available_time_end registration))
       (Js.or_null (PendingRegistration.department registration))
       (Js.or_null (PendingRegistration.employee_id registration))
       now ;;
     pendingId <- select_last_insert_rowid ;;
     saveDatabase ;;
     ret pendingId)
    (fun error => throw error).

Definition getPendingRegistrationByEmail (email : string) : M (option PendingRow.t) :=
  try_catch
    (result <- select_pending_registrations_by_email email ;;
     ret (hd_error result))
    (fun _ => ret None).

Definition approvePendingRegistration (pendingId adminUserId : Z)
    (adminNotes : option string) (now : string) : M bool :=
  try_catch
    (result <- select_pending_registrations_by_id pendingId ;;
     match result with
     | [] => throw (JsError "Pending registration not found")
     | registration :: _ =>
         insert_users
           (PendingRow.username registration)
           (PendingRow.email registration)
           (PendingRow.password registration)
           (PendingRow.role registration)
           (PendingRow.full_name registration)
           (Js.or_null (PendingRow.phone registration))
           now ;;
         userId <- select_last_insert_rowid ;;
         (if String.eqb (PendingRow.role registration) "doctor"
          then
            createDoctor {|
              Doctor.user_id := userId;
              Doctor.specialization := PendingRow.specialization registration;
              Doctor.license_number := PendingRow.license_number registration;
              Doctor.experience_years := PendingRow.experience_years registration;
              Doctor.consultation_fee := PendingRow.consultation_fee registration;
              Doctor.available_days := PendingRow.available_days registration;
              Doctor.available_time_start := PendingRow.available_time_start registration;
              Doctor.available_time_end := PendingRow.available_time_end registration
            |} now ;;
            ret tt
          else ret tt) ;;
         update_pending_registrations "approved" adminUserId (Js.or_null adminNotes)
           pendingId now ;;
         saveDatabase ;;
         ret true
     end)
    (fun error => throw error).

Definition rejectPendingRegistration (pendingId adminUserId : Z)
    (adminNotes : string) (now : string) : M bool :=
  try_catch
    (update_pending_registrations "rejected" adminUserId (Some adminNotes)
       pendingId now ;;
     saveDatabase ;;
     ret true)
    (fun _ => ret false).

Definition suspendUser (userId : Z) (now : string) : M bool :=
  try_catch
    (update_users_status "suspended" userId now ;;
     saveDatabase ;;
     ret true)
    (fun _ => ret false).

Definition reactivateUser (userId : Z) (now : string) : M bool :=
  try_catch
    (update_users_status "active" userId now ;;
     saveDatabase ;;
     ret true)
    (fun _ => ret false).

Definition deleteUser (userId : Z) : M bool :=
  try_catch
    (userResult <- select_role_by_id userId ;;
     match userResult with
     | role :: _ =>
         if String.eqb role "admin"
         then throw (JsError "Cannot delete admin user") else ret tt
     | [] => ret tt
     end ;;
     delete_patients_by_user_id userId ;;
     delete_doctors_by_user_id userId ;;
     delete_users_non_admin userId ;;
     saveDatabase ;;
     ret true)
    (fun _ => ret false).

(** *** Further lookups and listings of the module *)

(** [ORDER BY] with the comparison [le]: insertion sort, which keeps the
  table order among equal keys (the engine leaves that order open). *)
Fixpoint insert_sorted {A} (le : A -> A -> bool) (x : A) (l : list A) : list A :=
  match l with
  | [] => [x]
  | y :: l' => if le x y then x :: l else y :: insert_sorted le x l'
  end.

Definition order_by {A} (le : A -> A -> bool) (l : list A) : list A :=
  fold_right (insert_sorted le) [] l.

(** [SELECT * FROM users WHERE phone = ?]; a NULL phone equals nothing. *)
Definition select_users_by_phone (phone : string) : M (list UserRow.t) :=
  on_table "users" (fun db =>
    Returns (filter (fun u => Js.opt_eqb (UserRow.phone u) phone) (users db)) db).

(** [SELECT * FROM users WHERE username = ?]. *)
Definition select_users_by_username (username : string) : M (list UserRow.t) :=
  on_table "users" (fun db =>
    Returns (filter (fun u => String.eqb (UserRow.username u) username) (users db)) db).

Definition getUserByPhone (phone : string) : M (option UserRow.t) :=
  try_catch
    (result <- select_users_by_phone phone ;;
     ret (hd_error result))
    (fun _ => ret None).

Definition getUserByUsername (username : string) : M (option UserRow.t) :=
  try_catch
    (result <- select_users_by_username username ;;
     ret (hd_error result))
    (fun _ => ret None).

(** The row object of the query in [getAllDoctors]. *)
Module DoctorListing.
Record t := {
  user_id : Z;
  full_name : string;
  email : string;
  phone : option string;
  specialization : option string;
  experience_years : option Z;
  consultation_fee : option Q;
  available_days : option string
}.
End DoctorListing.

Definition doctor_listing (u : UserRow.t) (d : DoctorRow.t) : DoctorListing.t := {|
  DoctorListing.user_id := UserRow.id u;
  DoctorListing.full_name := UserRow.full_name u;
  DoctorListing.email := UserRow.email u;
  DoctorListing.phone := UserRow.phone u;
  DoctorListing.specialization := DoctorRow.specialization d;
  DoctorListing.experience_years := DoctorRow.experience_years d;
  DoctorListing.consultation_fee := DoctorRow.consultation_fee d;
  DoctorListing.available_days := DoctorRow.available_days d |}.

(** [SELECT u.id as user_id, ..., d.available_days FROM users u
  JOIN doctors d ON u.id = d.user_id ORDER BY u.full_name]. *)
Definition select_users_join_doctors : M (list DoctorListing.t) :=
  on_table "users" (on_table "doctors" (fun db =>
    Returns
      (order_by
         (fun a b => String.leb (DoctorListing.full_name a) (DoctorListing.full_name b))
         (flat_map (fun u =>
            map (doctor_listing u)
              (filter (fun d => UserRow.id u =? DoctorRow.user_id d) (doctors db)))
            (users db)))
      db)).

Definition getAllDoctors : M (list DoctorListing.t) :=
  try_catch
    (result <- select_users_join_doctors ;;
     ret result)
    (fun _ => ret []).

(** The counts of [getDatabaseStats]. *)
Module DatabaseStats.
Record t := {
  users : Z;
  patients : Z;
  doctors : Z;
  appointments : Z
}.
End DatabaseStats.

(** [SELECT COUNT( * ) as count FROM users], and the same for [patients]
  and [doctors]. *)
Definition select_count_users : M Z :=
  on_table "users" (fun db => Returns (Z.of_nat (List.length (users db))) db).

Definition select_count_patients : M Z :=
  on_table "patients" (fun db => Returns (Z.of_nat (List.length (patients db))) db).

Definition select_count_doctors : M Z :=
  on_table "doctors" (fun db => Returns (Z.of_nat (List.length (doctors db))) db).

(** [SELECT COUNT( * ) as count FROM appointments]: the rows of that table
  are not kept here, so their number is the argument. *)
Definition select_count_appointments (rows : Z) : M Z :=
  on_table "appointments" (fun db => Returns rows db).

Definition getDatabaseStats (appointmentRows : Z) : M DatabaseStats.t :=
  try_catch
    (userCount <- select_count_users ;;
     patientCount <- select_count_patients ;;
     doctorCount <- select_count_doctors ;;
     appointmentCount <- select_count_appointments appointmentRows ;;
     ret {| DatabaseStats.users := userCount;
            DatabaseStats.patients := patientCount;
            DatabaseStats.doctors := doctorCount;
            DatabaseStats.appointments := appointmentCount |})
    (fun _ =>
       ret {| DatabaseStats.users := 0;
              DatabaseStats.patients := 0;
              DatabaseStats.doctors := 0;
              DatabaseStats.appointments := 0 |}).

(** The row object of the query in [getPendingRegistrations]: the columns
  of the registration and the reviewer's name. *)
Module PendingListing.
Record t := {
  registration : PendingRow.t;
  approved_by_name : option string
}.
End PendingListing.

(** The rows that [LEFT JOIN users admin ON pr.approved_by = admin.id]
  gives for one registration. *)
Definition with_reviewer (rows : list UserRow.t) (pr : PendingRow.t)
    : list PendingListing.t :=
  match filter (fun u => match PendingRow.approved_by pr with
                         | Some reviewer => reviewer =? UserRow.id u
                         | None => false
                         end) rows with
  | [] => [ {| PendingListing.registration := pr;
               PendingListing.approved_by_name := None |} ]
  | reviewers =>
      map (fun u => {| PendingListing.registration := pr;
                       PendingListing.approved_by_name := Some (UserRow.full_name u) |})
        reviewers
  end.

(** [SELECT pr.*, admin.full_name as approved_by_name
  FROM pending_registrations pr
  LEFT JOIN users admin ON pr.approved_by = admin.id
  ORDER BY pr.created_at DESC]. *)
Definition select_pending_registrations_with_reviewer : M (list PendingListing.t) :=
  on_table "pending_registrations" (on_table "users" (fun db =>
    Returns
      (order_by
         (fun a b => String.leb (PendingRow.created_at (PendingListing.registration b))
                       (PendingRow.created_at (PendingListing.registration a)))
         (flat_map (with_reviewer (users db)) (pending_registrations db)))
      db)).

Definition getPendingRegistrations : M (list PendingListing.t) :=
  try_catch
    (result <- select_pending_registrations_with_reviewer ;;
     ret result)
    (fun _ => ret []).

(** The row object of the queries in [getAllUsers] and [getUsersByRole]:
  every column of [users] but the password. *)
Module UserListing.
Record t := {
  id : Z;
  username : string;
  email : string;
  role : string;
  full_name : string;
  phone : option string;
  status : option string;
  created_at : string;
  updated_at : string
}.
End UserListing.

Definition user_listing (u : UserRow.t) : UserListing.t := {|
  UserListing.id := UserRow.id u;
  UserListing.username := UserRow.username u;
  UserListing.email := UserRow.email u;
  UserListing.role := UserRow.role u;
  UserListing.full_name := UserRow.full_name u;
  UserListing.phone := UserRow.phone u;
  UserListing.status := UserRow.status u;
  UserListing.created_at := UserRow.created_at u;
  UserListing.updated_at := UserRow.updated_at u |}.

Definition newest_first (a b : UserListing.t) : bool :=
  String.leb (UserListing.created_at b) (UserListing.created_at a).

(** [SELECT u.id, ..., u.updated_at FROM users u WHERE u.role != 'admin'
  ORDER BY u.created_at DESC]. *)
Definition select_users_non_admin : M (list UserListing.t) :=
  on_table "users" (fun db =>
    Returns
      (order_by newest_first
         (map user_listing
            (filter (fun u => negb (String.eqb (UserRow.role u) "admin")) (users db))))
      db).

(** [... WHERE u.role = ? AND u.role != 'admin' ORDER BY u.created_at DESC]. *)
Definition select_users_by_role (role : string) : M (list UserListing.t) :=
  on_table "users" (fun db =>
    Returns
      (order_by newest_first
         (map user_listing
            (filter (fun u => String.eqb (UserRow.role u) role
                              && negb (String.eqb (UserRow.role u) "admin"))
               (users db))))
      db).

Definition getAllUsers : M (list UserListing.t) :=
  try_catch
    (result <- select_users_non_admin ;;
     ret result)
    (fun _ => ret []).

Definition getUsersByRole (role : string) : M (list UserListing.t) :=
  try_catch
    (result <- select_users_by_role role ;;
     ret result)
    (fun _ => ret []).

End Store.

(** ** The listing handler, [server/routes/data.ts] *)

Module Routes.
Import Store.
Local Open Scope store_scope.

Inductive Response :=
| Json (patients : list PatientListing.t) (total : Z)
| Status (code : Z) (error : string).

Definition handleGetPatients (role : string) : M Response :=
  try_catch
    (if negb (String.eqb role "doctor") && negb (String.eqb role "admin")
     then ret (Status 403 "Unauthorized to view patients list")
     else
       patients <- getAllPatients ;;
       ret (Json patients (Z.of_nat (List.length patients))))
    (fun _ => ret (Status 500 "Internal server error while fetching patients")).

(** The other two handlers; the request carries the user put there by the
  authentication layer. *)

Inductive DoctorsResponse :=
| DoctorsJson (doctors : list DoctorListing.t) (total : Z)
| DoctorsStatus (code : Z) (error : string).

Definition handleGetDoctors : M DoctorsResponse :=
  try_catch
    (doctors <- getAllDoctors ;;
     ret (DoctorsJson doctors (Z.of_nat (List.length doctors))))
    (fun _ => ret (DoctorsStatus 500 "Internal server error while fetching doctors")).

Module Stats.
Record t := {
  totalPatients : Z;
  totalDoctors : Z;
  todayAppointments : Z;
  pendingReports : Z
}.
End Stats.

Inductive StatsResponse :=
| StatsJson (stats : Stats.t)
| StatsStatus (code : Z) (error : string).

Definition handleGetDashboardStats (role : string) : M StatsResponse :=
  try_catch
    (patients <- getAllPatients ;;
     doctors <- getAllDoctors ;;
     let totalPatients := Z.of_nat (List.length patients) in
     let totalDoctors := Z.of_nat (List.length doctors) in
     ret (StatsJson
            (if String.eqb role "doctor"
             then {| Stats.totalPatients := totalPatients;
                     Stats.totalDoctors := totalDoctors;
                     Stats.todayAppointments := 12;
                     Stats.pendingReports := 7 |}
             else if String.eqb role "admin"
             then {| Stats.totalPatients := totalPatients;
                     Stats.totalDoctors := totalDoctors;
                     Stats.todayAppointments := 45;
                     Stats.pendingReports := 23 |}
             else {| Stats.totalPatients := totalPatients;
                     Stats.totalDoctors := totalDoctors;
                     Stats.todayAppointments := 0;
                     Stats.pendingReports := 0 |})))
    (fun _ => ret (StatsStatus 500 "Internal server error while fetching stats")).

End Routes.

(** ** The patient directory page: the filter of CustomersManagement *)

Module Directory.

Record Customer := {
  user_id : Z;
  full_name : string;
  email : string;
  phone : option string;
  date_of_birth : option string;
  gender : option string;
  blood_group : option string;
  address : option string;
  medical_conditions : option string;
  created_at : string
}.

Module FilterState.
Record t := {
  gender : string;
  bloodGroup : string;
  ageRange : string;
  hasConditions : string;
  registrationPeriod : string
}.
End FilterState.

(** The initial value of [filters], also the value set by [clearFilters]. *)
Definition no_filters : FilterState.t := {|
  FilterState.gender := "all";
  FilterState.bloodGroup := "all";
  FilterState.ageRange := "all";
  FilterState.hasConditions := "all";
  FilterState.registrationPeriod := "all"
|}.

(** *** How an evaluation ends *)

(** An expression of the page either has a value or throws.  The only
  exception that the page's own logic can raise is the ReferenceError of
  reading a binding before its declaration has run. *)
Inductive Completion (A : Type) : Type :=
| Normal (value : A)
| ReferenceError (name : string).

Arguments Normal {A} value.
Arguments ReferenceError {A} name.

Definition and_then {A B} (c : Completion A) (k : A -> Completion B) : Completion B :=
  match c with
  | Normal value => k value
  | ReferenceError name => ReferenceError name
  end.

(** A [const] binding of the component's body.  The body is evaluated from
  top to bottom on every render; until the render reaches a declaration,
  its binding is uninitialised and reading it throws. *)
Inductive Binding (A : Type) : Type :=
| Uninitialized
| Initialized (value : A).

Arguments Uninitialized {A}.
Arguments Initialized {A} value.

(** The binding declared at line [declared], as code that runs while the
  render is at line [running] finds it. *)
Definition binding_at {A} (running declared : Z) (value : A) : Binding A :=
  if declared <? running then Initialized value else Uninitialized.

Definition read {A} (name : string) (binding : Binding A) : Completion A :=
  match binding with
  | Initialized value => Normal value
  | Uninitialized => ReferenceError name
  end.

(** [Array.prototype.filter]: the callback is called on the elements in
  order, and a call that throws ends the whole filter. *)
Fixpoint Array_filter {A} (callback : A -> Completion bool) (l : list A)
    : Completion (list A) :=
  match l with
  | [] => Normal []
  | x :: rest =>
      and_then (callback x) (fun keep =>
      and_then (Array_filter callback rest) (fun kept =>
      Normal (if keep then x :: kept else kept)))
  end.

(** *** Strings

  A text is held as the bytes of its UTF-8 encoding. *)

Definition lower_char (c : ascii) : ascii :=
  let n := nat_of_ascii c in
  if ((65 <=? n) && (n <=? 90))%nat then ascii_of_nat (n + 32) else c.

(** The letters A to Z replaced by a to z. *)
Fixpoint lower_ascii (s : string) : string :=
  match s with
  | EmptyString => EmptyString
  | String c s' => String (lower_char c) (lower_ascii s')
  end.

(** The text holds ASCII characters only. *)
Fixpoint ascii_only (s : string) : bool :=
  match s with
  | EmptyString => true
  | String c s' => (nat_of_ascii c <? 128)%nat && ascii_only s'
  end.

(** [String.prototype.toLowerCase] follows the Unicode case tables of the
  host, which are not part of the program.  On a text of ASCII characters
  it replaces the letters A to Z by a to z and changes nothing else;
  nothing more is known of it here. *)
Class CaseMapping := {
  toLowerCase : string -> string;
  toLowerCase_ascii : forall s, ascii_only s = true -> toLowerCase s = lower_ascii s
}.

(** [String.prototype.includes]. *)
Fixpoint includes (s sub : string) : bool :=
  String.prefix sub s
  || match s with
     | EmptyString => false
     | String _ s' => includes s' sub
     end.

Definition bytes (codes : list nat) : list ascii := map ascii_of_nat codes.

(** The white space and the line terminators of the language, which
  [String.prototype.trim] strips: U+0009 to U+000D, U+0020, U+00A0,
  U+1680, U+2000 to U+200A, U+2028, U+2029, U+202F, U+205F, U+3000 and
  U+FEFF, each as the bytes of its encoding. *)
Definition white_space : list (list ascii) :=
  map bytes
    [ [9]; [10]; [11]; [12]; [13]; [32];
      [194; 160];
      [225; 154; 128];
      [226; 128; 128]; [226; 128; 129]; [226; 128; 130]; [226; 128; 131];
      [226; 128; 132]; [226; 128; 133]; [226; 128; 134]; [226; 128; 135];
      [226; 128; 136]; [226; 128; 137]; [226; 128; 138];
      [226; 128; 168]; [226; 128; 169];
      [226; 128; 175];
      [226; 129; 159];
      [227; 128; 128];
      [239; 187; 191] ]%nat.

(** [l] without its prefix [prefix], when it starts with it. *)
Fixpoint strip_prefix (prefix l : list ascii) : option (list ascii) :=
  match prefix, l with
  | [], _ => Some l
  | p :: prefix', c :: l' => if Ascii.eqb p c then strip_prefix prefix' l' else None
  | _ :: _, [] => None
  end.

(** [l] without its first character, when that is one of [spaces]. *)
Fixpoint skip_one (spaces : list (list ascii)) (l : list ascii) : option (list ascii) :=
  match spaces with
  | [] => None
  | space :: others =>
      match strip_prefix space l with
      | Some rest => Some rest
      | None => skip_one others l
      end
  end.

(** [l] from its first character that is not one of [spaces]; [fuel]
  bounds the number of characters skipped. *)
Fixpoint skip_spaces (fuel : nat) (spaces : list (list ascii)) (l : list ascii)
    : list ascii :=
  match fuel with
  | O => l
  | S fuel' =>
      match skip_one spaces l with
      | Some rest => skip_spaces fuel' spaces rest
      | None => l
      end
  end.

Definition trim_start (l : list ascii) : list ascii :=
  skip_spaces (List.length l) white_space l.

Definition trim_end (l : list ascii) : list ascii :=
  rev (skip_spaces (List.length l) (map (@rev ascii) white_space) (rev l)).

(** [String.prototype.trim]. *)
Definition trim (s : string) : string :=
  string_of_list_ascii (trim_end (trim_start (list_ascii_of_string s))).

(** *** Dates and numbers *)

(** A valid [Date] object, seen through the getters the page calls:
  milliseconds since the epoch and the local calendar fields (months
  count from 0). *)
Record Date := {
  getTime : Z;
  getFullYear : Z;
  getMonth : Z;
  getDate : Z
}.

(** [new Date(text)]: [None] is the Invalid Date, whose getters are NaN.
  How text is read depends on the host and its time zone. *)
Class DateParser := { new_Date : string -> option Date }.

(** A number that is an integer or NaN; every comparison with NaN is
  false. *)
Inductive Number := NaN | Int (n : Z).

Definition gt (a : Number) (k : Z) : bool :=
  match a with Int n => k <? n | NaN => false end.

Definition lt (a : Number) (k : Z) : bool :=
  match a with Int n => n <? k | NaN => false end.

(** ['N/A' | number], the result of [calculateAge]; in a comparison the
  text ['N/A'] converts to NaN. *)
Inductive AgeResult := NA | Age (n : Number).

Definition to_number (a : AgeResult) : Number :=
  match a with NA => NaN | Age n => n end.

Definition calculateAge `{DateParser} (today : Date) (dateOfBirth : option string)
    : AgeResult :=
  match Js.or_null dateOfBirth with
  | None => NA
  | Some text =>
      match new_Date text with
      | None => Age NaN
      | Some birth =>
          let age := getFullYear today - getFullYear birth in
          let monthDiff := getMonth today - getMonth birth in
          if (monthDiff <? 0) || ((monthDiff =? 0) && (getDate today <? getDate birth))
          then Age (Int (age - 1))
          else Age (Int age)
      end
  end.

(** [Math.ceil(diffTime / (1000 * 60 * 60 * 24))] for [diffTime >= 0]. *)
Definition ceil_days (diffTime : Z) : Z :=
  - ((- diffTime) / (1000 * 60 * 60 * 24)).

Definition diffDays `{DateParser} (now : Date) (created_at : string) : Number :=
  match new_Date created_at with
  | None => NaN
  | Some registrationDate =>
      Int (ceil_days (Z.abs (getTime now - getTime registrationDate)))
  end.

(** *** The filter, block by block

  Each block of the callback is a test that makes it [return false]. *)

Definition matchesSearch `{CaseMapping} (searchTerm : string) (patient : Customer) : bool :=
  includes (toLowerCase (full_name patient)) (toLowerCase searchTerm)
  || includes (toLowerCase (email patient)) (toLowerCase searchTerm)
  || match Js.or_null (phone patient) with
     | Some p => includes p searchTerm
     | None => false
     end.

Definition excludedByGender (filters : FilterState.t) (patient : Customer) : bool :=
  negb (String.eqb (FilterState.gender filters) "all")
  && negb (Js.opt_eqb (gender patient) (FilterState.gender filters)).

Definition excludedByBloodGroup (filters : FilterState.t) (patient : Customer) : bool :=
  negb (String.eqb (FilterState.bloodGroup filters) "all")
  && negb (Js.opt_eqb (blood_group patient) (FilterState.bloodGroup filters)).

(** The lines of the component's body where [patients.filter] runs its
  callback and where [const calculateAge] is declared. *)
Definition line_of_filteredPatients : Z := 110.

Definition line_of_calculateAge : Z := 208.

(** The age block.  It calls [calculateAge] when the record has a date of
  birth; the callback runs at line 110 and [calculateAge] is a [const]
  declared at line 208, further down the same body. *)
Definition excludedByAgeRange `{DateParser} (today : Date) (filters : FilterState.t)
    (patient : Customer) : Completion bool :=
  if String.eqb (FilterState.ageRange filters) "all" then Normal false
  else
    and_then
      (if Js.truthy (date_of_birth patient)
       then
         and_then
           (read "calculateAge"
              (binding_at line_of_filteredPatients line_of_calculateAge
                 (calculateAge today)))
           (fun calculateAge => Normal (to_number (calculateAge (date_of_birth patient))))
       else Normal (Int 0))
      (fun age =>
         Normal
           (if String.eqb (FilterState.ageRange filters) "0-18" then gt age 18
            else if String.eqb (FilterState.ageRange filters) "19-30"
                 then lt age 19 || gt age 30
            else if String.eqb (FilterState.ageRange filters) "31-50"
                 then lt age 31 || gt age 50
            else if String.eqb (FilterState.ageRange filters) "51+" then lt age 51
            else false)).

Definition excludedByConditions (filters : FilterState.t) (patient : Customer) : bool :=
  if String.eqb (FilterState.hasConditions filters) "all" then false
  else
    let hasConditions :=
      match Js.or_null (medical_conditions patient) with
      | Some text => negb (String.eqb (trim text) "")
      | None => false
      end in
    (String.eqb (FilterState.hasConditions filters) "yes" && negb hasConditions)
    || (String.eqb (FilterState.hasConditions filters) "no" && hasConditions).

Definition excludedByRegistrationPeriod `{DateParser} (now : Date)
    (filters : FilterState.t) (patient : Customer) : bool :=
  if String.eqb (FilterState.registrationPeriod filters) "all" then false
  else
    let days := diffDays now (created_at patient) in
    if String.eqb (FilterState.registrationPeriod filters) "last-week" then gt days 7
    else if String.eqb (FilterState.registrationPeriod filters) "last-month" then gt days 30
    else if String.eqb (FilterState.registrationPeriod filters) "last-3-months" then gt days 90
    else if String.eqb (FilterState.registrationPeriod filters) "last-year" then gt days 365
    else false.

(** The callback of [patients.filter]; [now] is the value of [new Date()]
  while the list is filtered. *)
Definition keeps `{DateParser} `{CaseMapping} (now : Date) (searchTerm : string)
    (filters : FilterState.t) (patient : Customer) : Completion bool :=
  if negb (matchesSearch searchTerm patient) then Normal false
  else if excludedByGender filters patient then Normal false
  else if excludedByBloodGroup filters patient then Normal false
  else
    and_then (excludedByAgeRange now filters patient) (fun excluded =>
      if excluded then Normal false
      else if excludedByConditions filters patient then Normal false
      else if excludedByRegistrationPeriod now filters patient then Normal false
      else Normal true).

(** [patients.filter(...)]; the list that the page calls [patients] is an
  argument here. *)
Definition filteredPatients `{DateParser} `{CaseMapping} (now : Date)
    (patients : list Customer) (searchTerm : string) (filters : FilterState.t)
    : Completion (list Customer) :=
  Array_filter (keeps now searchTerm filters) patients.

(** *** The rest of the page's logic *)

(** [Array.from(new Set(values))]: the values in the order of their first
  occurrence. *)
Fixpoint unique (values : list string) : list string :=
  match values with
  | [] => []
  | v :: rest => v :: filter (fun w => negb (String.eqb v w)) (unique rest)
  end.

(** [patients.map(p => p.blood_group).filter(Boolean)]. *)
Fixpoint truthy_values (values : list (option string)) : list string :=
  match values with
  | [] => []
  | v :: rest =>
      match Js.or_null v with
      | Some text => text :: truthy_values rest
      | None => truthy_values rest
      end
  end.

Definition bloodGroups (patients : list Customer) : list string :=
  unique (truthy_values (map blood_group patients)).

(** [Object.values(filters)], in the order of the keys. *)
Definition values (filters : FilterState.t) : list string :=
  [ FilterState.gender filters; FilterState.bloodGroup filters;
    FilterState.ageRange filters; FilterState.hasConditions filters;
    FilterState.registrationPeriod filters ].

Definition activeFiltersCount (filters : FilterState.t) : Z :=
  Z.of_nat (List.length (filter (fun value => negb (String.eqb value "all")) (values filters))).

(** [clearFilters] and [updateFilter], as functions of the state they
  replace. *)
Definition clearFilters (prev : FilterState.t) : FilterState.t := {|
  FilterState.gender := "all";
  FilterState.bloodGroup := "all";
  FilterState.ageRange := "all";
  FilterState.hasConditions := "all";
  FilterState.registrationPeriod := "all"
|}.

(** [keyof FilterState]. *)
Inductive FilterKey :=
| key_gender | key_bloodGroup | key_ageRange | key_hasConditions | key_registrationPeriod.

Definition updateFilter (key : FilterKey) (value : string) (prev : FilterState.t)
    : FilterState.t := {|
  FilterState.gender :=
    match key with key_gender => value | _ => FilterState.gender prev end;
  FilterState.bloodGroup :=
    match key with key_bloodGroup => value | _ => FilterState.bloodGroup prev end;
  FilterState.ageRange :=
    match key with key_ageRange => value | _ => FilterState.ageRange prev end;
  FilterState.hasConditions :=
    match key with key_hasConditions => value | _ => FilterState.hasConditions prev end;
  FilterState.registrationPeriod :=
    match key with
    | key_registrationPeriod => value
    | _ => FilterState.registrationPeriod prev
    end
|}.

(** The four statistics cards, computed from the whole list. *)
Definition totalCount (patients : list Customer) : Z :=
  Z.of_nat (List.length patients).

Definition maleCount (patients : list Customer) : Z :=
  Z.of_nat (List.length (filter (fun p => Js.opt_eqb (gender p) "male") patients)).

Definition femaleCount (patients : list Customer) : Z :=
  Z.of_nat (List.length (filter (fun p => Js.opt_eqb (gender p) "female") patients)).

Definition createdThisMonth `{DateParser} (currentDate : Date) (p : Customer) : bool :=
  match new_Date (created_at p) with
  | Some createdDate =>
      (getMonth createdDate =? getMonth currentDate)
      && (getFullYear createdDate =? getFullYear currentDate)
  | None => false
  end.

Definition newThisMonth `{DateParser} (currentDate : Date) (patients : list Customer) : Z :=
  Z.of_nat (List.length (filter (createdThisMonth currentDate) patients)).

End Directory.

(** ** Histories of the store

  The databases that the program itself has set up: [initDatabase]
  without a file, followed by any calls of the operations that write. *)

Module History.
Import Store.

Inductive Call :=
| CreatePendingRegistrationsTable
| CreateUser (user : User.t) (salt now : string)
| UpdateUserPassword (email newPassword salt now : string)
| CreatePatient (patient : Patient.t) (now : string)
| CreateDoctor (doctor : Doctor.t) (now : string)
| CreatePendingRegistration (registration : PendingRegistration.t) (salt now : string)
| ApprovePendingRegistration (pendingId adminUserId : Z) (adminNotes : option string)
    (now : string)
| RejectPendingRegistration (pendingId adminUserId : Z) (adminNotes now : string)
| SuspendUser (userId : Z) (now : string)
| ReactivateUser (userId : Z) (now : string)
| DeleteUser (userId : Z).

Definition after `{Bcrypt} (c : Call) (db : Database) : Database :=
  match c with
  | CreatePendingRegistrationsTable => state_of (createPendingRegistrationsTable db)
  | CreateUser user salt now => state_of (createUser user salt now db)
  | UpdateUserPassword email newPassword salt now =>
      state_of (updateUserPassword email newPassword salt now db)
  | CreatePatient patient now => state_of (createPatient patient now db)
  | CreateDoctor doctor now => state_of (createDoctor doctor now db)
  | CreatePendingRegistration registration salt now =>
      state_of (createPendingRegistration registration salt now db)
  | ApprovePendingRegistration pendingId adminUserId adminNotes now =>
      state_of (approvePendingRegistration pendingId adminUserId adminNotes now db)
  | RejectPendingRegistration pendingId adminUserId adminNotes now =>
      state_of (rejectPendingRegistration pendingId adminUserId adminNotes now db)
  | SuspendUser userId now => state_of (suspendUser userId now db)
  | ReactivateUser userId now => state_of (reactivateUser userId now db)
  | DeleteUser userId => state_of (deleteUser userId db)
  end.

Definition replay `{Bcrypt} (calls : list Call) (db : Database) : Database :=
  fold_left (fun d c => after c d) calls db.

Inductive schema_created `{Bcrypt} : Database -> Prop :=
| created_fresh : schema_created (initDatabase None)
| created_after : forall db c, schema_created db -> schema_created (after c db).

(** A relation between the connection before and after that a computation
  maintains, whether it returns or throws. *)
Definition maintains {A} (R : Database -> Database -> Prop) (m : M A) : Prop :=
  forall db, R db (state_of (m db)).

Definition same_catalog (db db' : Database) : Prop := catalog db' = catalog db.

Definition is_admin (u : UserRow.t) : bool := String.eqb (UserRow.role u) "admin".

(** The rows of [users] whose role is admin, in table order. *)
Definition admins (db : Database) : list UserRow.t := filter is_admin (users db).

Definition same_admins (db db' : Database) : Prop := admins db' = admins db.

(** The keys that the schema declares unique are unique: rowids, user
  names and addresses in [users]; rowids and addresses in
  [pending_registrations]; rowids and the licence numbers that are not
  NULL in [doctors]. *)
Definition licences (rows : list DoctorRow.t) : list string :=
  flat_map (fun d => match DoctorRow.license_number d with
                     | Some l => [l]
                     | None => []
                     end) rows.

Definition users_keyed (db : Database) : Prop :=
  NoDup (map UserRow.id (users db))
  /\ NoDup (map UserRow.username (users db))
  /\ NoDup (map UserRow.email (users db)).

Definition pending_keyed (db : Database) : Prop :=
  NoDup (map PendingRow.id (pending_registrations db))
  /\ NoDup (map PendingRow.email (pending_registrations db)).

Definition doctors_keyed (db : Database) : Prop :=
  NoDup (map DoctorRow.id (doctors db))
  /\ NoDup (licences (doctors db)).

Definition well_keyed (db : Database) : Prop :=
  users_keyed db /\ pending_keyed db /\ doctors_keyed db.

Definition keeps_keys (db db' : Database) : Prop := well_keyed db -> well_keyed db'.

Definition counters_grow (db db' : Database) : Prop :=
  users_seq db <= users_seq db'
  /\ doctors_seq db <= doctors_seq db'
  /\ pending_registrations_seq db <= pending_registrations_seq db'.

(** The engine keeps a rowid as a 64-bit integer and hands it to the
  program as a number, which holds an integer exactly up to 2^53; it
  refuses an insert once a table's rowids are used up.  [next_rowid] is
  what the engine and the program see while the next rowid of each
  AUTOINCREMENT table that the module writes is within that bound. *)
Definition exact_rowid (rowid : Z) : Prop := rowid <= 2 ^ 53.

Definition rowids_exact (db : Database) : Prop :=
  exact_rowid (next_rowid (map UserRow.id (users db)) (users_seq db))
  /\ exact_rowid (next_rowid (map DoctorRow.id (doctors db)) (doctors_seq db))
  /\ exact_rowid (next_rowid (map PendingRow.id (pending_registrations db))
              (pending_registrations_seq db))
  /\ exact_rowid (next_rowid (map PatientRow.id (patients db)) (patients_seq db)).

(** What a column holds once [value || null] has been bound to it: NULL
  when the caller gave nothing or gave the empty value (the empty text,
  zero), and the caller's value otherwise. *)
Definition null_or_given {A} (empty : A -> bool) (given stored : option A) : Prop :=
  match given with
  | Some value => stored = if empty value then None else Some value
  | None => stored = None
  end.

(** What a row keeps when its password or its status is rewritten. *)
Definition identity_of (u : UserRow.t) :=
  (UserRow.id u, UserRow.username u, UserRow.email u, UserRow.role u,
   UserRow.full_name u, UserRow.phone u, UserRow.created_at u).

End History.

(** ** Sample data *)

Module Sample.
Import Store History.

(** A stand-in for the hash, for running the operations on examples. *)
Definition toy_bcrypt : Bcrypt :=
  {| bcrypt_hash := fun data _ salt => String.append "$2a$10$" (String.append salt data) |}.

Definition root : User.t := {|
  User.username := "root";
  User.email := "root@clinic.test";
  User.password := "changeme";
  User.role := "admin";
  User.full_name := "Clinic Admin";
  User.phone := None |}.

(** The database of a first start, then with the administrator in it. *)
Definition fresh : Database := initDatabase None.

Definition with_root : Database :=
  @after toy_bcrypt (CreateUser root "salt0" "2024-06-01 09:00:00") fresh.

(** A doctor who applies, and the store once the application is in and
  once it has been approved by the administrator (user 1). *)
Definition ho : PendingRegistration.t := {|
  PendingRegistration.username := "drho";
  PendingRegistration.email := "ho@clinic.test";
  PendingRegistration.password := "s3cret";
  PendingRegistration.role := StagedDoctor;
  PendingRegistration.full_name := "Dr Ho";
  PendingRegistration.phone := Some "555-0101";
  PendingRegistration.specialization := Some "cardiology";
  PendingRegistration.license_number := Some "LIC-1";
  PendingRegistration.experience_years := Some 7;
  PendingRegistration.consultation_fee := Some (150 # 1)%Q;
  PendingRegistration.available_days := Some "Mon,Tue";
  PendingRegistration.available_time_start := Some "09:00";
  PendingRegistration.available_time_end := Some "17:00";
  PendingRegistration.department := None;
  PendingRegistration.employee_id := None |}.

Definition with_ho : Database :=
  @after toy_bcrypt (CreatePendingRegistration ho "salt1" "2024-06-02 08:00:00") with_root.

Definition with_ho_approved : Database :=
  @after toy_bcrypt (ApprovePendingRegistration 1 1 None "2024-06-03 08:00:00") with_ho.

Definition with_ho_rejected : Database :=
  @after toy_bcrypt
    (RejectPendingRegistration 1 1 "licence not verified" "2024-06-03 08:00:00") with_ho.

(** A second doctor who applies with the licence number of the first. *)
Definition lee : PendingRegistration.t := {|
  PendingRegistration.username := "drlee";
  PendingRegistration.email := "lee@clinic.test";
  PendingRegistration.password := "pa55word";
  PendingRegistration.role := StagedDoctor;
  PendingRegistration.full_name := "Dr Lee";
  PendingRegistration.phone := None;
  PendingRegistration.specialization := Some "neurology";
  PendingRegistration.license_number := Some "LIC-1";
  PendingRegistration.experience_years := Some 3;
  PendingRegistration.consultation_fee := Some (120 # 1)%Q;
  PendingRegistration.available_days := Some "Wed";
  PendingRegistration.available_time_start := Some "10:00";
  PendingRegistration.available_time_end := Some "14:00";
  PendingRegistration.department := None;
  PendingRegistration.employee_id := None |}.

Definition with_lee : Database :=
  @after toy_bcrypt (CreatePendingRegistration lee "salt5" "2024-06-04 08:00:00")
    with_ho_approved.

(** An applicant who uses the administrator's e-mail address. *)
Definition impostor : PendingRegistration.t := {|
  PendingRegistration.username := "root2";
  PendingRegistration.email := "root@clinic.test";
  PendingRegistration.password := "letmein";
  PendingRegistration.role := StagedStaff;
  PendingRegistration.full_name := "Not The Admin";
  PendingRegistration.phone := None;
  PendingRegistration.specialization := None;
  PendingRegistration.license_number := None;
  PendingRegistration.experience_years := None;
  PendingRegistration.consultation_fee := None;
  PendingRegistration.available_days := None;
  PendingRegistration.available_time_start := None;
  PendingRegistration.available_time_end := None;
  PendingRegistration.department := Some "front desk";
  PendingRegistration.employee_id := Some "E-9" |}.

(** An applicant with an address of their own who asks for the user name
  of the administrator. *)
Definition namesake : PendingRegistration.t := {|
  PendingRegistration.username := "root";
  PendingRegistration.email := "rootham@clinic.test";
  PendingRegistration.password := "tr0ub4dor";
  PendingRegistration.role := StagedStaff;
  PendingRegistration.full_name := "Robin Ootham";
  PendingRegistration.phone := None;
  PendingRegistration.specialization := None;
  PendingRegistration.license_number := None;
  PendingRegistration.experience_years := None;
  PendingRegistration.consultation_fee := None;
  PendingRegistration.available_days := None;
  PendingRegistration.available_time_start := None;
  PendingRegistration.available_time_end := None;
  PendingRegistration.department := Some "records";
  PendingRegistration.employee_id := Some "E-12" |}.

(** A customer (user 2) with her profile row in [customers], first on the
  database of a first start, then on one whose file already had a
  [patients] table when it was loaded. *)
Definition amy : User.t := {|
  User.username := "amy";
  User.email := "amy@example.test";
  User.password := "hunter2";
  User.role := "customer";
  User.full_name := "Amy Pond";
  User.phone := Some "555-0199" |}.

Definition amy_profile : CustomerRow.t := {|
  CustomerRow.id := 1;
  CustomerRow.profile := {|
    Patient.user_id := 2;
    Patient.date_of_birth := Some "1989-04-12";
    Patient.gender := Some "female";
    Patient.blood_group := Some "O+";
    Patient.address := None;
    Patient.emergency_contact := None;
    Patient.emergency_contact_name := None;
    Patient.emergency_contact_relation := None;
    Patient.allergies := None;
    Patient.medical_conditions := Some "asthma";
    Patient.current_medications := None;
    Patient.insurance := None;
    Patient.insurance_policy_number := None;
    Patient.occupation := None;
    Patient.height := Some 165;
    Patient.weight := Some 58 |};
  CustomerRow.created_at := "2024-06-01 09:30:00";
  CustomerRow.updated_at := "2024-06-01 09:30:00" |}.

Definition with_amy : Database :=
  with_customers [amy_profile]
    (@after toy_bcrypt (CreateUser amy "salt6" "2024-06-01 09:30:00") with_root).

Definition older_file : Database := with_catalog ["patients"] new_Database.

Definition older_with_amy : Database :=
  with_customers [amy_profile]
    (@replay toy_bcrypt
       [CreateUser root "salt0" "2024-06-01 09:00:00";
        CreateUser amy "salt6" "2024-06-01 09:30:00"]
       (initDatabase (Some (export older_file)))).

(** What a test looks at in a registration: id, status, reviewer, notes. *)
Definition decision (r : PendingRow.t) : Z * option string * option Z * option string :=
  (PendingRow.id r, PendingRow.status r, PendingRow.approved_by r, PendingRow.admin_notes r).

(** What a test looks at in a user: id, username, role, status. *)
Definition account (u : UserRow.t) : Z * string * string * option string :=
  (UserRow.id u, UserRow.username u, UserRow.role u, UserRow.status u).

End Sample.

(** ** Calendar vocabulary and sample patients for the directory *)

Module Calendar.
Import Directory.

Definition day_ms : Z := 1000 * 60 * 60 * 24.

Definition leap (y : Z) : bool :=
  ((y mod 4 =? 0) && negb (y mod 100 =? 0)) || (y mod 400 =? 0).

(** Days of month [m] (counted from 0) of year [y]. *)
Definition days_in_month (y m : Z) : Z :=
  if m =? 1 then (if leap y then 29 else 28)
  else if existsb (Z.eqb m) [3; 5; 8; 10] then 30
  else 31.

(** [b] is the same day of the year as [d], [n] years earlier. *)
Definition years_earlier (n : Z) (d b : Date) : Prop :=
  getFullYear b = getFullYear d - n
  /\ getMonth b = getMonth d
  /\ getDate b = getDate d.

(** [b] is the calendar day before [d]. *)
Definition day_earlier (d b : Date) : Prop :=
  if 1 <? getDate d
  then getFullYear b = getFullYear d
       /\ getMonth b = getMonth d
       /\ getDate b = getDate d - 1
  else if 0 <? getMonth d
  then getFullYear b = getFullYear d
       /\ getMonth b = getMonth d - 1
       /\ getDate b = days_in_month (getFullYear b) (getMonth b)
  else getFullYear b = getFullYear d - 1
       /\ getMonth b = 11
       /\ getDate b = 31.

(** The patient has a date of birth and it reads as [birth]. *)
Definition born `{DateParser} (patient : Customer) (birth : Date) : Prop :=
  exists text,
    date_of_birth patient = Some text /\ text <> "" /\ new_Date text = Some birth.

(** The filter with one constraint set and no search text. *)
Definition only_ageRange (bracket : string) : FilterState.t := {|
  FilterState.gender := "all";
  FilterState.bloodGroup := "all";
  FilterState.ageRange := bracket;
  FilterState.hasConditions := "all";
  FilterState.registrationPeriod := "all"
|}.

Definition only_registrationPeriod (bucket : string) : FilterState.t := {|
  FilterState.gender := "all";
  FilterState.bloodGroup := "all";
  FilterState.ageRange := "all";
  FilterState.hasConditions := "all";
  FilterState.registrationPeriod := bucket
|}.

(** A parser given by a table of the texts it reads. *)
Definition table_parser (table : list (string * Date)) : DateParser :=
  {| new_Date := fun text =>
       option_map snd (find (fun entry => String.eqb (fst entry) text) table) |}.

Definition utc (time year month date : Z) : Date :=
  {| getTime := time; getFullYear := year; getMonth := month; getDate := date |}.

(** Noon of 15 June 2024, and the texts of the examples. *)
Definition noon : Date := utc 1718452800000 2024 5 15.

Definition sample_parser : DateParser :=
  table_parser
    [ ("2006-06-15", utc 1150329600000 2006 5 15);
      ("2006-06-14", utc 1150243200000 2006 5 14);
      ("2005-06-15", utc 1118793600000 2005 5 15);
      ("2024-06-15 12:00:00", utc 1718452800000 2024 5 15);
      ("2024-06-12 12:00:00", utc 1718193600000 2024 5 12);
      ("2024-06-08 12:00:00", utc 1717848000000 2024 5 8);
      ("2024-06-07 12:00:00", utc 1717761600000 2024 5 7);
      ("2024-06-14 12:01:00", utc 1718366460000 2024 5 14) ].

Definition patient (name : string) (dob : option string) (created : string) : Customer := {|
  user_id := 7;
  full_name := name;
  email := "patient@example.test";
  phone := None;
  date_of_birth := dob;
  gender := Some "female";
  blood_group := Some "O+";
  address := None;
  medical_conditions := None;
  created_at := created
|}.

Definition only_gender (value : string) : FilterState.t := {|
  FilterState.gender := value;
  FilterState.bloodGroup := "all";
  FilterState.ageRange := "all";
  FilterState.hasConditions := "all";
  FilterState.registrationPeriod := "all"
|}.

Definition only_bloodGroup (value : string) : FilterState.t := {|
  FilterState.gender := "all";
  FilterState.bloodGroup := value;
  FilterState.ageRange := "all";
  FilterState.hasConditions := "all";
  FilterState.registrationPeriod := "all"
|}.

Definition only_hasConditions (value : string) : FilterState.t := {|
  FilterState.gender := "all";
  FilterState.bloodGroup := "all";
  FilterState.ageRange := "all";
  FilterState.hasConditions := value;
  FilterState.registrationPeriod := "all"
|}.

(** [filters[key]]. *)
Definition value_of (key : FilterKey) (filters : FilterState.t) : string :=
  match key with
  | key_gender => FilterState.gender filters
  | key_bloodGroup => FilterState.bloodGroup filters
  | key_ageRange => FilterState.ageRange filters
  | key_hasConditions => FilterState.hasConditions filters
  | key_registrationPeriod => FilterState.registrationPeriod filters
  end.

(** 1 for a value that constrains, 0 for "all". *)
Definition active (value : string) : Z := if String.eqb value "all" then 0 else 1.

(** The options of the age filter and of the registration filter. *)
Definition brackets : list string := ["0-18"; "19-30"; "31-50"; "51+"].

Definition buckets : list string :=
  ["last-week"; "last-month"; "last-3-months"; "last-year"].

(** The record gets as far as the call of [calculateAge]: the search text
  matches, the gender and blood group blocks let it through, an age range
  is selected and the record has a date of birth. *)
Definition calls_calculateAge `{CaseMapping} (searchTerm : string)
    (filters : FilterState.t) (p : Customer) : bool :=
  matchesSearch searchTerm p
  && negb (excludedByGender filters p)
  && negb (excludedByBloodGroup filters p)
  && negb (String.eqb (FilterState.ageRange filters) "all")
  && Js.truthy (date_of_birth p).

(** The age ranges that leave out a record of age 0. *)
Definition excludedAtAgeZero (filters : FilterState.t) : bool :=
  existsb (String.eqb (FilterState.ageRange filters)) ["19-30"; "31-50"; "51+"].

(** The six tests of the callback together, for a record that does not
  get as far as the call of [calculateAge]. *)
Definition passes `{DateParser} `{CaseMapping} (now : Date) (searchTerm : string)
    (filters : FilterState.t) (p : Customer) : bool :=
  matchesSearch searchTerm p
  && negb (excludedByGender filters p)
  && negb (excludedByBloodGroup filters p)
  && negb (excludedAtAgeZero filters)
  && negb (excludedByConditions filters p)
  && negb (excludedByRegistrationPeriod now filters p).

(** The text is made of white space only: it is a sequence of characters
  of [white_space], possibly none. *)
Definition blank (text : string) : Prop :=
  exists spaces,
    Forall (fun space => In space white_space) spaces
    /\ list_ascii_of_string text = List.concat spaces.

(** A case mapping for the examples, whose texts are ASCII. *)
Definition ascii_folding : CaseMapping :=
  {| toLowerCase := lower_ascii; toLowerCase_ascii := fun s _ => eq_refl |}.

End Calendar.

(** * Properties *)

Import Store History.
Local Open Scope store_scope.

(** ** Relations that every step of a computation maintains *)

Section Preservation.

Variable R : Database -> Database -> Prop.
Hypothesis R_refl : forall db, R db db.
Hypothesis R_trans : forall a b c, R a b -> R b c -> R a c.

Lemma maintains_ret {A} (a : A) : maintains R (ret a).
Proof. intros db. apply R_refl. Qed.

Lemma maintains_throw {A} (e : Error) : maintains R (@throw A e).
Proof. intros db. apply R_refl. Qed.

Lemma maintains_bind {A B} (m : M A) (k : A -> M B) :
  maintains R m -> (forall a, maintains R (k a)) -> maintains R (bind m k).
Proof.
  intros Hm Hk db. unfold bind. specialize (Hm db).
  destruct (m db) as [a db'|e db']; cbn [state_of] in *.
  - eapply R_trans; [exact Hm | apply Hk].
  - exact Hm.
Qed.

Lemma maintains_try_catch {A} (m : M A) (h : Error -> M A) :
  maintains R m -> (forall e, maintains R (h e)) -> maintains R (try_catch m h).
Proof.
  intros Hm Hh db. unfold try_catch. specialize (Hm db).
  destruct (m db) as [a db'|e db']; cbn [state_of] in *.
  - exact Hm.
  - eapply R_trans; [exact Hm | apply Hh].
Qed.

End Preservation.

(** ** The catalog never changes after set-up *)

Lemma same_catalog_refl db : same_catalog db db.
Proof. reflexivity. Qed.

Lemma same_catalog_trans a b c :
  same_catalog a b -> same_catalog b c -> same_catalog a c.
Proof. unfold same_catalog. congruence. Qed.

Ltac split_ifs :=
  repeat match goal with
         | |- context [if ?b then _ else _] => destruct b eqn:?
         end.

Lemma catalog_create_table name db :
  catalog (create_table_if_not_exists name db) =
  if table_exists name db then catalog db else catalog db ++ [name].
Proof.
  unfold create_table_if_not_exists. destruct (table_exists name db); reflexivity.
Qed.

Ltac maintains_by refl trans close :=
  repeat match goal with
         | |- forall _, _ => intro
         | |- maintains _ (try_catch _ _) => apply (maintains_try_catch _ trans)
         | |- maintains _ (bind _ _) => apply (maintains_bind _ trans)
         | |- maintains _ (ret _) => apply (maintains_ret _ refl)
         | |- maintains _ (throw _) => apply (maintains_throw _ refl)
         | |- maintains _ (if ?b then _ else _) => destruct b
         | |- maintains _ (match ?x with _ => _ end) => destruct x
         | |- maintains _ _ => solve [close]
         end.

Ltac statement_catalog :=
  intros db; unfold same_catalog, on_table; split_ifs; reflexivity.

Lemma catalog_insert_users u e p r f ph now :
  maintains same_catalog (insert_users u e p r f ph now).
Proof. unfold insert_users. statement_catalog. Qed.

Lemma catalog_update_users_password p e now :
  maintains same_catalog (update_users_password p e now).
Proof. unfold update_users_password. statement_catalog. Qed.

Lemma catalog_insert_patients p now :
  maintains same_catalog (insert_patients p now).
Proof. unfold insert_patients. statement_catalog. Qed.

Lemma catalog_insert_doctors d now :
  maintains same_catalog (insert_doctors d now).
Proof. unfold insert_doctors. statement_catalog. Qed.

Lemma catalog_insert_pending u e p r f ph sp li ex fee ad ts te dep emp now :
  maintains same_catalog
    (insert_pending_registrations u e p r f ph sp li ex fee ad ts te dep emp now).
Proof. unfold insert_pending_registrations. statement_catalog. Qed.

Lemma catalog_update_pending st by_ notes id now :
  maintains same_catalog (update_pending_registrations st by_ notes id now).
Proof. unfold update_pending_registrations. statement_catalog. Qed.

Lemma catalog_update_users_status st id now :
  maintains same_catalog (update_users_status st id now).
Proof. unfold update_users_status. statement_catalog. Qed.

Lemma catalog_select_role id : maintains same_catalog (select_role_by_id id).
Proof. unfold select_role_by_id. statement_catalog. Qed.

Lemma catalog_select_pending_by_id id :
  maintains same_catalog (select_pending_registrations_by_id id).
Proof. unfold select_pending_registrations_by_id. statement_catalog. Qed.

Lemma catalog_select_rowid : maintains same_catalog select_last_insert_rowid.
Proof. intros db. reflexivity. Qed.

Lemma catalog_save : maintains same_catalog saveDatabase.
Proof. intros db. reflexivity. Qed.

Lemma catalog_delete_patients id :
  maintains same_catalog (delete_patients_by_user_id id).
Proof. unfold delete_patients_by_user_id. statement_catalog. Qed.

Lemma catalog_delete_doctors id :
  maintains same_catalog (delete_doctors_by_user_id id).
Proof. unfold delete_doctors_by_user_id. statement_catalog. Qed.

Lemma catalog_delete_users id :
  maintains same_catalog (delete_users_non_admin id).
Proof. unfold delete_users_non_admin. statement_catalog. Qed.

Create HintDb catalog_db discriminated.

#[local] Hint Resolve catalog_insert_users catalog_update_users_password
  catalog_insert_patients catalog_insert_doctors catalog_insert_pending
  catalog_update_pending catalog_update_users_status catalog_select_role
  catalog_select_pending_by_id catalog_select_rowid catalog_save
  catalog_delete_patients catalog_delete_doctors catalog_delete_users
  : catalog_db.

Ltac catalog_kept :=
  maintains_by same_catalog_refl same_catalog_trans ltac:(auto with catalog_db).

Lemma catalog_createDoctor d now : maintains same_catalog (createDoctor d now).
Proof. unfold createDoctor. catalog_kept. Qed.

#[local] Hint Resolve catalog_createDoctor : catalog_db.

Lemma catalog_after `{Bcrypt} (c : Call) (db : Database) :
  c <> CreatePendingRegistrationsTable -> catalog (after c db) = catalog db.
Proof.
  intros Hc. revert db. change (forall db, same_catalog db (after c db)).
  destruct c; [congruence|..]; clear Hc; cbn [after];
    [ change (maintains same_catalog (createUser user salt now))
    | change (maintains same_catalog (updateUserPassword email newPassword salt now))
    | change (maintains same_catalog (createPatient patient now))
    | change (maintains same_catalog (createDoctor doctor now))
    | change (maintains same_catalog (createPendingRegistration registration salt now))
    | change (maintains same_catalog
                (approvePendingRegistration pendingId adminUserId adminNotes now))
    | change (maintains same_catalog
                (rejectPendingRegistration pendingId adminUserId adminNotes now))
    | change (maintains same_catalog (suspendUser userId now))
    | change (maintains same_catalog (reactivateUser userId now))
    | change (maintains same_catalog (deleteUser userId)) ];
    unfold createUser, updateUserPassword, createPatient,
      createPendingRegistration, approvePendingRegistration,
      rejectPendingRegistration, suspendUser, reactivateUser, deleteUser;
    cbv zeta; catalog_kept.
Qed.

Lemma schema_created_catalog `{Bcrypt} db :
  schema_created db -> catalog db = schema_tables.
Proof.
  induction 1 as [|db c _ IH].
  - reflexivity.
  - destruct c; try (rewrite catalog_after by discriminate; exact IH).
    cbn [after]. unfold createPendingRegistrationsTable, try_catch, bind, saveDatabase, ret.
    cbn [state_of]. rewrite catalog_create_table.
    unfold table_exists. rewrite IH. reflexivity.
Qed.

(** ** The [patients] table *)

Lemma schema_has_no_patients db :
  catalog db = schema_tables -> table_exists "patients" db = false.
Proof. intros Hc. unfold table_exists. rewrite Hc. reflexivity. Qed.

Lemma createPatient_without_table patient now db :
  table_exists "patients" db = false ->
  createPatient patient now db = Throws (NoSuchTable "patients") db.
Proof.
  intros Hno. unfold createPatient, try_catch, bind, insert_patients, on_table.
  rewrite Hno. reflexivity.
Qed.

Lemma getAllPatients_without_table db :
  table_exists "patients" db = false -> getAllPatients db = Returns [] db.
Proof.
  intros Hno.
  unfold getAllPatients, try_catch, bind, select_users_join_patients, on_table.
  rewrite Hno. destruct (table_exists "users" db); reflexivity.
Qed.

(** C3. On a database set up by [createTables] and written only by this
  module, [createPatient] throws (no such table: patients) and leaves the
  store as it was, [getAllPatients] returns the empty list, and the
  listing handler answers a doctor or an admin with no patients. *)
Theorem patients_table_never_exists `{Bcrypt} (db : Database)
    (patient : Patient.t) (now role : string) :
  schema_created db ->
  createPatient patient now db = Throws (NoSuchTable "patients") db
  /\ getAllPatients db = Returns [] db
  /\ Routes.handleGetPatients role db =
     Returns
       (if negb (String.eqb role "doctor") && negb (String.eqb role "admin")
        then Routes.Status 403 "Unauthorized to view patients list"
        else Routes.Json [] 0)
       db.
Proof.
  intros Hdb.
  pose proof (schema_has_no_patients db (schema_created_catalog db Hdb)) as Hno.
  split; [|split].
  - apply createPatient_without_table, Hno.
  - apply getAllPatients_without_table, Hno.
  - unfold Routes.handleGetPatients, try_catch, bind.
    destruct (negb (String.eqb role "doctor") && negb (String.eqb role "admin")).
    + reflexivity.
    + rewrite (getAllPatients_without_table db Hno). reflexivity.
Qed.

Lemma patients_table_never_exists_witness :
  schema_created (H := Sample.toy_bcrypt) Sample.with_root
  /\ getAllPatients Sample.with_root = Returns [] Sample.with_root.
Proof.
  assert (Hdb : schema_created (H := Sample.toy_bcrypt) Sample.with_root).
  { unfold Sample.with_root, Sample.fresh. apply created_after, created_fresh. }
  split; [exact Hdb|].
  exact (proj1 (proj2 (patients_table_never_exists (H := Sample.toy_bcrypt)
                         Sample.with_root
                         {| Patient.user_id := 1;
                            Patient.date_of_birth := Some "1990-01-01";
                            Patient.gender := Some "female";
                            Patient.blood_group := None;
                            Patient.address := None;
                            Patient.emergency_contact := None;
                            Patient.emergency_contact_name := None;
                            Patient.emergency_contact_relation := None;
                            Patient.allergies := None;
                            Patient.medical_conditions := None;
                            Patient.current_medications := None;
                            Patient.insurance := None;
                            Patient.insurance_policy_number := None;
                            Patient.occupation := None;
                            Patient.height := None;
                            Patient.weight := None |}
                         "2024-06-01 10:00:00" "doctor" Hdb))).
Defined.

(** ** Administrator rows *)

Lemma admins_after_update status id now rows :
  filter is_admin
    (map (fun u => if non_admin_with_id id u then with_status status now u else u) rows)
  = filter is_admin rows.
Proof.
  induction rows as [|u rows IH]; [reflexivity|].
  cbn [map filter]. rewrite IH.
  unfold non_admin_with_id, is_admin.
  destruct (UserRow.id u =? id); cbn [andb]; [|reflexivity].
  destruct (String.eqb (UserRow.role u) "admin") eqn:Hrole; cbn [negb].
  - rewrite Hrole. reflexivity.
  - cbn [with_status UserRow.role]. rewrite Hrole. reflexivity.
Qed.

Lemma admins_after_delete id rows :
  filter is_admin (filter (fun u => negb (non_admin_with_id id u)) rows)
  = filter is_admin rows.
Proof.
  induction rows as [|u rows IH]; [reflexivity|].
  cbn [filter]. unfold non_admin_with_id at 1, is_admin at 2.
  destruct (UserRow.id u =? id); cbn [andb negb filter].
  - destruct (String.eqb (UserRow.role u) "admin") eqn:Hrole; cbn [negb filter].
    + unfold is_admin at 1. rewrite Hrole, IH. reflexivity.
    + exact IH.
  - fold (is_admin u). destruct (is_admin u); rewrite IH; reflexivity.
Qed.

Lemma same_admins_refl db : same_admins db db.
Proof. reflexivity. Qed.

Lemma same_admins_trans a b c : same_admins a b -> same_admins b c -> same_admins a c.
Proof. unfold same_admins. congruence. Qed.

Lemma admins_update_users_status status id now :
  maintains same_admins (update_users_status status id now).
Proof.
  intros db. unfold update_users_status, on_table, same_admins, admins.
  destruct (table_exists "users" db); cbn [state_of users with_users]; [|reflexivity].
  apply admins_after_update.
Qed.

Lemma admins_select_role id : maintains same_admins (select_role_by_id id).
Proof.
  intros db. unfold select_role_by_id, on_table.
  destruct (table_exists "users" db); reflexivity.
Qed.

Lemma admins_delete_patients id : maintains same_admins (delete_patients_by_user_id id).
Proof.
  intros db. unfold delete_patients_by_user_id, on_table.
  destruct (table_exists "patients" db); reflexivity.
Qed.

Lemma admins_delete_doctors id : maintains same_admins (delete_doctors_by_user_id id).
Proof.
  intros db. unfold delete_doctors_by_user_id, on_table.
  destruct (table_exists "doctors" db); reflexivity.
Qed.

Lemma admins_delete_users id : maintains same_admins (delete_users_non_admin id).
Proof.
  intros db. unfold delete_users_non_admin, on_table, same_admins, admins.
  destruct (table_exists "users" db); cbn [state_of]; [|reflexivity].
  destruct (foreign_keys db && existsb (non_admin_with_id id) (users db));
    cbn [users cascade_user with_customers with_doctors with_users];
    apply admins_after_delete.
Qed.

Lemma admins_save : maintains same_admins saveDatabase.
Proof. intros db. reflexivity. Qed.

Create HintDb admins_db discriminated.

#[local] Hint Resolve admins_update_users_status admins_select_role
  admins_delete_patients admins_delete_doctors admins_delete_users admins_save
  : admins_db.

Ltac admins_kept :=
  maintains_by same_admins_refl same_admins_trans ltac:(auto with admins_db).

(** C10. [suspendUser], [reactivateUser] and [deleteUser] leave every row
  of [users] whose role is admin exactly as it was: whatever the user id
  they are called with, and whether they return true or false, the admin
  rows of the table afterwards are the admin rows before, unchanged and in
  the same order. *)
Theorem admin_rows_untouched (db : Database) (userId : Z) (now : string) :
  admins (state_of (suspendUser userId now db)) = admins db
  /\ admins (state_of (reactivateUser userId now db)) = admins db
  /\ admins (state_of (deleteUser userId db)) = admins db.
Proof.
  split; [|split].
  - revert db. change (maintains same_admins (suspendUser userId now)).
    unfold suspendUser. admins_kept.
  - revert db. change (maintains same_admins (reactivateUser userId now)).
    unfold reactivateUser. admins_kept.
  - revert db. change (maintains same_admins (deleteUser userId)).
    unfold deleteUser. admins_kept.
Qed.

(** An administrator cannot be deleted: the call gives up before any
  statement that writes. *)
Lemma deleteUser_admin db userId u rest :
  table_exists "users" db = true ->
  filter (fun u => UserRow.id u =? userId) (users db) = u :: rest ->
  UserRow.role u = "admin" ->
  deleteUser userId db = Returns false db.
Proof.
  intros Ht Hsel Hrole.
  unfold deleteUser, try_catch, bind, select_role_by_id, on_table.
  rewrite Ht, Hsel. cbn [map]. rewrite Hrole. reflexivity.
Qed.

(** ** Rejection *)

Lemma decided_rows_ids status by_ notes now id rows :
  map PendingRow.id
    (map (fun r => if PendingRow.id r =? id
                   then decided status by_ notes now r else r) rows)
  = map PendingRow.id rows.
Proof.
  induction rows as [|r rows IH]; [reflexivity|].
  cbn [map]. rewrite IH. destruct (PendingRow.id r =? id); reflexivity.
Qed.

Lemma decided_rows_untouched status by_ notes now id rows :
  filter (fun r => PendingRow.id r =? id) rows = [] ->
  map (fun r => if PendingRow.id r =? id
                then decided status by_ notes now r else r) rows
  = rows.
Proof.
  induction rows as [|r rows IH]; [reflexivity|].
  cbn [map filter]. destruct (PendingRow.id r =? id); [discriminate|].
  intros Hnone. rewrite (IH Hnone). reflexivity.
Qed.

Lemma decided_rows_in status by_ notes now id rows r' :
  In r'
    (map (fun r => if PendingRow.id r =? id
                   then decided status by_ notes now r else r) rows) ->
  (PendingRow.id r' = id
   /\ exists r, In r rows /\ PendingRow.id r = id
                /\ r' = decided status by_ notes now r)
  \/ (PendingRow.id r' <> id /\ In r' rows).
Proof.
  intros Hin. apply in_map_iff in Hin. destruct Hin as [r [Hr Hin]].
  destruct (PendingRow.id r =? id) eqn:Hid.
  - apply Z.eqb_eq in Hid. left. subst r'. split; [exact Hid|].
    exists r. auto.
  - apply Z.eqb_neq in Hid. right. subst r'. auto.
Qed.

Lemma with_pending_registrations_same db :
  with_pending_registrations (pending_registrations db) db = db.
Proof. destruct db; reflexivity. Qed.

(** C4 (as the code has it). [rejectPendingRegistration] validates
  nothing: with the table in place it returns true for any notes, the
  empty text included, and for any id.  It adds no user and adds or
  removes no registration; every registration with that id ends with
  status rejected and the given reviewer, notes and timestamp, whatever its
  status was, every other registration is as before, and when no
  registration has that id the store is unchanged. *)
Theorem reject_overwrites_unconditionally (db : Database)
    (pendingId adminUserId : Z) (adminNotes now : string) :
  table_exists "pending_registrations" db = true ->
  exists db',
    rejectPendingRegistration pendingId adminUserId adminNotes now db = Returns true db'
    /\ users db' = users db
    /\ map PendingRow.id (pending_registrations db')
       = map PendingRow.id (pending_registrations db)
    /\ (forall r', In r' (pending_registrations db') ->
          PendingRow.id r' = pendingId ->
          PendingRow.status r' = Some "rejected"
          /\ PendingRow.approved_by r' = Some adminUserId
          /\ PendingRow.admin_notes r' = Some adminNotes
          /\ PendingRow.updated_at r' = now)
    /\ (forall r', In r' (pending_registrations db') ->
          PendingRow.id r' <> pendingId -> In r' (pending_registrations db))
    /\ (filter (fun r => PendingRow.id r =? pendingId) (pending_registrations db) = [] ->
        db' = db).
Proof.
  intros Ht.
  unfold rejectPendingRegistration, try_catch, bind, update_pending_registrations,
    on_table, saveDatabase, ret.
  rewrite Ht. eexists. split; [reflexivity|].
  cbn [users pending_registrations with_pending_registrations].
  split; [reflexivity|]. split; [apply decided_rows_ids|].
  split; [|split].
  - intros r' Hin Hid.
    apply decided_rows_in in Hin. destruct Hin as [[_ [r [_ [_ ->]]]]|[Hne _]].
    + cbn. auto.
    + contradiction.
  - intros r' Hin Hne.
    apply decided_rows_in in Hin. destruct Hin as [[Hid _]|[_ Hin]].
    + contradiction.
    + exact Hin.
  - intros Hnone. rewrite (decided_rows_untouched _ _ _ _ _ _ Hnone).
    apply with_pending_registrations_same.
Qed.

Lemma reject_overwrites_unconditionally_witness :
  table_exists "pending_registrations" Sample.with_ho = true
  /\ exists db',
       rejectPendingRegistration 1 1 "" "2024-06-04 08:00:00" Sample.with_ho
       = Returns true db'.
Proof.
  split; [reflexivity|].
  destruct (reject_overwrites_unconditionally Sample.with_ho 1 1 ""
              "2024-06-04 08:00:00" eq_refl) as [db' [Hrun _]].
  exists db'. exact Hrun.
Defined.

(** C4 fails as stated: empty notes are accepted, an unknown id is not
  reported, and a registration that was approved is turned into a rejected
  one. *)
Lemma reject_validates_nothing :
  (exists db',
     rejectPendingRegistration 1 1 "" "2024-06-04 08:00:00" Sample.with_ho
     = Returns true db'
     /\ map Sample.decision (pending_registrations db')
        = [(1, Some "rejected", Some 1, Some "")])
  /\ rejectPendingRegistration 42 1 "no such id" "2024-06-04 08:00:00" Sample.with_ho
     = Returns true Sample.with_ho
  /\ (map Sample.decision (pending_registrations Sample.with_ho_approved)
      = [(1, Some "approved", Some 1, None)]
      /\ exists db',
           rejectPendingRegistration 1 1 "changed my mind" "2024-06-04 08:00:00"
             Sample.with_ho_approved
           = Returns true db'
           /\ map Sample.decision (pending_registrations db')
              = [(1, Some "rejected", Some 1, Some "changed my mind")]).
Proof.
  split; [|split; [|split]].
  - eexists. split; vm_compute; reflexivity.
  - vm_compute. reflexivity.
  - vm_compute. reflexivity.
  - eexists. split; vm_compute; reflexivity.
Qed.

(** ** Submission *)

Lemma fold_max_upper ids x : In x ids -> x <= fold_right Z.max 0 ids.
Proof.
  induction ids as [|y ids IH]; [intros []|].
  cbn [fold_right In]. intros [->|Hin]; [lia|].
  specialize (IH Hin). lia.
Qed.

Lemma next_rowid_fresh ids seq : ~ In (next_rowid ids seq) ids.
Proof.
  intros Hin. apply fold_max_upper in Hin. unfold next_rowid in Hin. lia.
Qed.

Lemma pending_unique_clash_true email rows :
  pending_unique_clash email rows = true <->
  exists r, In r rows /\ PendingRow.email r = email.
Proof.
  unfold pending_unique_clash. rewrite existsb_exists.
  split; intros [r [Hin He]]; exists r; split; auto; apply String.eqb_eq; exact He.
Qed.

Lemma pending_unique_clash_false email rows :
  pending_unique_clash email rows = false <->
  forall r, In r rows -> PendingRow.email r <> email.
Proof.
  split.
  - intros Hno r Hin He.
    assert (Hyes : pending_unique_clash email rows = true)
      by (apply pending_unique_clash_true; eauto).
    congruence.
  - intros Hall. destruct (pending_unique_clash email rows) eqn:Hc; [|reflexivity].
    apply pending_unique_clash_true in Hc. destruct Hc as [r [Hin He]].
    destruct (Hall r Hin He).
Qed.

(** C5 (as the code has it). [createPendingRegistration] looks at the
  [pending_registrations] table only.  When a registration of any status
  already has the candidate's e-mail address, the insert violates the
  uniqueness constraint of that table, the call throws that error and the
  store is unchanged.  Otherwise, whatever the [users] table holds, the
  call returns a fresh id and the store gains exactly one registration:
  status pending, the submitted role, and the hash of the submitted
  password. *)
Theorem submit_checks_registrations_only `{Bcrypt} (db : Database)
    (registration : PendingRegistration.t) (salt now : string) :
  table_exists "pending_registrations" db = true ->
  ((exists r, In r (pending_registrations db)
              /\ PendingRow.email r = PendingRegistration.email registration) ->
   createPendingRegistration registration salt now db
   = Throws (UniqueConstraintFailed "pending_registrations") db)
  /\ ((forall r, In r (pending_registrations db) ->
                 PendingRow.email r <> PendingRegistration.email registration) ->
      exists pendingId row db',
        createPendingRegistration registration salt now db = Returns pendingId db'
        /\ pending_registrations db' = pending_registrations db ++ [row]
        /\ users db' = users db
        /\ ~ In pendingId (map PendingRow.id (pending_registrations db))
        /\ PendingRow.id row = pendingId
        /\ PendingRow.status row = Some "pending"
        /\ PendingRow.email row = PendingRegistration.email registration
        /\ PendingRow.username row = PendingRegistration.username registration
        /\ PendingRow.role row = role_text (PendingRegistration.role registration)
        /\ PendingRow.password row
           = bcrypt_hash (PendingRegistration.password registration) 10 salt).
Proof.
  intros Ht. split.
  - intros Hdup. apply pending_unique_clash_true in Hdup.
    unfold createPendingRegistration, try_catch, bind, insert_pending_registrations,
      on_table, throw.
    cbv zeta. rewrite Ht, Hdup. reflexivity.
  - intros Hfree. apply pending_unique_clash_false in Hfree.
    unfold createPendingRegistration, try_catch, bind, insert_pending_registrations,
      on_table, select_last_insert_rowid, saveDatabase, ret.
    cbv zeta. rewrite Ht, Hfree.
    eexists _, _, _. split; [reflexivity|].
    cbn [pending_registrations users inserted with_pending_registrations
         last_insert_rowid PendingRow.id PendingRow.status PendingRow.email
         PendingRow.username PendingRow.role PendingRow.password].
    repeat split. apply next_rowid_fresh.
Qed.

Lemma submit_checks_registrations_only_witness :
  table_exists "pending_registrations" Sample.with_ho = true
  /\ @createPendingRegistration Sample.toy_bcrypt Sample.ho "salt2"
       "2024-06-05 08:00:00" Sample.with_ho
     = Throws (UniqueConstraintFailed "pending_registrations") Sample.with_ho.
Proof.
  split; [reflexivity|].
  apply (proj1 (@submit_checks_registrations_only Sample.toy_bcrypt Sample.with_ho
                  Sample.ho "salt2" "2024-06-05 08:00:00" eq_refl)).
  eexists. split; [left; reflexivity|reflexivity].
Defined.

(** C5 fails as stated: the e-mail address of an existing user is
  accepted, and an address that belongs to no user and to no registration
  that is still pending, only to one that was rejected, is refused. *)
Lemma submit_ignores_users :
  (exists u, In u (users Sample.with_root)
             /\ UserRow.email u = PendingRegistration.email Sample.impostor)
  /\ (exists db',
        @createPendingRegistration Sample.toy_bcrypt Sample.impostor "salt3"
          "2024-06-05 08:00:00" Sample.with_root
        = Returns 1 db'
        /\ map Sample.decision (pending_registrations db')
           = [(1, Some "pending", None, None)])
  /\ (map Sample.decision (pending_registrations Sample.with_ho_rejected)
      = [(1, Some "rejected", Some 1, Some "licence not verified")]
      /\ users Sample.with_ho_rejected = users Sample.with_root
      /\ @createPendingRegistration Sample.toy_bcrypt Sample.ho "salt4"
           "2024-06-05 08:00:00" Sample.with_ho_rejected
         = Throws (UniqueConstraintFailed "pending_registrations")
             Sample.with_ho_rejected).
Proof.
  split; [|split; [|split; [|split]]].
  - eexists. split; [left; reflexivity|reflexivity].
  - eexists. split; vm_compute; reflexivity.
  - vm_compute. reflexivity.
  - vm_compute. reflexivity.
  - vm_compute. reflexivity.
Qed.

(** ** Approval *)

Lemma try_catch_rethrow {A} (m : M A) db :
  try_catch m (fun error => throw error) db = m db.
Proof. unfold try_catch, throw. destruct (m db); reflexivity. Qed.

Lemma bind_returns {A B} (m : M A) (k : A -> M B) db a db' :
  m db = Returns a db' -> bind m k db = k a db'.
Proof. intros Hm. unfold bind. rewrite Hm. reflexivity. Qed.

Lemma bind_throws {A B} (m : M A) (k : A -> M B) db e db' :
  m db = Throws e db' -> bind m k db = Throws e db'.
Proof. intros Hm. unfold bind. rewrite Hm. reflexivity. Qed.

(** The statements, run on a connection that has their table. *)

Lemma select_pending_by_id_runs id db :
  table_exists "pending_registrations" db = true ->
  select_pending_registrations_by_id id db
  = Returns (filter (fun r => PendingRow.id r =? id) (pending_registrations db)) db.
Proof.
  intros Ht. unfold select_pending_registrations_by_id, on_table. rewrite Ht. reflexivity.
Qed.

Lemma update_pending_runs status by_ notes id now db :
  table_exists "pending_registrations" db = true ->
  update_pending_registrations status by_ notes id now db
  = Returns tt
      (with_pending_registrations
         (map (fun r => if PendingRow.id r =? id
                        then decided status by_ notes now r else r)
            (pending_registrations db)) db).
Proof.
  intros Ht. unfold update_pending_registrations, on_table. rewrite Ht. reflexivity.
Qed.

(** What the insert into [users] leaves behind when it goes through. *)
Lemma insert_users_runs username email password role full_name phone now db :
  table_exists "users" db = true ->
  users_role_check role = true ->
  users_unique_clash username email (users db) = false ->
  exists u db1,
    insert_users username email password role full_name phone now db = Returns tt db1
    /\ UserRow.id u = next_rowid (map UserRow.id (users db)) (users_seq db)
    /\ UserRow.username u = username
    /\ UserRow.email u = email
    /\ UserRow.password u = password
    /\ UserRow.role u = role
    /\ UserRow.status u = Some "active"
    /\ last_insert_rowid db1 = UserRow.id u
    /\ users db1 = users db ++ [u]
    /\ catalog db1 = catalog db
    /\ foreign_keys db1 = foreign_keys db
    /\ doctors db1 = doctors db
    /\ doctors_seq db1 = doctors_seq db
    /\ customers db1 = customers db
    /\ patients db1 = patients db
    /\ pending_registrations db1 = pending_registrations db.
Proof.
  intros Ht Hcheck Hfree. unfold insert_users, on_table.
  rewrite Ht, Hcheck, Hfree. cbn [negb].
  eexists _, _. split; [reflexivity|]. repeat split; reflexivity.
Qed.

Lemma insert_users_refused username email password role full_name phone now db :
  table_exists "users" db = true ->
  users_role_check role = false \/ users_unique_clash username email (users db) = true ->
  insert_users username email password role full_name phone now db
  = Throws (if users_role_check role then UniqueConstraintFailed "users"
            else CheckConstraintFailed "users") db.
Proof.
  intros Ht Hbad. unfold insert_users, on_table. rewrite Ht.
  destruct (users_role_check role); cbn [negb]; [|reflexivity].
  destruct Hbad as [Hbad|Hbad]; [discriminate|]. rewrite Hbad. reflexivity.
Qed.

(** [createDoctor] for a user that is in the table. *)
Lemma createDoctor_runs doctor now db :
  table_exists "doctors" db = true ->
  existsb (fun u => UserRow.id u =? Doctor.user_id doctor) (users db) = true ->
  if doctors_unique_clash (Js.or_null (Doctor.license_number doctor)) (doctors db)
  then createDoctor doctor now db = Throws (UniqueConstraintFailed "doctors") db
  else exists d db2,
      createDoctor doctor now db
      = Returns (next_rowid (map DoctorRow.id (doctors db)) (doctors_seq db)) db2
      /\ DoctorRow.user_id d = Doctor.user_id doctor
      /\ DoctorRow.license_number d = Js.or_null (Doctor.license_number doctor)
      /\ DoctorRow.specialization d = Js.or_null (Doctor.specialization doctor)
      /\ DoctorRow.consultation_fee d = Js.or_null_num (Doctor.consultation_fee doctor)
      /\ DoctorRow.available_days d = Js.or_null (Doctor.available_days doctor)
      /\ doctors db2 = doctors db ++ [d]
      /\ users db2 = users db
      /\ catalog db2 = catalog db
      /\ foreign_keys db2 = foreign_keys db
      /\ customers db2 = customers db
      /\ patients db2 = patients db
      /\ pending_registrations db2 = pending_registrations db.
Proof.
  intros Ht Huser.
  unfold createDoctor, try_catch, bind, insert_doctors, on_table, references_user,
    select_last_insert_rowid, saveDatabase, ret, throw.
  rewrite Ht. cbn [Doctor.license_number Doctor.user_id].
  destruct (doctors_unique_clash _ (doctors db)); [reflexivity|].
  rewrite Huser, orb_true_r. cbn [negb].
  eexists _, _. split; [reflexivity|]. repeat split; reflexivity.
Qed.

Lemma table_exists_same_catalog name db db' :
  catalog db' = catalog db -> table_exists name db' = table_exists name db.
Proof. intros Hc. unfold table_exists. rewrite Hc. reflexivity. Qed.

Lemma existsb_last {A} (f : A -> bool) l x : f x = true -> existsb f (l ++ [x]) = true.
Proof.
  intros Hx. rewrite existsb_app. cbn [existsb]. rewrite Hx.
  rewrite orb_true_r. reflexivity.
Qed.

(** One approval, statement by statement. *)
Lemma approve_run (db : Database) (pendingId adminUserId : Z)
    (adminNotes : option string) (now : string) :
  table_exists "pending_registrations" db = true ->
  table_exists "users" db = true ->
  table_exists "doctors" db = true ->
  match filter (fun r => PendingRow.id r =? pendingId) (pending_registrations db) with
  | [] =>
      approvePendingRegistration pendingId adminUserId adminNotes now db
      = Throws (JsError "Pending registration not found") db
  | r :: _ =>
      if users_role_check (PendingRow.role r)
         && negb (users_unique_clash (PendingRow.username r) (PendingRow.email r) (users db))
      then
        exists u db1,
          UserRow.id u = next_rowid (map UserRow.id (users db)) (users_seq db)
          /\ UserRow.username u = PendingRow.username r
          /\ UserRow.email u = PendingRow.email r
          /\ UserRow.password u = PendingRow.password r
          /\ UserRow.role u = PendingRow.role r
          /\ UserRow.status u = Some "active"
          /\ users db1 = users db ++ [u]
          /\ catalog db1 = catalog db
          /\ doctors db1 = doctors db
          /\ pending_registrations db1 = pending_registrations db
          /\ if String.eqb (PendingRow.role r) "doctor"
                && doctors_unique_clash (Js.or_null (PendingRow.license_number r))
                     (doctors db)
             then
               approvePendingRegistration pendingId adminUserId adminNotes now db
               = Throws (UniqueConstraintFailed "doctors") db1
             else
               exists db2,
                 approvePendingRegistration pendingId adminUserId adminNotes now db
                 = Returns true db2
                 /\ users db2 = users db ++ [u]
                 /\ catalog db2 = catalog db
                 /\ pending_registrations db2
                    = map (fun r => if PendingRow.id r =? pendingId
                                    then decided "approved" adminUserId
                                           (Js.or_null adminNotes) now r
                                    else r)
                        (pending_registrations db)
                 /\ if String.eqb (PendingRow.role r) "doctor"
                    then exists d,
                        doctors db2 = doctors db ++ [d]
                        /\ DoctorRow.user_id d = UserRow.id u
                        /\ DoctorRow.license_number d
                           = Js.or_null (PendingRow.license_number r)
                        /\ DoctorRow.specialization d
                           = Js.or_null (PendingRow.specialization r)
                    else doctors db2 = doctors db
      else
        approvePendingRegistration pendingId adminUserId adminNotes now db
        = Throws (if users_role_check (PendingRow.role r)
                  then UniqueConstraintFailed "users"
                  else CheckConstraintFailed "users") db
  end.
Proof.
  intros Hp Hu Hd.
  unfold approvePendingRegistration. rewrite try_catch_rethrow.
  rewrite (bind_returns _ _ _ _ _ (select_pending_by_id_runs pendingId db Hp)).
  destruct (filter _ (pending_registrations db)) as [|r rest]; [reflexivity|].
  destruct (users_role_check (PendingRow.role r)) eqn:Hcheck; cbn [andb];
    [destruct (users_unique_clash _ _ (users db)) eqn:Hclash; cbn [negb]|].
  - (* the user name or the address is taken *)
    apply bind_throws.
    rewrite insert_users_refused by auto. rewrite Hcheck. reflexivity.
  - destruct (insert_users_runs (PendingRow.username r) (PendingRow.email r)
                (PendingRow.password r) (PendingRow.role r) (PendingRow.full_name r)
                (Js.or_null (PendingRow.phone r)) now db Hu Hcheck Hclash)
      as (u & db1 & Hins & Hid & Hname & Hmail & Hpw & Hrole & Hstatus & Hlast
          & Husers & Hcat & Hfk & Hdocs & _ & _ & _ & Hpend).
    exists u, db1. repeat (split; [assumption|]).
    rewrite (bind_returns _ _ _ _ _ Hins).
    assert (Hrowid : select_last_insert_rowid db1 = Returns (UserRow.id u) db1)
      by (unfold select_last_insert_rowid; rewrite Hlast; reflexivity).
    rewrite (bind_returns _ _ _ _ _ Hrowid).
    assert (Hp1 : table_exists "pending_registrations" db1 = true)
      by (rewrite (table_exists_same_catalog _ _ _ Hcat); exact Hp).
    destruct (String.eqb (PendingRow.role r) "doctor") eqn:Hdoctor; cbn [andb].
    + assert (Hd1 : table_exists "doctors" db1 = true)
        by (rewrite (table_exists_same_catalog _ _ _ Hcat); exact Hd).
      match goal with
      | |- context [createDoctor ?doc now] =>
          pose proof (createDoctor_runs doc now db1 Hd1) as Hrun
      end.
      cbn [Doctor.user_id Doctor.license_number Doctor.specialization] in Hrun.
      rewrite Husers, Hdocs in Hrun.
      specialize (Hrun ltac:(apply existsb_last, Z.eqb_refl)).
      destruct (doctors_unique_clash _ (doctors db)).
      * apply bind_throws, bind_throws. exact Hrun.
      * destruct Hrun as (d & db2 & Hcreate & Huid & Hlic & Hspec & _ & _ & Hdocs2
                          & Husers2 & Hcat2 & _ & _ & _ & Hpend2).
        assert (Hp2 : table_exists "pending_registrations" db2 = true)
          by (rewrite (table_exists_same_catalog _ _ _ Hcat2); exact Hp1).
        pose proof (bind_returns _ (fun _ => ret tt) _ _ _ Hcreate) as Hcreated.
        unfold ret at 1 in Hcreated.
        rewrite (bind_returns _ _ _ _ _ Hcreated).
        rewrite (bind_returns _ _ _ _ _ (update_pending_runs _ _ _ _ _ _ Hp2)).
        unfold bind, saveDatabase, ret.
        eexists. split; [reflexivity|].
        cbn [users catalog pending_registrations doctors with_pending_registrations].
        rewrite ?Husers2, ?Husers, ?Hcat2, ?Hcat, ?Hpend2, ?Hpend, ?Hdocs2, ?Hdocs.
        repeat (split; [reflexivity|]).
        exists d. auto.
    + rewrite (bind_returns (ret tt) _ db1 tt db1 eq_refl).
      rewrite (bind_returns _ _ _ _ _ (update_pending_runs _ _ _ _ _ _ Hp1)).
      unfold bind, saveDatabase, ret.
      eexists. split; [reflexivity|].
      cbn [users catalog pending_registrations doctors with_pending_registrations].
      rewrite Husers, Hcat, Hpend, Hdocs. auto.
  - (* the role fails the check of the table *)
    apply bind_throws.
    rewrite insert_users_refused by auto. rewrite Hcheck. reflexivity.
Qed.

(** C2 (as the code has it). With its tables in place, an approval ends
  in one of three ways.  It throws and the store is unchanged (unknown id,
  or the insert into [users] refused).  Or it returns true, with exactly
  one row added to [users], exactly one row that points to it added to
  [doctors] when the staged role is doctor and none otherwise, and the
  registration marked approved.  Or, since nothing undoes the statements
  already run, it throws on the insert into [doctors] (licence number
  taken) and leaves exactly one new doctor-role row in [users], no doctor
  profile for it, and the registration undecided. *)
Theorem approve_outcomes (db : Database) (pendingId adminUserId : Z)
    (adminNotes : option string) (now : string) :
  table_exists "pending_registrations" db = true ->
  table_exists "users" db = true ->
  table_exists "doctors" db = true ->
  (exists e,
     approvePendingRegistration pendingId adminUserId adminNotes now db = Throws e db)
  \/ (exists u db',
        approvePendingRegistration pendingId adminUserId adminNotes now db
        = Returns true db'
        /\ users db' = users db ++ [u]
        /\ pending_registrations db'
           = map (fun r => if PendingRow.id r =? pendingId
                           then decided "approved" adminUserId (Js.or_null adminNotes) now r
                           else r)
               (pending_registrations db)
        /\ (if String.eqb (UserRow.role u) "doctor"
            then exists d, doctors db' = doctors db ++ [d]
                           /\ DoctorRow.user_id d = UserRow.id u
            else doctors db' = doctors db))
  \/ (exists u db',
        approvePendingRegistration pendingId adminUserId adminNotes now db
        = Throws (UniqueConstraintFailed "doctors") db'
        /\ users db' = users db ++ [u]
        /\ UserRow.role u = "doctor"
        /\ doctors db' = doctors db
        /\ pending_registrations db' = pending_registrations db).
Proof.
  intros Hp Hu Hd.
  pose proof (approve_run db pendingId adminUserId adminNotes now Hp Hu Hd) as Hrun.
  destruct (filter _ (pending_registrations db)) as [|r rest].
  { left. eexists. exact Hrun. }
  destruct (users_role_check (PendingRow.role r)
            && negb (users_unique_clash _ _ (users db))).
  2: { left. eexists. exact Hrun. }
  destruct Hrun as (u & db1 & _ & _ & _ & _ & Hrole & _ & Husers & _ & Hdocs & Hpend & Hrun).
  destruct (String.eqb (PendingRow.role r) "doctor") eqn:Hdoctor; cbn [andb] in Hrun.
  - destruct (doctors_unique_clash _ (doctors db)).
    + right. right. exists u, db1. apply String.eqb_eq in Hdoctor.
      repeat split; congruence.
    + destruct Hrun as (db2 & Happ & Husers2 & _ & Hpend2 & d & Hdocs2 & Huid & _).
      right. left. exists u, db2. rewrite Hrole, Hdoctor.
      repeat (split; [assumption|]). exists d. auto.
  - destruct Hrun as (db2 & Happ & Husers2 & _ & Hpend2 & Hdocs2).
    right. left. exists u, db2. rewrite Hrole, Hdoctor. auto.
Qed.

Lemma approve_outcomes_witness :
  table_exists "pending_registrations" Sample.with_ho = true
  /\ table_exists "users" Sample.with_ho = true
  /\ table_exists "doctors" Sample.with_ho = true
  /\ ((exists e,
         approvePendingRegistration 1 1 None "2024-06-03 08:00:00" Sample.with_ho
         = Throws e Sample.with_ho)
      \/ (exists u db',
            approvePendingRegistration 1 1 None "2024-06-03 08:00:00" Sample.with_ho
            = Returns true db'
            /\ users db' = users Sample.with_ho ++ [u]
            /\ pending_registrations db'
               = map (fun r => if PendingRow.id r =? 1
                               then decided "approved" 1 (Js.or_null None)
                                      "2024-06-03 08:00:00" r
                               else r)
                   (pending_registrations Sample.with_ho)
            /\ (if String.eqb (UserRow.role u) "doctor"
                then exists d, doctors db' = doctors Sample.with_ho ++ [d]
                               /\ DoctorRow.user_id d = UserRow.id u
                else doctors db' = doctors Sample.with_ho))
      \/ (exists u db',
            approvePendingRegistration 1 1 None "2024-06-03 08:00:00" Sample.with_ho
            = Throws (UniqueConstraintFailed "doctors") db'
            /\ users db' = users Sample.with_ho ++ [u]
            /\ UserRow.role u = "doctor"
            /\ doctors db' = doctors Sample.with_ho
            /\ pending_registrations db' = pending_registrations Sample.with_ho)).
Proof.
  do 3 (split; [reflexivity|]).
  exact (approve_outcomes Sample.with_ho 1 1 None "2024-06-03 08:00:00"
           eq_refl eq_refl eq_refl).
Defined.

(** C2 fails as stated: the second doctor's licence number is taken, so
  the approval throws after its user row went in; the user exists, no
  doctor profile points to it and the registration is still pending. *)
Lemma approve_leaves_partial_state :
  exists db',
    approvePendingRegistration 2 1 None "2024-06-05 08:00:00" Sample.with_lee
    = Throws (UniqueConstraintFailed "doctors") db'
    /\ map Sample.account (users Sample.with_lee)
       = [(1, "root", "admin", Some "active"); (2, "drho", "doctor", Some "active")]
    /\ map Sample.account (users db')
       = [(1, "root", "admin", Some "active"); (2, "drho", "doctor", Some "active");
          (3, "drlee", "doctor", Some "active")]
    /\ map DoctorRow.user_id (doctors db') = [2]
    /\ map Sample.decision (pending_registrations db')
       = [(1, Some "approved", Some 1, None); (2, Some "pending", None, None)].
Proof.
  eexists. split; [vm_compute; reflexivity|].
  repeat split; vm_compute; reflexivity.
Qed.

Lemma filter_decided status by_ notes now id rows :
  filter (fun r => PendingRow.id r =? id)
    (map (fun r => if PendingRow.id r =? id
                   then decided status by_ notes now r else r) rows)
  = map (decided status by_ notes now) (filter (fun r => PendingRow.id r =? id) rows).
Proof.
  induction rows as [|r rows IH]; [reflexivity|].
  cbn [map filter]. destruct (PendingRow.id r =? id) eqn:Hid.
  - cbn [decided PendingRow.id]. rewrite Hid. cbn [map]. rewrite IH. reflexivity.
  - rewrite Hid. exact IH.
Qed.

(** C1 (as the code has it). With its tables in place: an approval of an
  id that no registration has throws "Pending registration not found" and
  changes nothing.  After an approval that returned true, any further
  approval of the same id throws the uniqueness failure of [users], since
  the user name and address are now taken, and changes nothing, so no
  second user appears.  The status column is never read: a registration of
  any status whose role passes the check of [users], whose user name and
  address are free there and, for a doctor, whose licence number is free,
  is approved. *)
Theorem approve_twice (db : Database) (pendingId adminUserId adminUserId' : Z)
    (adminNotes adminNotes' : option string) (now now' : string) :
  table_exists "pending_registrations" db = true ->
  table_exists "users" db = true ->
  table_exists "doctors" db = true ->
  (filter (fun r => PendingRow.id r =? pendingId) (pending_registrations db) = [] ->
   approvePendingRegistration pendingId adminUserId adminNotes now db
   = Throws (JsError "Pending registration not found") db)
  /\ (forall db1,
        approvePendingRegistration pendingId adminUserId adminNotes now db
        = Returns true db1 ->
        approvePendingRegistration pendingId adminUserId' adminNotes' now' db1
        = Throws (UniqueConstraintFailed "users") db1)
  /\ (forall r rest,
        filter (fun r => PendingRow.id r =? pendingId) (pending_registrations db)
        = r :: rest ->
        users_role_check (PendingRow.role r) = true ->
        users_unique_clash (PendingRow.username r) (PendingRow.email r) (users db)
        = false ->
        (String.eqb (PendingRow.role r) "doctor"
         && doctors_unique_clash (Js.or_null (PendingRow.license_number r)) (doctors db))
        = false ->
        exists u db1,
          approvePendingRegistration pendingId adminUserId adminNotes now db
          = Returns true db1
          /\ users db1 = users db ++ [u]
          /\ UserRow.username u = PendingRow.username r).
Proof.
  intros Hp Hu Hd.
  pose proof (approve_run db pendingId adminUserId adminNotes now Hp Hu Hd) as Hrun.
  split; [|split].
  - intros Hnone. rewrite Hnone in Hrun. exact Hrun.
  - intros db1 Hfirst.
    destruct (filter _ (pending_registrations db)) as [|r rest] eqn:Hsel;
      [congruence|].
    destruct (users_role_check (PendingRow.role r)) eqn:Hcheck; cbn [andb] in Hrun;
      [|congruence].
    destruct (users_unique_clash _ _ (users db)); cbn [negb] in Hrun; [congruence|].
    destruct Hrun as (u & dbu & _ & Hname & _ & _ & _ & _ & _ & _ & _ & _ & Hrun).
    destruct (_ && _) in Hrun; [congruence|].
    destruct Hrun as (db2 & Happ & Husers & Hcat & Hpend & _).
    assert (db2 = db1) by congruence. subst db2. clear Happ Hfirst.
    pose proof (approve_run db1 pendingId adminUserId' adminNotes' now') as Hagain.
    rewrite !(table_exists_same_catalog _ _ _ Hcat) in Hagain.
    specialize (Hagain Hp Hu Hd).
    rewrite Hpend, filter_decided, Hsel in Hagain. cbn [map] in Hagain.
    cbn [decided PendingRow.role PendingRow.username PendingRow.email] in Hagain.
    rewrite Hcheck, Husers in Hagain.
    replace (users_unique_clash (PendingRow.username r) (PendingRow.email r)
               (users db ++ [u])) with true in Hagain.
    + exact Hagain.
    + symmetry. apply existsb_last. rewrite Hname, String.eqb_refl. reflexivity.
  - intros r rest Hsel Hcheck Hfree Hlicence.
    rewrite Hsel, Hcheck, Hfree in Hrun. cbn [andb negb] in Hrun.
    destruct Hrun as (u & dbu & _ & Hname & _ & _ & _ & _ & _ & _ & _ & _ & Hrun).
    rewrite Hlicence in Hrun.
    destruct Hrun as (db2 & Happ & Husers & _).
    exists u, db2. auto.
Qed.

Lemma approve_twice_witness :
  table_exists "pending_registrations" Sample.with_ho = true
  /\ table_exists "users" Sample.with_ho = true
  /\ table_exists "doctors" Sample.with_ho = true
  /\ approvePendingRegistration 1 1 None "2024-06-03 08:00:00" Sample.with_ho
     = Returns true Sample.with_ho_approved
  /\ approvePendingRegistration 1 1 (Some "again") "2024-06-04 08:00:00"
       Sample.with_ho_approved
     = Throws (UniqueConstraintFailed "users") Sample.with_ho_approved.
Proof.
  assert (Hfirst :
            approvePendingRegistration 1 1 None "2024-06-03 08:00:00" Sample.with_ho
            = Returns true Sample.with_ho_approved) by (vm_compute; reflexivity).
  do 3 (split; [reflexivity|]).
  split; [exact Hfirst|].
  exact (proj1 (proj2 (approve_twice Sample.with_ho 1 1 1 None (Some "again")
                         "2024-06-03 08:00:00" "2024-06-04 08:00:00"
                         eq_refl eq_refl eq_refl))
           Sample.with_ho_approved Hfirst).
Defined.

(** C1 fails as stated: a registration that was rejected is approved all
  the same, and its user is created. *)
Lemma approve_ignores_status :
  map Sample.decision (pending_registrations Sample.with_ho_rejected)
  = [(1, Some "rejected", Some 1, Some "licence not verified")]
  /\ exists db',
       approvePendingRegistration 1 1 None "2024-06-06 08:00:00" Sample.with_ho_rejected
       = Returns true db'
       /\ map Sample.account (users db')
          = [(1, "root", "admin", Some "active"); (2, "drho", "doctor", Some "active")]
       /\ map Sample.decision (pending_registrations db')
          = [(1, Some "approved", Some 1, None)].
Proof.
  split; [vm_compute; reflexivity|].
  eexists. split; [vm_compute; reflexivity|].
  split; vm_compute; reflexivity.
Qed.

(** ** Submission followed by approval *)

Lemma submit_runs `{Bcrypt} (db : Database) (registration : PendingRegistration.t)
    (salt now : string) :
  table_exists "pending_registrations" db = true ->
  pending_unique_clash (PendingRegistration.email registration)
    (pending_registrations db) = false ->
  exists row db1,
    createPendingRegistration registration salt now db
    = Returns (next_rowid (map PendingRow.id (pending_registrations db))
                 (pending_registrations_seq db)) db1
    /\ PendingRow.id row
       = next_rowid (map PendingRow.id (pending_registrations db))
           (pending_registrations_seq db)
    /\ PendingRow.license_number row
       = Js.or_null (PendingRegistration.license_number registration)
    /\ PendingRow.username row = PendingRegistration.username registration
    /\ PendingRow.email row = PendingRegistration.email registration
    /\ PendingRow.password row
       = bcrypt_hash (PendingRegistration.password registration) 10 salt
    /\ PendingRow.role row = role_text (PendingRegistration.role registration)
    /\ pending_registrations db1 = pending_registrations db ++ [row]
    /\ users db1 = users db
    /\ doctors db1 = doctors db
    /\ catalog db1 = catalog db.
Proof.
  intros Ht Hfree.
  unfold createPendingRegistration, try_catch, bind, insert_pending_registrations,
    on_table, select_last_insert_rowid, saveDatabase, ret.
  cbv zeta. rewrite Ht, Hfree.
  eexists _, _. split; [reflexivity|]. repeat split; reflexivity.
Qed.

Lemma filter_id_fresh id rows row :
  ~ In id (map PendingRow.id rows) ->
  PendingRow.id row = id ->
  filter (fun r => PendingRow.id r =? id) (rows ++ [row]) = [row].
Proof.
  intros Hfresh Hid. rewrite filter_app. cbn [filter]. rewrite Hid, Z.eqb_refl.
  replace (filter (fun r => PendingRow.id r =? id) rows) with (@nil PendingRow.t);
    [reflexivity|].
  symmetry. induction rows as [|r rows IH]; [reflexivity|].
  cbn [filter]. cbn [map In] in Hfresh.
  destruct (PendingRow.id r =? id) eqn:Heq.
  - apply Z.eqb_eq in Heq. tauto.
  - apply IH. tauto.
Qed.

Lemma users_unique_clash_false username email rows :
  (forall u, In u rows -> UserRow.username u <> username /\ UserRow.email u <> email) ->
  users_unique_clash username email rows = false.
Proof.
  intros Hfree. unfold users_unique_clash.
  destruct (existsb _ rows) eqn:Hex; [|reflexivity].
  apply existsb_exists in Hex. destruct Hex as [u [Hin Hclash]].
  destruct (Hfree u Hin) as [Hname Hmail].
  apply orb_true_iff in Hclash. destruct Hclash as [Heq|Heq];
    apply String.eqb_eq in Heq; contradiction.
Qed.

Lemma or_null_idempotent x : Js.or_null (Js.or_null x) = Js.or_null x.
Proof.
  destruct x as [s|]; [|reflexivity]. cbn [Js.or_null].
  destruct (String.eqb s "") eqn:Hs; [reflexivity|]. cbn [Js.or_null].
  rewrite Hs. reflexivity.
Qed.

Lemma staged_role_passes_check role : users_role_check (role_text role) = true.
Proof. destruct role; reflexivity. Qed.

(** C6 (as the code has it). Take a store with its tables in place and a
  submission whose e-mail address no registration and no user has and
  whose user name no user has.  Then [createPendingRegistration] returns an id without
  touching [users], and [approvePendingRegistration] on that id leaves
  [users] with exactly one more row: the submitted user name, address and
  role, and as password the hash computed once at submission, copied as it
  is.  The approval returns true, unless the role is doctor and the
  licence number is taken. *)
Theorem submit_then_approve `{Bcrypt} (db : Database)
    (registration : PendingRegistration.t) (salt now : string)
    (adminUserId : Z) (adminNotes : option string) (now' : string) :
  table_exists "pending_registrations" db = true ->
  table_exists "users" db = true ->
  table_exists "doctors" db = true ->
  (forall r, In r (pending_registrations db) ->
             PendingRow.email r <> PendingRegistration.email registration) ->
  (forall u, In u (users db) ->
             UserRow.username u <> PendingRegistration.username registration
             /\ UserRow.email u <> PendingRegistration.email registration) ->
  exists pendingId db1 u,
    createPendingRegistration registration salt now db = Returns pendingId db1
    /\ users db1 = users db
    /\ users (state_of (approvePendingRegistration pendingId adminUserId adminNotes
                          now' db1))
       = users db ++ [u]
    /\ UserRow.username u = PendingRegistration.username registration
    /\ UserRow.email u = PendingRegistration.email registration
    /\ UserRow.role u = role_text (PendingRegistration.role registration)
    /\ UserRow.password u
       = bcrypt_hash (PendingRegistration.password registration) 10 salt
    /\ UserRow.status u = Some "active"
    /\ ((String.eqb (role_text (PendingRegistration.role registration)) "doctor"
         && doctors_unique_clash
              (Js.or_null (PendingRegistration.license_number registration))
              (doctors db)) = false ->
        exists db2,
          approvePendingRegistration pendingId adminUserId adminNotes now' db1
          = Returns true db2).
Proof.
  intros Hp Hu Hd Hregs Husers.
  apply pending_unique_clash_false in Hregs.
  destruct (submit_runs db registration salt now Hp Hregs)
    as (row & db1 & Hsubmit & Hid & Hlic & Hname & Hmail & Hpw & Hrole & Hpend
        & Husers1 & Hdocs1 & Hcat1).
  rewrite <- Hid in Hsubmit.
  exists (PendingRow.id row), db1.
  pose proof (approve_run db1 (PendingRow.id row) adminUserId adminNotes now') as Hrun.
  rewrite !(table_exists_same_catalog _ _ _ Hcat1) in Hrun.
  specialize (Hrun Hp Hu Hd).
  rewrite Hpend, (filter_id_fresh (PendingRow.id row)) in Hrun;
    [|rewrite Hid; apply next_rowid_fresh|reflexivity].
  rewrite Hrole, staged_role_passes_check, Hname, Hmail, Husers1 in Hrun.
  rewrite (users_unique_clash_false _ _ _ Husers) in Hrun. cbn [andb negb] in Hrun.
  destruct Hrun as (u & dbu & _ & Huname & Humail & Hupw & Hurole & Hustatus
                    & Hdbu & _ & _ & _ & Hrun).
  rewrite Hdocs1, Hlic, or_null_idempotent in Hrun.
  exists u. split; [exact Hsubmit|]. split; [exact Husers1|].
  split; [|repeat (split; [congruence|])].
  - destruct (_ && _) in Hrun.
    + rewrite Hrun. exact Hdbu.
    + destruct Hrun as (db2 & Happ & Husers2 & _). rewrite Happ. exact Husers2.
  - intros Hlicence. rewrite Hlicence in Hrun.
    destruct Hrun as (db2 & Happ & _). exists db2. exact Happ.
Qed.

Lemma submit_then_approve_witness :
  table_exists "pending_registrations" Sample.with_root = true
  /\ table_exists "users" Sample.with_root = true
  /\ table_exists "doctors" Sample.with_root = true
  /\ exists pendingId db1 u,
       @createPendingRegistration Sample.toy_bcrypt Sample.ho "salt1"
         "2024-06-02 08:00:00" Sample.with_root
       = Returns pendingId db1
       /\ users (state_of (approvePendingRegistration pendingId 1 None
                             "2024-06-03 08:00:00" db1))
          = users Sample.with_root ++ [u]
       /\ UserRow.role u = "doctor"
       /\ UserRow.password u = "$2a$10$salt1s3cret".
Proof.
  do 3 (split; [reflexivity|]).
  destruct (@submit_then_approve Sample.toy_bcrypt Sample.with_root Sample.ho "salt1"
              "2024-06-02 08:00:00" 1 None "2024-06-03 08:00:00"
              eq_refl eq_refl eq_refl)
    as (pendingId & db1 & u & Hsubmit & _ & Husers & _ & _ & Hrole & Hpw & _).
  - intros r [].
  - intros u [<-|[]]. split; discriminate.
  - exists pendingId, db1, u. auto.
Defined.

(** C6 fails as stated: a unique address is not enough.  The store holds
  one user, the administrator "root", and no registration.  A submission
  with an address that nobody has and the user name "root" is accepted and
  gets id 1; its approval is refused by the UNIQUE constraint on
  [users.username], no user is created and the registration stays
  pending. *)
Lemma approve_refuses_a_taken_username :
  pending_registrations Sample.with_root = []
  /\ map Sample.account (users Sample.with_root) = [(1, "root", "admin", Some "active")]
  /\ (forall u, In u (users Sample.with_root) ->
                UserRow.email u <> PendingRegistration.email Sample.namesake)
  /\ exists db1 db2,
       @createPendingRegistration Sample.toy_bcrypt Sample.namesake "salt7"
         "2024-06-05 08:00:00" Sample.with_root
       = Returns 1 db1
       /\ approvePendingRegistration 1 1 None "2024-06-06 08:00:00" db1
          = Throws (UniqueConstraintFailed "users") db2
       /\ users db2 = users Sample.with_root
       /\ map Sample.decision (pending_registrations db2)
          = [(1, Some "pending", None, None)].
Proof.
  split; [reflexivity|]. split; [reflexivity|].
  split; [intros u [<-|[]]; discriminate|].
  eexists _, _. split; [vm_compute; reflexivity|].
  split; [vm_compute; reflexivity|]. split; reflexivity.
Qed.

(** ** Deleting a user *)

Lemma deleteUser_without_patients_table db userId :
  table_exists "patients" db = false -> deleteUser userId db = Returns false db.
Proof.
  intros Hno.
  unfold deleteUser, try_catch, bind, select_role_by_id, on_table, throw, ret.
  destruct (table_exists "users" db); [|reflexivity].
  destruct (map UserRow.role _) as [|role rest];
    [|destruct (String.eqb role "admin"); [reflexivity|]];
    unfold delete_patients_by_user_id, on_table; rewrite Hno; reflexivity.
Qed.

(** On a database that this module has set up, no user can be deleted:
  the first DELETE names a table that does not exist. *)
Lemma deleteUser_never_succeeds `{Bcrypt} db userId :
  schema_created db -> deleteUser userId db = Returns false db.
Proof.
  intros Hdb. apply deleteUser_without_patients_table, schema_has_no_patients.
  apply schema_created_catalog, Hdb.
Qed.

Lemma non_admin_rows_by_id userId rows :
  (forall u, In u rows -> UserRow.id u = userId -> UserRow.role u <> "admin") ->
  filter (fun u => negb (non_admin_with_id userId u)) rows
  = filter (fun u => negb (UserRow.id u =? userId)) rows.
Proof.
  induction rows as [|u rows IH]; intros Hall; [reflexivity|].
  cbn [filter]. rewrite (IH (fun v Hv => Hall v (or_intror Hv))).
  unfold non_admin_with_id.
  destruct (UserRow.id u =? userId) eqn:Hid; cbn [andb negb]; [|reflexivity].
  apply Z.eqb_eq in Hid. specialize (Hall u (or_introl eq_refl) Hid).
  apply String.eqb_neq in Hall. rewrite Hall. reflexivity.
Qed.

Lemma first_role_not_admin userId rows :
  (forall u, In u rows -> UserRow.id u = userId -> UserRow.role u <> "admin") ->
  match map UserRow.role (filter (fun u => UserRow.id u =? userId) rows) with
  | role :: _ => String.eqb role "admin" = false
  | [] => True
  end.
Proof.
  induction rows as [|u rows IH]; intros Hall; [exact I|].
  cbn [filter]. destruct (UserRow.id u =? userId) eqn:Hid.
  - cbn [map]. apply String.eqb_neq, (Hall u (or_introl eq_refl)), Z.eqb_eq, Hid.
  - apply IH. intros v Hv. apply Hall. right. exact Hv.
Qed.

(** With the three tables in place and foreign keys not enforced, a
  deletion that goes through removes the user's rows of [patients] and
  [doctors] and the user row, and leaves [customers] as it was. *)
Lemma deleteUser_runs db userId :
  table_exists "users" db = true ->
  table_exists "patients" db = true ->
  table_exists "doctors" db = true ->
  foreign_keys db = false ->
  (forall u, In u (users db) -> UserRow.id u = userId -> UserRow.role u <> "admin") ->
  exists db',
    deleteUser userId db = Returns true db'
    /\ users db' = filter (fun u => negb (UserRow.id u =? userId)) (users db)
    /\ doctors db' = filter (fun d => negb (DoctorRow.user_id d =? userId)) (doctors db)
    /\ patients db'
       = filter (fun p => negb (Patient.user_id (PatientRow.profile p) =? userId))
           (patients db)
    /\ customers db' = customers db.
Proof.
  intros Hu Hp Hd Hfk Hrole.
  pose proof (first_role_not_admin userId (users db) Hrole) as Hnot.
  unfold deleteUser, try_catch.
  assert (Hselect : select_role_by_id userId db
                    = Returns (map UserRow.role
                                 (filter (fun u => UserRow.id u =? userId) (users db))) db)
    by (unfold select_role_by_id, on_table; rewrite Hu; reflexivity).
  rewrite (bind_returns _ _ _ _ _ Hselect).
  assert (Hguard :
            (match map UserRow.role
                     (filter (fun u => UserRow.id u =? userId) (users db)) with
             | role :: _ =>
                 if String.eqb role "admin"
                 then throw (JsError "Cannot delete admin user") else ret tt
             | [] => ret tt
             end) db = Returns tt db).
  { destruct (map UserRow.role _) as [|role rest]; [reflexivity|].
    rewrite Hnot. reflexivity. }
  rewrite (bind_returns _ _ _ _ _ Hguard).
  unfold bind, delete_patients_by_user_id, delete_doctors_by_user_id,
    delete_users_non_admin, on_table, saveDatabase, ret.
  rewrite Hp.
  change (table_exists "doctors" (with_patients ?rows db))
    with (table_exists "doctors" db).
  rewrite Hd.
  change (table_exists "users" (with_doctors ?rows ?d)) with (table_exists "users" db).
  rewrite Hu.
  cbn [foreign_keys with_patients with_doctors]. rewrite Hfk. cbn [andb].
  eexists. split; [reflexivity|].
  cbn [users doctors patients customers with_users with_patients with_doctors].
  rewrite (non_admin_rows_by_id _ _ Hrole). repeat split; reflexivity.
Qed.

(** C9 (defect). [deleteUser] deletes from [patients], a table that
  [createTables] never creates, and never from [customers].  On a database
  set up by the schema the call catches "no such table", returns false and
  deletes nothing; on a database that does have a [patients] table it
  returns true, removes user 2 and leaves the row of [customers] that
  refers to user 2. *)
Theorem deleteUser_misses_customers :
  deleteUser 2 Sample.with_amy = Returns false Sample.with_amy
  /\ exists db',
       deleteUser 2 Sample.older_with_amy = Returns true db'
       /\ map Sample.account (users Sample.older_with_amy)
          = [(1, "root", "admin", Some "active"); (2, "amy", "customer", Some "active")]
       /\ map Sample.account (users db') = [(1, "root", "admin", Some "active")]
       /\ customers db' = [Sample.amy_profile]
       /\ Patient.user_id (CustomerRow.profile Sample.amy_profile) = 2.
Proof.
  split; [vm_compute; reflexivity|].
  eexists. split; [vm_compute; reflexivity|].
  repeat split; vm_compute; reflexivity.
Qed.

(** ** The directory filter *)

Import Directory Calendar.

Lemma includes_empty s : includes s "" = true.
Proof. destruct s; reflexivity. Qed.

Lemma matchesSearch_empty `{CaseMapping} patient : matchesSearch "" patient = true.
Proof.
  unfold matchesSearch. rewrite (toLowerCase_ascii "" eq_refl). cbn [lower_ascii].
  rewrite includes_empty. reflexivity.
Qed.

(** The callback, as one case distinction: it throws when the record gets
  as far as the call of [calculateAge], and otherwise returns the
  conjunction of its six tests. *)
Lemma keeps_cases `{DateParser} `{CaseMapping} now searchTerm filters p :
  keeps now searchTerm filters p
  = if calls_calculateAge searchTerm filters p
    then ReferenceError "calculateAge"
    else Normal (passes now searchTerm filters p).
Proof.
  unfold keeps, calls_calculateAge, passes, excludedByAgeRange, excludedAtAgeZero.
  destruct (matchesSearch searchTerm p); cbn [negb andb]; [|reflexivity].
  destruct (excludedByGender filters p); cbn [negb andb]; [reflexivity|].
  destruct (excludedByBloodGroup filters p); cbn [negb andb]; [reflexivity|].
  destruct (String.eqb (FilterState.ageRange filters) "all") eqn:Hall; cbn [negb andb].
  - apply String.eqb_eq in Hall. rewrite Hall. cbn [and_then existsb String.eqb Ascii.eqb
      Bool.eqb orb negb andb].
    destruct (excludedByConditions filters p), (excludedByRegistrationPeriod now filters p);
      reflexivity.
  - destruct (Js.truthy (date_of_birth p)); [reflexivity|].
    cbn [and_then gt lt existsb orb].
    change (18 <? 0) with false. change (0 <? 19) with true. change (0 <? 31) with true.
    change (0 <? 51) with true. change (30 <? 0) with false. change (50 <? 0) with false.
    cbn [orb].
    destruct (String.eqb (FilterState.ageRange filters) "0-18") eqn:Hfirst.
    + apply String.eqb_eq in Hfirst. rewrite Hfirst. cbn [String.eqb Ascii.eqb Bool.eqb orb negb andb].
      destruct (excludedByConditions filters p),
        (excludedByRegistrationPeriod now filters p); reflexivity.
    + destruct (String.eqb (FilterState.ageRange filters) "19-30"); [reflexivity|].
      destruct (String.eqb (FilterState.ageRange filters) "31-50"); [reflexivity|].
      destruct (String.eqb (FilterState.ageRange filters) "51+"); [reflexivity|].
      cbn [orb negb andb].
      destruct (excludedByConditions filters p),
        (excludedByRegistrationPeriod now filters p); reflexivity.
Qed.

Lemma Array_filter_normal {A} (callback : A -> Completion bool) (test : A -> bool) l :
  (forall x, In x l -> callback x = Normal (test x)) ->
  Array_filter callback l = Normal (filter test l).
Proof.
  induction l as [|x l IH]; intros Hall; [reflexivity|].
  cbn [Array_filter filter]. rewrite (Hall x (or_introl eq_refl)).
  cbn [and_then]. rewrite IH by (intros y Hy; apply Hall; right; exact Hy).
  reflexivity.
Qed.

Lemma Array_filter_throws {A} (callback : A -> Completion bool) name l :
  (forall x e, In x l -> callback x = ReferenceError e -> e = name) ->
  (exists x, In x l /\ callback x = ReferenceError name) ->
  Array_filter callback l = ReferenceError name.
Proof.
  induction l as [|x l IH]; intros Hname (y & Hin & Hy); [destruct Hin|].
  cbn [Array_filter]. destruct (callback x) as [keep|e] eqn:Hx; cbn [and_then].
  - destruct Hin as [->|Hin]; [congruence|].
    rewrite IH; [reflexivity| |exists y; auto].
    intros z e Hz. apply Hname. right. exact Hz.
  - f_equal. apply (Hname x e (or_introl eq_refl) Hx).
Qed.

Lemma filteredPatients_normal `{DateParser} `{CaseMapping} now patients searchTerm filters :
  (forall p, In p patients -> calls_calculateAge searchTerm filters p = false) ->
  filteredPatients now patients searchTerm filters
  = Normal (filter (passes now searchTerm filters) patients).
Proof.
  intros Hnone. unfold filteredPatients. apply Array_filter_normal.
  intros p Hp. rewrite keeps_cases, (Hnone p Hp). reflexivity.
Qed.

Lemma filteredPatients_throws `{DateParser} `{CaseMapping} now patients searchTerm filters :
  (exists p, In p patients /\ calls_calculateAge searchTerm filters p = true) ->
  filteredPatients now patients searchTerm filters = ReferenceError "calculateAge".
Proof.
  intros (p & Hp & Hcalls). unfold filteredPatients. apply Array_filter_throws.
  - intros x e _. rewrite keeps_cases.
    destruct (calls_calculateAge searchTerm filters x); congruence.
  - exists p. split; [exact Hp|]. rewrite keeps_cases, Hcalls. reflexivity.
Qed.

Lemma keeps_only_registrationPeriod `{DateParser} `{CaseMapping} now bucket patient :
  keeps now "" (only_registrationPeriod bucket) patient
  = Normal (negb (excludedByRegistrationPeriod now (only_registrationPeriod bucket)
                    patient)).
Proof.
  rewrite keeps_cases. unfold calls_calculateAge, passes.
  rewrite matchesSearch_empty. reflexivity.
Qed.

Lemma ceil_days_le a n : ceil_days a <= n <-> a <= n * day_ms.
Proof.
  unfold ceil_days, day_ms.
  change (1000 * 60 * 60 * 24) with 86400000.
  pose proof (Z.div_mod (- a) 86400000 ltac:(lia)) as Hdiv.
  pose proof (Z.mod_pos_bound (- a) 86400000 ltac:(lia)) as Hmod.
  lia.
Qed.

Lemma ceil_days_whole k : ceil_days (k * day_ms) = k.
Proof.
  unfold ceil_days, day_ms. change (1000 * 60 * 60 * 24) with 86400000.
  rewrite <- Z.mul_opp_l, Z.div_mul by lia. lia.
Qed.

Lemma not_gt_days a n : negb (gt (Int (ceil_days a)) n) = (a <=? n * day_ms).
Proof.
  cbn [gt]. destruct (Z.leb_spec a (n * day_ms)) as [Hle|Hgt].
  - apply ceil_days_le in Hle. apply negb_true_iff, Z.ltb_ge. exact Hle.
  - apply negb_false_iff, Z.ltb_lt.
    destruct (Z.le_gt_cases (ceil_days a) n) as [Hle|Hlt]; [|lia].
    apply ceil_days_le in Hle. lia.
Qed.

(** C8. With only the registration period set, the callback returns for
  every record, and a record whose [created_at] reads as a date is kept by
  a bucket exactly when the distance in milliseconds between that date and
  now, in either direction, is at most the bucket's number of days (7, 30,
  90, 365): the test is an upper bound on the rounded-up day count and
  nothing else.  A record created exactly [k] days ago is kept by
  "last-week" exactly when [k <= 7] (so for 0, 3 and 7 and not for 8); and
  every record kept by a bucket, readable date or not, is kept by every
  larger one. *)
Theorem registration_buckets_are_upper_bounds `{DateParser} `{CaseMapping} (now : Date)
    (patient : Customer) :
  (forall registered,
      new_Date (created_at patient) = Some registered ->
      keeps now "" (only_registrationPeriod "last-week") patient
      = Normal (Z.abs (getTime now - getTime registered) <=? 7 * day_ms)
      /\ keeps now "" (only_registrationPeriod "last-month") patient
         = Normal (Z.abs (getTime now - getTime registered) <=? 30 * day_ms)
      /\ keeps now "" (only_registrationPeriod "last-3-months") patient
         = Normal (Z.abs (getTime now - getTime registered) <=? 90 * day_ms)
      /\ keeps now "" (only_registrationPeriod "last-year") patient
         = Normal (Z.abs (getTime now - getTime registered) <=? 365 * day_ms))
  /\ (forall registered k,
        new_Date (created_at patient) = Some registered ->
        0 <= k ->
        getTime registered = getTime now - k * day_ms ->
        diffDays now (created_at patient) = Int k
        /\ keeps now "" (only_registrationPeriod "last-week") patient = Normal (k <=? 7))
  /\ (keeps now "" (only_registrationPeriod "last-week") patient = Normal true ->
      keeps now "" (only_registrationPeriod "last-month") patient = Normal true)
  /\ (keeps now "" (only_registrationPeriod "last-month") patient = Normal true ->
      keeps now "" (only_registrationPeriod "last-3-months") patient = Normal true)
  /\ (keeps now "" (only_registrationPeriod "last-3-months") patient = Normal true ->
      keeps now "" (only_registrationPeriod "last-year") patient = Normal true).
Proof.
  rewrite !keeps_only_registrationPeriod.
  unfold excludedByRegistrationPeriod, diffDays.
  cbn [FilterState.registrationPeriod only_registrationPeriod String.eqb Ascii.eqb
       Bool.eqb].
  cbv zeta.
  split; [|split].
  - intros registered ->. rewrite !not_gt_days. auto.
  - intros registered k -> Hk Htime.
    replace (Z.abs (getTime now - getTime registered)) with (k * day_ms)
      by (rewrite Htime; unfold day_ms; lia).
    rewrite ceil_days_whole. split; [reflexivity|]. f_equal.
    cbn [gt]. destruct (Z.leb_spec k 7); [apply negb_true_iff, Z.ltb_ge|
                                           apply negb_false_iff, Z.ltb_lt]; lia.
  - destruct (new_Date (created_at patient)) as [registered|]; cbn [gt negb].
    + repeat split; intros Hkept; injection Hkept as Hkept; f_equal;
        rewrite negb_true_iff, Z.ltb_ge in *; lia.
    + auto.
Qed.

Lemma registration_buckets_are_upper_bounds_witness :
  @new_Date sample_parser "2024-06-07 12:00:00" = Some (utc 1717761600000 2024 5 7)
  /\ 0 <= 8
  /\ getTime (utc 1717761600000 2024 5 7) = getTime noon - 8 * day_ms
  /\ @keeps sample_parser ascii_folding noon "" (only_registrationPeriod "last-week")
       (patient "Rose Tyler" None "2024-06-07 12:00:00")
     = Normal false.
Proof.
  split; [reflexivity|]. split; [lia|]. split; [reflexivity|].
  apply (proj1 (proj2 (@registration_buckets_are_upper_bounds sample_parser ascii_folding
                         noon (patient "Rose Tyler" None "2024-06-07 12:00:00")))
           (utc 1717761600000 2024 5 7) 8);
    [reflexivity | lia | reflexivity].
Defined.

(** The four records of the specification's example, and one created a
  day ago that "last-year" keeps as well. *)
Example last_week_examples :
  map (fun created =>
         @keeps sample_parser ascii_folding noon "" (only_registrationPeriod "last-week")
           (patient "Rose Tyler" None created))
    ["2024-06-15 12:00:00"; "2024-06-12 12:00:00"; "2024-06-08 12:00:00";
     "2024-06-07 12:00:00"]
  = [Normal true; Normal true; Normal true; Normal false]
  /\ @keeps sample_parser ascii_folding noon "" (only_registrationPeriod "last-year")
       (patient "Rose Tyler" None "2024-06-14 12:01:00")
     = Normal true.
Proof. split; vm_compute; reflexivity. Qed.

(** ** Age brackets *)

Lemma truthy_born `{DateParser} patient birth :
  born patient birth -> Js.truthy (date_of_birth patient) = true.
Proof.
  intros (text & -> & Hne & _). unfold Js.truthy, Js.or_null.
  apply String.eqb_neq in Hne. rewrite Hne. reflexivity.
Qed.

Lemma calculateAge_born `{DateParser} today patient birth :
  born patient birth ->
  calculateAge today (date_of_birth patient)
  = Age (Int (if (getMonth today - getMonth birth <? 0)
                 || ((getMonth today - getMonth birth =? 0)
                     && (getDate today <? getDate birth))
              then getFullYear today - getFullYear birth - 1
              else getFullYear today - getFullYear birth)).
Proof.
  intros (text & -> & Hne & Hparse). unfold calculateAge, Js.or_null.
  apply String.eqb_neq in Hne. rewrite Hne, Hparse. cbv zeta.
  destruct (_ || _); reflexivity.
Qed.

Lemma keeps_only_ageRange `{DateParser} `{CaseMapping} today bracket patient :
  keeps today "" (only_ageRange bracket) patient
  = if negb (String.eqb bracket "all") && Js.truthy (date_of_birth patient)
    then ReferenceError "calculateAge"
    else Normal (negb (existsb (String.eqb bracket) ["19-30"; "31-50"; "51+"])).
Proof.
  rewrite keeps_cases. unfold calls_calculateAge, passes, excludedAtAgeZero.
  rewrite matchesSearch_empty.
  cbn [only_ageRange FilterState.ageRange excludedByGender excludedByBloodGroup
       excludedByConditions excludedByRegistrationPeriod FilterState.gender
       FilterState.bloodGroup FilterState.hasConditions FilterState.registrationPeriod
       String.eqb Ascii.eqb Bool.eqb negb andb].
  rewrite !andb_true_r. reflexivity.
Qed.

(** C7 (what the code does). [calculateAge] counts whole calendar years:
  the difference of the years, less one when today's month and day come
  before those of the birth date; so a record born exactly 18 years before
  today, and one born the day before that, both have age 18.  A record
  without a date of birth counts as age 0: bracket 0-18 keeps it and
  19-30 does not.  But the filter never gets the age of a record that has
  a date of birth: with any age range selected its callback reads
  [calculateAge] before the declaration of that [const] has run and throws
  a ReferenceError, and so does the filter over every list that holds such
  a record; no record is put in a bracket. *)
Theorem age_bracket_boundaries `{DateParser} `{CaseMapping} (today : Date)
    (patients : list Customer) (patient : Customer) (bracket : string) :
  (forall birth,
      born patient birth ->
      calculateAge today (date_of_birth patient)
      = Age (Int (if (getMonth today - getMonth birth <? 0)
                     || ((getMonth today - getMonth birth =? 0)
                         && (getDate today <? getDate birth))
                  then getFullYear today - getFullYear birth - 1
                  else getFullYear today - getFullYear birth)))
  /\ (forall birth,
        born patient birth ->
        years_earlier 18 today birth ->
        calculateAge today (date_of_birth patient) = Age (Int 18))
  /\ (forall birth eighteenth,
        born patient birth ->
        years_earlier 18 today eighteenth ->
        day_earlier eighteenth birth ->
        calculateAge today (date_of_birth patient) = Age (Int 18))
  /\ (Js.truthy (date_of_birth patient) = false ->
      keeps today "" (only_ageRange "0-18") patient = Normal true
      /\ keeps today "" (only_ageRange "19-30") patient = Normal false)
  /\ (Js.truthy (date_of_birth patient) = true ->
      bracket <> "all" ->
      keeps today "" (only_ageRange bracket) patient = ReferenceError "calculateAge"
      /\ (In patient patients ->
          filteredPatients today patients "" (only_ageRange bracket)
          = ReferenceError "calculateAge")).
Proof.
  split; [|split; [|split; [|split]]].
  - intros birth Hborn. apply calculateAge_born, Hborn.
  - intros birth Hborn (Hy & Hm & Hd).
    rewrite (calculateAge_born today patient birth Hborn).
    rewrite Hy, Hm, Hd, Z.sub_diag, !Z.ltb_irrefl.
    change (0 =? 0) with true. cbn [orb andb]. do 2 f_equal. lia.
  - intros birth eighteenth Hborn (Hy & Hm & Hd) Hprev.
    rewrite (calculateAge_born today patient birth Hborn). do 2 f_equal.
    unfold day_earlier in Hprev. rewrite Hy, Hm, Hd in Hprev.
    destruct (Z.ltb_spec 1 (getDate today)) as [Hlate|Hfirst].
    + destruct Hprev as (-> & -> & ->).
      rewrite Z.sub_diag. change (0 <? 0) with false. change (0 =? 0) with true.
      cbn [orb andb].
      destruct (Z.ltb_spec (getDate today) (getDate today - 1)); lia.
    + destruct (Z.ltb_spec 0 (getMonth today)) as [Hmonth|Hjanuary].
      * destruct Hprev as (-> & -> & _).
        replace (getMonth today - (getMonth today - 1)) with 1 by lia.
        change (1 <? 0) with false. change (1 =? 0) with false. cbn [orb andb]. lia.
      * destruct Hprev as (-> & -> & ->).
        destruct (Z.ltb_spec (getMonth today - 11) 0); cbn [orb]; lia.
  - intros Hmissing. rewrite !keeps_only_ageRange, Hmissing. split; reflexivity.
  - intros Hdob Hbracket.
    assert (Hcalls : calls_calculateAge "" (only_ageRange bracket) patient = true).
    { unfold calls_calculateAge. rewrite matchesSearch_empty, Hdob.
      apply String.eqb_neq in Hbracket.
      cbn [only_ageRange FilterState.ageRange]. rewrite Hbracket. reflexivity. }
    split; [rewrite keeps_cases, Hcalls; reflexivity|].
    intros Hin. apply filteredPatients_throws. exists patient. auto.
Qed.

Lemma age_bracket_boundaries_witness :
  @born sample_parser (patient "Rory Williams" (Some "2006-06-15") "2024-06-12 12:00:00")
    (utc 1150329600000 2006 5 15)
  /\ years_earlier 18 noon (utc 1150329600000 2006 5 15)
  /\ @calculateAge sample_parser noon (Some "2006-06-15") = Age (Int 18)
  /\ "0-18" <> "all"
  /\ @filteredPatients sample_parser ascii_folding noon
       [patient "Rose Tyler" None "2024-06-07 12:00:00";
        patient "Rory Williams" (Some "2006-06-15") "2024-06-12 12:00:00"]
       "" (only_ageRange "0-18")
     = ReferenceError "calculateAge".
Proof.
  assert (Hborn : @born sample_parser
                    (patient "Rory Williams" (Some "2006-06-15") "2024-06-12 12:00:00")
                    (utc 1150329600000 2006 5 15)).
  { exists "2006-06-15". split; [reflexivity|]. split; [discriminate|reflexivity]. }
  assert (Hyears : years_earlier 18 noon (utc 1150329600000 2006 5 15))
    by (repeat split; reflexivity).
  assert (Hbracket : "0-18" <> "all") by discriminate.
  destruct (@age_bracket_boundaries sample_parser ascii_folding noon
              [patient "Rose Tyler" None "2024-06-07 12:00:00";
               patient "Rory Williams" (Some "2006-06-15") "2024-06-12 12:00:00"]
              (patient "Rory Williams" (Some "2006-06-15") "2024-06-12 12:00:00") "0-18")
    as (_ & Hage & _ & _ & Hthrows).
  split; [exact Hborn|]. split; [exact Hyears|].
  split; [exact (Hage _ Hborn Hyears)|]. split; [exact Hbracket|].
  apply (Hthrows eq_refl Hbracket). right. left. reflexivity.
Defined.

(** * Further properties of the store *)

(** ** Schema set-up *)

Lemma create_table_existing name db :
  table_exists name db = true -> create_table_if_not_exists name db = db.
Proof. intros Ht. unfold create_table_if_not_exists. rewrite Ht. reflexivity. Qed.

Lemma table_exists_create name other db :
  table_exists name (create_table_if_not_exists other db)
  = table_exists name db || String.eqb name other.
Proof.
  unfold create_table_if_not_exists.
  destruct (table_exists other db) eqn:Hother.
  - destruct (String.eqb_spec name other) as [->|_].
    + rewrite Hother. reflexivity.
    + rewrite orb_false_r. reflexivity.
  - unfold table_exists. cbn [catalog with_catalog]. rewrite existsb_app.
    cbn [existsb]. rewrite orb_false_r. reflexivity.
Qed.

Lemma table_exists_create_all names name db :
  table_exists name
    (fold_left (fun d n => create_table_if_not_exists n d) names db)
  = table_exists name db || existsb (String.eqb name) names.
Proof.
  revert db. induction names as [|n names IH]; intros db; cbn [fold_left existsb].
  - rewrite orb_false_r. reflexivity.
  - rewrite IH, table_exists_create, orb_assoc. reflexivity.
Qed.

Lemma create_all_existing names db :
  (forall n, In n names -> table_exists n db = true) ->
  fold_left (fun d n => create_table_if_not_exists n d) names db = db.
Proof.
  revert db. induction names as [|n names IH]; intros db Hall; [reflexivity|].
  cbn [fold_left]. rewrite create_table_existing by (apply Hall; left; reflexivity).
  apply IH. intros m Hm. apply Hall. right. exact Hm.
Qed.

Lemma create_table_rows name db :
  users (create_table_if_not_exists name db) = users db
  /\ customers (create_table_if_not_exists name db) = customers db
  /\ doctors (create_table_if_not_exists name db) = doctors db
  /\ pending_registrations (create_table_if_not_exists name db)
     = pending_registrations db
  /\ patients (create_table_if_not_exists name db) = patients db.
Proof.
  unfold create_table_if_not_exists. destruct (table_exists name db); repeat split.
Qed.

Lemma create_all_rows names db :
  let db' := fold_left (fun d n => create_table_if_not_exists n d) names db in
  users db' = users db
  /\ customers db' = customers db
  /\ doctors db' = doctors db
  /\ pending_registrations db' = pending_registrations db
  /\ patients db' = patients db.
Proof.
  revert db. induction names as [|n names IH]; intros db; cbn [fold_left].
  - repeat split.
  - destruct (IH (create_table_if_not_exists n db)) as (Hu & Hc & Hd & Hp & Hpt).
    destruct (create_table_rows n db) as (Hu' & Hc' & Hd' & Hp' & Hpt').
    cbv zeta. repeat split; congruence.
Qed.

Lemma createTables_rows_and_tables (db : Database) (name : string) :
  table_exists name (createTables db)
  = table_exists name db || existsb (String.eqb name) schema_tables
  /\ users (createTables db) = users db
  /\ customers (createTables db) = customers db
  /\ doctors (createTables db) = doctors db
  /\ pending_registrations (createTables db) = pending_registrations db
  /\ patients (createTables db) = patients db
  /\ createTables (createTables db) = createTables db.
Proof.
  unfold createTables. split; [apply table_exists_create_all|].
  destruct (create_all_rows schema_tables db) as (Hu & Hc & Hd & Hp & Hpt).
  repeat (split; [assumption|]).
  apply create_all_existing. intros n Hn.
  rewrite table_exists_create_all.
  assert (Hin : existsb (String.eqb n) schema_tables = true).
  { apply existsb_exists. exists n. split; [exact Hn|apply String.eqb_refl]. }
  rewrite Hin. apply orb_true_r.
Qed.

(** X1. [createTables] can be run on any database, any number of times:
  afterwards a table exists exactly when it existed before or is one of
  the eight of the schema (so a missing [patients] table stays missing), no
  row of any table has changed, and running it again changes nothing. *)
Theorem createTables_is_idempotent (db : Database) (name : string) :
  table_exists name (createTables db)
  = table_exists name db || existsb (String.eqb name) schema_tables
  /\ users (createTables db) = users db
  /\ customers (createTables db) = customers db
  /\ doctors (createTables db) = doctors db
  /\ pending_registrations (createTables db) = pending_registrations db
  /\ patients (createTables db) = patients db
  /\ createTables (createTables db) = createTables db.
Proof. apply createTables_rows_and_tables. Qed.

(** X2. Whatever file [initDatabase] starts from, the database it leaves
  has the tables and rows of [createTables] of that file (of a new
  database when there is none), except that on a file whose [users] table
  has no [status] column the migration makes every user active; the rows
  of the other tables are those of the file.  The check for
  [pending_registrations] always finds the table, so the manual creation
  is never needed; every table of the schema exists; no user is added or
  removed; and starting again from the file of the result changes
  nothing. *)
Theorem initDatabase_restart (file : option File.t) (name : string) :
  let opened := match file with Some f => f | None => export new_Database end in
  let hasStatusColumn :=
    negb (table_exists "users" (File.data opened)) || File.users_status opened in
  initDatabase file
  = (if hasStatusColumn then createTables (File.data opened)
     else add_status_column (createTables (File.data opened)))
  /\ (In name schema_tables -> table_exists name (initDatabase file) = true)
  /\ (hasStatusColumn = true -> users (initDatabase file) = users (File.data opened))
  /\ (hasStatusColumn = false ->
      map UserRow.id (users (initDatabase file))
      = map UserRow.id (users (File.data opened))
      /\ forall u, In u (users (initDatabase file)) -> UserRow.status u = Some "active")
  /\ doctors (initDatabase file) = doctors (File.data opened)
  /\ pending_registrations (initDatabase file) = pending_registrations (File.data opened)
  /\ initDatabase (Some (export (initDatabase file))) = initDatabase file.
Proof.
  cbv zeta.
  set (opened := match file with Some f => f | None => export new_Database end).
  assert (Htables : forall db n,
             table_exists n (add_status_column db) = table_exists n db)
    by reflexivity.
  assert (Hcreated : forall db, table_exists "pending_registrations" (createTables db) = true).
  { intros db. rewrite (proj1 (createTables_rows_and_tables _ _)). apply orb_true_r. }
  assert (Hinit : initDatabase file
                  = if negb (table_exists "users" (File.data opened))
                       || File.users_status opened
                    then createTables (File.data opened)
                    else add_status_column (createTables (File.data opened))).
  { unfold initDatabase, runMigrations, add_rating_column. fold opened. cbv zeta.
    destruct (table_exists "users" (File.data opened)),
      (File.users_status opened),
      (table_exists "feedback_complaints" (File.data opened)),
      (File.feedback_complaints_rating opened);
      cbn [negb orb]; rewrite ?Htables, Hcreated; reflexivity. }
  assert (Hagain : forall db,
             table_exists "users" db = true ->
             table_exists "pending_registrations" db = true ->
             createTables db = db ->
             initDatabase (Some (export db)) = db).
  { intros db Hu Hp Hsame.
    unfold initDatabase, runMigrations, add_rating_column, export.
    cbn [File.data File.users_status File.feedback_complaints_rating]. cbv zeta.
    rewrite Hu, Hsame.
    destruct (table_exists "feedback_complaints" db); cbn [negb]; rewrite Hp; reflexivity. }
  pose proof (createTables_rows_and_tables (File.data opened)) as Hrows.
  split; [exact Hinit|]. rewrite Hinit.
  assert (Hschema : forall n, In n schema_tables ->
                              table_exists n (createTables (File.data opened)) = true).
  { intros n Hin. rewrite (proj1 (Hrows n)).
    replace (existsb (String.eqb n) schema_tables) with true; [apply orb_true_r|].
    symmetry. apply existsb_exists. exists n. split; [exact Hin|apply String.eqb_refl]. }
  destruct (Hrows name) as (_ & Husers & _ & Hdoctors & Hpending & _ & Hidem).
  destruct (negb (table_exists "users" (File.data opened)) || File.users_status opened).
  - split; [apply Hschema|]. split; [intros _; exact Husers|].
    split; [discriminate|]. split; [exact Hdoctors|]. split; [exact Hpending|].
    apply Hagain; [apply Hschema; cbn; auto|apply Hcreated|exact Hidem].
  - split; [intros Hin; rewrite Htables; apply Hschema, Hin|].
    split; [discriminate|]. split; [|split; [exact Hdoctors|split; [exact Hpending|]]].
    + intros _. unfold add_status_column. cbn [users with_users]. rewrite Husers.
      split.
      * rewrite map_map. reflexivity.
      * intros u Hin. apply in_map_iff in Hin. destruct Hin as (v & <- & _). reflexivity.
    + apply Hagain.
      * rewrite Htables. apply Hschema. cbn; auto.
      * rewrite Htables. apply Hcreated.
      * unfold createTables at 1. apply create_all_existing.
        intros n Hin. rewrite Htables. apply Hschema, Hin.
Qed.

Lemma initDatabase_restart_witness :
  In "doctors" schema_tables
  /\ table_exists "doctors" (initDatabase None) = true
  /\ map Sample.account
       (users (initDatabase
                 (Some {| File.data := with_catalog ["users"] Sample.with_root;
                          File.users_status := false;
                          File.feedback_complaints_rating := false |})))
     = [(1, "root", "admin", Some "active")].
Proof.
  assert (Hin : In "doctors" schema_tables) by (cbn; auto 10).
  split; [exact Hin|].
  split; [exact (proj1 (proj2 (initDatabase_restart None "doctors")) Hin)|].
  destruct (initDatabase_restart
              (Some {| File.data := with_catalog ["users"] Sample.with_root;
                       File.users_status := false;
                       File.feedback_complaints_rating := false |}) "users")
    as (Hinit & _).
  rewrite Hinit. vm_compute. reflexivity.
Defined.

(** ** Users: creation and lookup *)

Lemma hd_error_filter_some {A} (f : A -> bool) l x :
  hd_error (filter f l) = Some x -> In x l /\ f x = true.
Proof.
  intros Hhd. apply filter_In. destruct (filter f l) as [|y rest]; [discriminate|].
  injection Hhd as ->. left. reflexivity.
Qed.

Lemma hd_error_filter_none {A} (f : A -> bool) l :
  hd_error (filter f l) = None -> forall x, In x l -> f x = false.
Proof.
  intros Hhd x Hin. destruct (f x) eqn:Hfx; [|reflexivity].
  assert (Hx : In x (filter f l)) by (apply filter_In; auto).
  destruct (filter f l); [destruct Hx|discriminate].
Qed.

Lemma getUserByEmail_runs email db :
  getUserByEmail email db
  = Returns (if table_exists "users" db
             then hd_error (filter (fun u => String.eqb (UserRow.email u) email) (users db))
             else None) db.
Proof.
  unfold getUserByEmail, try_catch, bind, select_users_by_email, on_table, ret.
  destruct (table_exists "users" db); reflexivity.
Qed.

Lemma getUserByUsername_runs username db :
  getUserByUsername username db
  = Returns (if table_exists "users" db
             then hd_error (filter (fun u => String.eqb (UserRow.username u) username)
                              (users db))
             else None) db.
Proof.
  unfold getUserByUsername, try_catch, bind, select_users_by_username, on_table, ret.
  destruct (table_exists "users" db); reflexivity.
Qed.

Lemma getUserByPhone_runs phone db :
  getUserByPhone phone db
  = Returns (if table_exists "users" db
             then hd_error (filter (fun u => Js.opt_eqb (UserRow.phone u) phone) (users db))
             else None) db.
Proof.
  unfold getUserByPhone, try_catch, bind, select_users_by_phone, on_table, ret.
  destruct (table_exists "users" db); reflexivity.
Qed.

Lemma opt_eqb_eq x s : Js.opt_eqb x s = true <-> x = Some s.
Proof.
  destruct x as [t|]; cbn [Js.opt_eqb].
  - rewrite String.eqb_eq. split; congruence.
  - split; discriminate.
Qed.

(** X3. The three lookups of a user, by address, by user name and by
  phone, never throw and never change the store.  A user they return is a
  row of [users] with the key that was asked for; when they return nothing
  on a store that has the table, no row of [users] has that key. *)
Theorem user_lookups_are_sound (db : Database) (email username phone : string) :
  exists byEmail byUsername byPhone,
    getUserByEmail email db = Returns byEmail db
    /\ getUserByUsername username db = Returns byUsername db
    /\ getUserByPhone phone db = Returns byPhone db
    /\ (forall u, byEmail = Some u -> In u (users db) /\ UserRow.email u = email)
    /\ (forall u, byUsername = Some u -> In u (users db) /\ UserRow.username u = username)
    /\ (forall u, byPhone = Some u -> In u (users db) /\ UserRow.phone u = Some phone)
    /\ (table_exists "users" db = true ->
        (byEmail = None -> forall u, In u (users db) -> UserRow.email u <> email)
        /\ (byUsername = None ->
            forall u, In u (users db) -> UserRow.username u <> username)
        /\ (byPhone = None ->
            forall u, In u (users db) -> UserRow.phone u <> Some phone)).
Proof.
  eexists _, _, _.
  split; [apply getUserByEmail_runs|].
  split; [apply getUserByUsername_runs|].
  split; [apply getUserByPhone_runs|].
  destruct (table_exists "users" db).
  - repeat split.
    + apply (hd_error_filter_some _ _ _ H).
    + apply String.eqb_eq, (hd_error_filter_some _ _ _ H).
    + apply (hd_error_filter_some _ _ _ H).
    + apply String.eqb_eq, (hd_error_filter_some _ _ _ H).
    + apply (hd_error_filter_some _ _ _ H).
    + apply opt_eqb_eq, (hd_error_filter_some _ _ _ H).
    + intros Hnone u Hin Heq. apply String.eqb_eq in Heq.
      rewrite (hd_error_filter_none _ _ Hnone u Hin) in Heq. discriminate.
    + intros Hnone u Hin Heq. apply String.eqb_eq in Heq.
      rewrite (hd_error_filter_none _ _ Hnone u Hin) in Heq. discriminate.
    + intros Hnone u Hin Heq. apply opt_eqb_eq in Heq.
      rewrite (hd_error_filter_none _ _ Hnone u Hin) in Heq. discriminate.
  - repeat split; try discriminate.
Qed.

Lemma user_lookups_are_sound_witness :
  exists u,
    getUserByEmail "root@clinic.test" Sample.with_ho_approved
    = Returns (Some u) Sample.with_ho_approved
    /\ In u (users Sample.with_ho_approved)
    /\ UserRow.email u = "root@clinic.test".
Proof.
  destruct (user_lookups_are_sound Sample.with_ho_approved "root@clinic.test" "drho"
              "555-0101")
    as (byEmail & _ & _ & Hrun & _ & _ & Hsound & _).
  destruct byEmail as [u|] eqn:Hby.
  - exists u. split; [exact Hrun|]. apply Hsound. reflexivity.
  - exfalso. revert Hrun. vm_compute. discriminate.
Defined.

Lemma users_unique_clash_iff username email rows :
  users_unique_clash username email rows = false <->
  forall u, In u rows -> UserRow.username u <> username /\ UserRow.email u <> email.
Proof.
  split; [|apply users_unique_clash_false].
  intros Hfree u Hin. unfold users_unique_clash in Hfree.
  assert (Hu : String.eqb (UserRow.username u) username
               || String.eqb (UserRow.email u) email = false).
  { destruct (_ || _) eqn:Hclash; [|reflexivity].
    assert (Hex : existsb (fun u => String.eqb (UserRow.username u) username
                                    || String.eqb (UserRow.email u) email) rows = true)
      by (apply existsb_exists; eauto).
    congruence. }
  apply orb_false_iff in Hu. destruct Hu as [Hname Hmail].
  split; apply String.eqb_neq; assumption.
Qed.

Lemma users_role_check_iff role :
  users_role_check role = true <-> In role ["admin"; "doctor"; "customer"; "staff"].
Proof.
  unfold users_role_check. rewrite existsb_exists. split.
  - intros (r & Hin & Heq). apply String.eqb_eq in Heq. subst r. exact Hin.
  - intros Hin. exists role. split; [exact Hin|apply String.eqb_refl].
Qed.

Lemma filter_none {A} (f : A -> bool) l :
  (forall x, In x l -> f x = false) -> filter f l = [].
Proof.
  induction l as [|x l IH]; intros Hall; [reflexivity|].
  cbn [filter]. rewrite (Hall x (or_introl eq_refl)). apply IH.
  intros y Hy. apply Hall. right. exact Hy.
Qed.

Lemma createUser_runs `{Bcrypt} (user : User.t) (salt now : string) db :
  table_exists "users" db = true ->
  users_role_check (User.role user) = true ->
  users_unique_clash (User.username user) (User.email user) (users db) = false ->
  exists u db',
    createUser user salt now db
    = Returns (next_rowid (map UserRow.id (users db)) (users_seq db)) db'
    /\ UserRow.id u = next_rowid (map UserRow.id (users db)) (users_seq db)
    /\ UserRow.username u = User.username user
    /\ UserRow.email u = User.email user
    /\ UserRow.password u = bcrypt_hash (User.password user) 10 salt
    /\ UserRow.role u = User.role user
    /\ UserRow.status u = Some "active"
    /\ users db' = users db ++ [u]
    /\ users_seq db' = UserRow.id u
    /\ catalog db' = catalog db
    /\ doctors db' = doctors db
    /\ pending_registrations db' = pending_registrations db.
Proof.
  intros Ht Hcheck Hfree.
  unfold createUser, try_catch, bind, insert_users, on_table, select_last_insert_rowid,
    saveDatabase, ret.
  cbv zeta. rewrite Ht, Hcheck, Hfree. cbn [negb].
  eexists _, _. split; [reflexivity|]. repeat split; reflexivity.
Qed.

(** X4. On a store with the [users] table whose next rowid is at most
  2^53, a user whose role is one of admin, doctor, customer, staff and
  whose user name and address no user has is created: [createUser]
  returns a rowid that no user had, that is above the table's counter and
  at most 2^53, the table gains exactly one row, active, under that rowid
  and with the hash of the password, and both [getUserByEmail] and
  [getUserByUsername] then return that row. *)
Theorem createUser_then_lookup `{Bcrypt} (db : Database) (user : User.t)
    (salt now : string) :
  table_exists "users" db = true ->
  exact_rowid (next_rowid (map UserRow.id (users db)) (users_seq db)) ->
  In (User.role user) ["admin"; "doctor"; "customer"; "staff"] ->
  (forall u, In u (users db) ->
             UserRow.username u <> User.username user
             /\ UserRow.email u <> User.email user) ->
  exists userId u db',
    createUser user salt now db = Returns userId db'
    /\ users db' = users db ++ [u]
    /\ UserRow.id u = userId
    /\ ~ In userId (map UserRow.id (users db))
    /\ users_seq db < userId <= 2 ^ 53
    /\ UserRow.password u = bcrypt_hash (User.password user) 10 salt
    /\ UserRow.role u = User.role user
    /\ UserRow.status u = Some "active"
    /\ getUserByEmail (User.email user) db' = Returns (Some u) db'
    /\ getUserByUsername (User.username user) db' = Returns (Some u) db'.
Proof.
  intros Ht Hexact Hrole Hfree. unfold exact_rowid in Hexact.
  apply users_role_check_iff in Hrole.
  pose proof (proj2 (users_unique_clash_iff _ _ _) Hfree) as Hclash.
  destruct (createUser_runs user salt now db Ht Hrole Hclash)
    as (u & db' & Hrun & Hid & Hname & Hmail & Hpw & Hurole & Hstatus & Husers
        & _ & Hcat & _).
  exists (UserRow.id u), u, db'. rewrite <- Hid in Hrun.
  split; [exact Hrun|]. split; [exact Husers|]. split; [reflexivity|].
  split; [rewrite Hid; apply next_rowid_fresh|].
  split; [rewrite Hid; unfold next_rowid in *; lia|].
  repeat (split; [assumption|]).
  rewrite getUserByEmail_runs, getUserByUsername_runs.
  rewrite (table_exists_same_catalog _ _ _ Hcat), Ht, Husers, !filter_app.
  cbn [filter]. rewrite Hname, Hmail, !String.eqb_refl.
  rewrite !filter_none; [split; reflexivity| |].
  - intros v Hv. apply String.eqb_neq, (Hfree v Hv).
  - intros v Hv. apply String.eqb_neq, (Hfree v Hv).
Qed.

Lemma createUser_then_lookup_witness :
  table_exists "users" Sample.with_root = true
  /\ exact_rowid (next_rowid (map UserRow.id (users Sample.with_root))
              (users_seq Sample.with_root))
  /\ In (User.role Sample.amy) ["admin"; "doctor"; "customer"; "staff"]
  /\ exists userId u db',
       @createUser Sample.toy_bcrypt Sample.amy "salt6" "2024-06-01 09:30:00"
         Sample.with_root
       = Returns userId db'
       /\ getUserByEmail "amy@example.test" db' = Returns (Some u) db'
       /\ UserRow.password u = "$2a$10$salt6hunter2".
Proof.
  assert (Hrole : In (User.role Sample.amy) ["admin"; "doctor"; "customer"; "staff"])
    by (cbn; auto).
  assert (Hexact : exact_rowid (next_rowid (map UserRow.id (users Sample.with_root))
                            (users_seq Sample.with_root)))
    by (vm_compute; discriminate).
  split; [reflexivity|]. split; [exact Hexact|]. split; [exact Hrole|].
  destruct (@createUser_then_lookup Sample.toy_bcrypt Sample.with_root Sample.amy
              "salt6" "2024-06-01 09:30:00" eq_refl Hexact Hrole)
    as (userId & u & db' & Hrun & _ & _ & _ & _ & Hpw & _ & _ & Hlookup & _).
  - intros v [<-|[]]. split; discriminate.
  - exists userId, u, db'. auto.
Defined.

(** X5. [createUser] returns exactly when the store has the [users]
  table, the role is one of admin, doctor, customer, staff, and no user
  has the user name or the address; in every other case it throws and the
  store is as it was.  The role "patient", which the [User] interface of
  the module allows, is therefore always refused. *)
Theorem createUser_refusals `{Bcrypt} (db : Database) (user : User.t)
    (salt now : string) :
  ((exists userId db', createUser user salt now db = Returns userId db')
   <-> (table_exists "users" db = true
        /\ In (User.role user) ["admin"; "doctor"; "customer"; "staff"]
        /\ forall u, In u (users db) ->
                     UserRow.username u <> User.username user
                     /\ UserRow.email u <> User.email user))
  /\ (forall e db', createUser user salt now db = Throws e db' -> db' = db)
  /\ (User.role user = "patient" ->
      exists e, createUser user salt now db = Throws e db).
Proof.
  assert (Hcases :
            (table_exists "users" db = true
             /\ users_role_check (User.role user) = true
             /\ users_unique_clash (User.username user) (User.email user) (users db)
                = false
             /\ exists userId db', createUser user salt now db = Returns userId db')
            \/ ((table_exists "users" db = false
                 \/ users_role_check (User.role user) = false
                 \/ users_unique_clash (User.username user) (User.email user) (users db)
                    = true)
                /\ exists e, createUser user salt now db = Throws e db)).
  { destruct (table_exists "users" db) eqn:Ht.
    - destruct (users_role_check (User.role user)) eqn:Hcheck.
      + destruct (users_unique_clash _ _ (users db)) eqn:Hclash.
        * right. split; [auto|]. eexists.
          unfold createUser. rewrite try_catch_rethrow. cbv zeta.
          apply bind_throws. rewrite insert_users_refused by auto. reflexivity.
        * left. repeat (split; [reflexivity|]).
          destruct (createUser_runs user salt now db Ht Hcheck Hclash)
            as (u & db' & Hrun & _). eauto.
      + right. split; [auto|]. eexists.
        unfold createUser. rewrite try_catch_rethrow. cbv zeta.
        apply bind_throws. rewrite insert_users_refused by auto. reflexivity.
    - right. split; [auto|]. eexists.
      unfold createUser, try_catch, bind, insert_users, on_table, throw.
      cbv zeta. rewrite Ht. reflexivity. }
  split; [|split].
  - split.
    + intros (userId & db' & Hrun).
      destruct Hcases as [(Ht & Hcheck & Hclash & _)|(_ & e & Hthrow)]; [|congruence].
      split; [exact Ht|]. split; [apply users_role_check_iff, Hcheck|].
      apply users_unique_clash_iff, Hclash.
    + intros (Ht & Hrole & Hfree).
      destruct Hcases as [(_ & _ & _ & Hrun)|([Hno|[Hno|Hno]] & _)]; [exact Hrun|..].
      * congruence.
      * apply users_role_check_iff in Hrole. congruence.
      * apply users_unique_clash_iff in Hfree. congruence.
  - intros e db' Hthrow.
    destruct Hcases as [(_ & _ & _ & userId & db1 & Hrun)|(_ & e' & Hthrow')];
      congruence.
  - intros Hpatient.
    destruct Hcases as [(_ & Hcheck & _)|(_ & Hthrow)]; [|exact Hthrow].
    rewrite Hpatient in Hcheck. discriminate.
Qed.

Lemma createUser_refusals_witness :
  User.role (Sample.amy) = "customer"
  /\ exists e,
       @createUser Sample.toy_bcrypt
         {| User.username := "amy"; User.email := "amy@example.test";
            User.password := "hunter2"; User.role := "patient";
            User.full_name := "Amy Pond"; User.phone := None |}
         "salt6" "2024-06-01 09:30:00" Sample.with_root
       = Throws e Sample.with_root.
Proof.
  split; [reflexivity|].
  exact (proj2 (proj2 (@createUser_refusals Sample.toy_bcrypt Sample.with_root
                         {| User.username := "amy"; User.email := "amy@example.test";
                            User.password := "hunter2"; User.role := "patient";
                            User.full_name := "Amy Pond"; User.phone := None |}
                         "salt6" "2024-06-01 09:30:00")) eq_refl).
Defined.

(** ** Unique keys *)

Lemma NoDup_map_snoc {A B} (k : A -> B) l x :
  NoDup (map k l) -> ~ In (k x) (map k l) -> NoDup (map k (l ++ [x])).
Proof.
  intros Hl Hx. rewrite map_app. cbn [map].
  apply NoDup_app; [exact Hl | repeat constructor; intros [] | ].
  intros y Hy [<-|[]]. exact (Hx Hy).
Qed.

Lemma NoDup_map_filter {A B} (k : A -> B) (p : A -> bool) l :
  NoDup (map k l) -> NoDup (map k (filter p l)).
Proof.
  induction l as [|x l IH]; intros Hl; [constructor|].
  cbn [map] in Hl. inversion Hl as [|? ? Hx Hrest]; subst.
  cbn [filter]. destruct (p x); [|apply IH, Hrest].
  cbn [map]. constructor; [|apply IH, Hrest].
  intros Hin. apply Hx. apply in_map_iff in Hin. destruct Hin as (y & Hk & Hy).
  apply filter_In in Hy. apply in_map_iff. exists y. tauto.
Qed.

Lemma map_key_kept {A B} (k : A -> B) (f : A -> A) l :
  (forall x, k (f x) = k x) -> map k (map f l) = map k l.
Proof.
  intros Hk. rewrite map_map. apply map_ext. exact Hk.
Qed.

Lemma licences_snoc rows d :
  licences (rows ++ [d])
  = licences rows ++ match DoctorRow.license_number d with Some l => [l] | None => [] end.
Proof. unfold licences. rewrite flat_map_app. cbn [flat_map]. rewrite app_nil_r. reflexivity. Qed.

Lemma licences_filter p rows : NoDup (licences rows) -> NoDup (licences (filter p rows)).
Proof.
  induction rows as [|d rows IH]; intros Hl; [constructor|].
  cbn [filter]. unfold licences in *. cbn [flat_map] in Hl.
  assert (Hrest : NoDup (flat_map (fun d => match DoctorRow.license_number d with
                                            | Some l => [l] | None => [] end) rows)).
  { destruct (DoctorRow.license_number d); [inversion Hl; assumption|exact Hl]. }
  destruct (p d); [|apply IH, Hrest].
  cbn [flat_map]. destruct (DoctorRow.license_number d) as [l|]; [|apply IH, Hrest].
  cbn [app] in *. inversion Hl as [|? ? Hx _]; subst. constructor; [|apply IH, Hrest].
  intros Hin. apply Hx. apply in_flat_map in Hin. destruct Hin as (e & He & Hl').
  apply filter_In in He. apply in_flat_map. exists e. tauto.
Qed.

Lemma licence_free l rows :
  doctors_unique_clash (Some l) rows = false -> ~ In l (licences rows).
Proof.
  intros Hfree Hin. unfold licences in Hin. apply in_flat_map in Hin.
  destruct Hin as (d & Hd & Hl).
  assert (Hclash : doctors_unique_clash (Some l) rows = true).
  { cbn [doctors_unique_clash]. apply existsb_exists. exists d. split; [exact Hd|].
    destruct (DoctorRow.license_number d) as [l'|]; [|destruct Hl].
    destruct Hl as [->|[]]. cbn [Js.opt_eqb]. apply String.eqb_refl. }
  congruence.
Qed.

Lemma keeps_keys_refl db : keeps_keys db db.
Proof. intros H. exact H. Qed.

Lemma keeps_keys_trans a b c : keeps_keys a b -> keeps_keys b c -> keeps_keys a c.
Proof. unfold keeps_keys. auto. Qed.

Ltac keys_unchanged :=
  unfold keeps_keys, well_keyed, users_keyed, pending_keyed, doctors_keyed;
  cbn [state_of users pending_registrations doctors inserted with_users with_doctors
       with_patients with_customers with_pending_registrations with_catalog
       cascade_user];
  try tauto.

Lemma keys_insert_users u e p r f ph now : maintains keeps_keys (insert_users u e p r f ph now).
Proof.
  intros db. unfold insert_users, on_table.
  destruct (table_exists "users" db); [|apply keeps_keys_refl].
  destruct (negb (users_role_check r)); [apply keeps_keys_refl|].
  destruct (users_unique_clash u e (users db)) eqn:Hclash; [apply keeps_keys_refl|].
  pose proof (proj1 (users_unique_clash_iff _ _ _) Hclash) as Hfree. clear Hclash.
  rename Hfree into Hclash.
  keys_unchanged. intros ((Hid & Hname & Hmail) & Hp & Hd).
  repeat split; try tauto.
  - apply NoDup_map_snoc; [exact Hid|]. cbn [UserRow.id]. apply next_rowid_fresh.
  - apply NoDup_map_snoc; [exact Hname|]. cbn [UserRow.username].
    intros Hin. apply in_map_iff in Hin. destruct Hin as (v & Hv & Hin).
    exact (proj1 (Hclash v Hin) Hv).
  - apply NoDup_map_snoc; [exact Hmail|]. cbn [UserRow.email].
    intros Hin. apply in_map_iff in Hin. destruct Hin as (v & Hv & Hin).
    exact (proj2 (Hclash v Hin) Hv).
Qed.

Lemma keys_update_users_password p e now :
  maintains keeps_keys (update_users_password p e now).
Proof.
  intros db. unfold update_users_password, on_table.
  destruct (table_exists "users" db); [|apply keeps_keys_refl].
  keys_unchanged.
  rewrite !map_key_kept; [tauto|..];
    intros u; destruct (String.eqb (UserRow.email u) e); reflexivity.
Qed.

Lemma keys_update_users_status st id now :
  maintains keeps_keys (update_users_status st id now).
Proof.
  intros db. unfold update_users_status, on_table.
  destruct (table_exists "users" db); [|apply keeps_keys_refl].
  keys_unchanged.
  rewrite !map_key_kept; [tauto|..];
    intros u; destruct (non_admin_with_id id u); reflexivity.
Qed.

Lemma keys_insert_patients p now : maintains keeps_keys (insert_patients p now).
Proof.
  intros db. unfold insert_patients, on_table.
  destruct (table_exists "patients" db); keys_unchanged.
Qed.

Lemma keys_insert_doctors d now : maintains keeps_keys (insert_doctors d now).
Proof.
  intros db. unfold insert_doctors, on_table.
  destruct (table_exists "doctors" db); [|apply keeps_keys_refl].
  destruct (doctors_unique_clash _ (doctors db)) eqn:Hclash; [apply keeps_keys_refl|].
  destruct (negb (references_user _ db)); [apply keeps_keys_refl|].
  keys_unchanged. intros (Hu & Hp & Hid & Hlic).
  repeat split; try tauto.
  - apply NoDup_map_snoc; [exact Hid|]. cbn [DoctorRow.id]. apply next_rowid_fresh.
  - rewrite licences_snoc. cbn [DoctorRow.license_number].
    destruct (Doctor.license_number d) as [l|]; [|rewrite app_nil_r; exact Hlic].
    apply NoDup_app; [exact Hlic | repeat constructor; intros [] | ].
    intros y Hy [<-|[]]. exact (licence_free _ _ Hclash Hy).
Qed.

Lemma keys_insert_pending u e p r f ph sp li ex fee ad ts te dep emp now :
  maintains keeps_keys
    (insert_pending_registrations u e p r f ph sp li ex fee ad ts te dep emp now).
Proof.
  intros db. unfold insert_pending_registrations, on_table.
  destruct (table_exists "pending_registrations" db); [|apply keeps_keys_refl].
  destruct (pending_unique_clash e (pending_registrations db)) eqn:Hclash;
    [apply keeps_keys_refl|].
  keys_unchanged. intros (Hu & (Hid & Hmail) & Hd).
  repeat split; try tauto.
  - apply NoDup_map_snoc; [exact Hid|]. cbn [PendingRow.id]. apply next_rowid_fresh.
  - apply NoDup_map_snoc; [exact Hmail|]. cbn [PendingRow.email].
    intros Hin. apply in_map_iff in Hin. destruct Hin as (v & Hv & Hin).
    exact (proj1 (pending_unique_clash_false _ _) Hclash v Hin Hv).
Qed.

Lemma keys_update_pending st by_ notes id now :
  maintains keeps_keys (update_pending_registrations st by_ notes id now).
Proof.
  intros db. unfold update_pending_registrations, on_table.
  destruct (table_exists "pending_registrations" db); [|apply keeps_keys_refl].
  keys_unchanged.
  rewrite !map_key_kept; [tauto|..];
    intros r; destruct (PendingRow.id r =? id); reflexivity.
Qed.

Lemma keys_select_role id : maintains keeps_keys (select_role_by_id id).
Proof.
  intros db. unfold select_role_by_id, on_table.
  destruct (table_exists "users" db); apply keeps_keys_refl.
Qed.

Lemma keys_select_pending_by_id id :
  maintains keeps_keys (select_pending_registrations_by_id id).
Proof.
  intros db. unfold select_pending_registrations_by_id, on_table.
  destruct (table_exists "pending_registrations" db); apply keeps_keys_refl.
Qed.

Lemma keys_select_rowid : maintains keeps_keys select_last_insert_rowid.
Proof. intros db. apply keeps_keys_refl. Qed.

Lemma keys_save : maintains keeps_keys saveDatabase.
Proof. intros db. apply keeps_keys_refl. Qed.

Lemma keys_delete_patients id : maintains keeps_keys (delete_patients_by_user_id id).
Proof.
  intros db. unfold delete_patients_by_user_id, on_table.
  destruct (table_exists "patients" db); keys_unchanged.
Qed.

Lemma keys_delete_doctors id : maintains keeps_keys (delete_doctors_by_user_id id).
Proof.
  intros db. unfold delete_doctors_by_user_id, on_table.
  destruct (table_exists "doctors" db); [|apply keeps_keys_refl].
  keys_unchanged. intros (Hu & Hp & Hid & Hlic).
  repeat split; try tauto; [apply NoDup_map_filter, Hid|apply licences_filter, Hlic].
Qed.

Lemma keys_delete_users id : maintains keeps_keys (delete_users_non_admin id).
Proof.
  intros db. unfold delete_users_non_admin, on_table.
  destruct (table_exists "users" db); [|apply keeps_keys_refl].
  destruct (foreign_keys db && existsb (non_admin_with_id id) (users db));
    keys_unchanged; intros ((Hid & Hname & Hmail) & Hp & Hdid & Hlic);
    repeat split; try tauto; try (apply NoDup_map_filter; assumption).
  apply licences_filter, Hlic.
Qed.

Lemma keys_create_table name :
  maintains keeps_keys (fun db => Returns tt (create_table_if_not_exists name db)).
Proof.
  intros db. unfold create_table_if_not_exists.
  destruct (table_exists name db); keys_unchanged.
Qed.

Create HintDb keys_db discriminated.

#[local] Hint Resolve keys_insert_users keys_update_users_password
  keys_update_users_status keys_insert_patients keys_insert_doctors
  keys_insert_pending keys_update_pending keys_select_role
  keys_select_pending_by_id keys_select_rowid keys_save keys_delete_patients
  keys_delete_doctors keys_delete_users keys_create_table : keys_db.

Ltac keys_kept :=
  maintains_by keeps_keys_refl keeps_keys_trans ltac:(auto with keys_db).

Lemma keys_createDoctor d now : maintains keeps_keys (createDoctor d now).
Proof. unfold createDoctor. keys_kept. Qed.

#[local] Hint Resolve keys_createDoctor : keys_db.

(** A relation that every operation maintains holds across every call. *)
Lemma after_maintains `{Bcrypt} (R : Database -> Database -> Prop) :
  maintains R createPendingRegistrationsTable ->
  (forall user salt now, maintains R (createUser user salt now)) ->
  (forall email newPassword salt now,
      maintains R (updateUserPassword email newPassword salt now)) ->
  (forall patient now, maintains R (createPatient patient now)) ->
  (forall doctor now, maintains R (createDoctor doctor now)) ->
  (forall registration salt now,
      maintains R (createPendingRegistration registration salt now)) ->
  (forall pendingId adminUserId adminNotes now,
      maintains R (approvePendingRegistration pendingId adminUserId adminNotes now)) ->
  (forall pendingId adminUserId adminNotes now,
      maintains R (rejectPendingRegistration pendingId adminUserId adminNotes now)) ->
  (forall userId now, maintains R (suspendUser userId now)) ->
  (forall userId now, maintains R (reactivateUser userId now)) ->
  (forall userId, maintains R (deleteUser userId)) ->
  forall c db, R db (after c db).
Proof.
  intros H1 H2 H3 H4 H5 H6 H7 H8 H9 H10 H11 c db.
  destruct c; cbn [after];
    [apply H1|apply H2|apply H3|apply H4|apply H5|apply H6|apply H7|apply H8
    |apply H9|apply H10|apply H11].
Qed.

Ltac unfold_operations :=
  unfold createPendingRegistrationsTable, createUser, updateUserPassword, createPatient,
    createPendingRegistration, approvePendingRegistration,
    rejectPendingRegistration, suspendUser, reactivateUser, deleteUser;
  cbv zeta.

Lemma keys_after `{Bcrypt} (c : Call) (db : Database) : keeps_keys db (after c db).
Proof.
  revert c db. apply after_maintains; intros; unfold_operations; keys_kept.
Qed.

Lemma keys_replay `{Bcrypt} (calls : list Call) (db : Database) :
  well_keyed db -> well_keyed (replay calls db).
Proof.
  revert db. induction calls as [|c calls IH]; intros db Hdb; [exact Hdb|].
  cbn [replay fold_left]. apply IH, keys_after, Hdb.
Qed.

Lemma NoDup_map_injective {A B} (k : A -> B) l x y :
  NoDup (map k l) -> In x l -> In y l -> k x = k y -> x = y.
Proof.
  induction l as [|z l IH]; intros Hl Hx Hy Hk; [destruct Hx|].
  cbn [map] in Hl. inversion Hl as [|? ? Hz Hrest]; subst.
  destruct Hx as [->|Hx], Hy as [->|Hy].
  - reflexivity.
  - exfalso. apply Hz. rewrite Hk. apply in_map, Hy.
  - exfalso. apply Hz. rewrite <- Hk. apply in_map, Hx.
  - apply IH; assumption.
Qed.

(** X6. The keys that the schema declares unique stay unique under every
  sequence of writing calls: starting from a store where they are (an
  empty one, for instance), no two users ever share a rowid, a user name or
  an address, no two registrations a rowid or an address, no two doctor
  rows a rowid or a licence number that is not NULL.  So two rows of
  [users] with the same rowid, user name or address are the same row. *)
Theorem keys_stay_unique `{Bcrypt} (db : Database) (calls : list Call) :
  well_keyed db ->
  well_keyed (replay calls db)
  /\ forall u v,
       In u (users (replay calls db)) ->
       In v (users (replay calls db)) ->
       UserRow.id u = UserRow.id v
       \/ UserRow.username u = UserRow.username v
       \/ UserRow.email u = UserRow.email v ->
       u = v.
Proof.
  intros Hdb. pose proof (keys_replay calls db Hdb) as Hkeys.
  split; [exact Hkeys|].
  destruct Hkeys as ((Hid & Hname & Hmail) & _).
  intros u v Hu Hv [Heq|[Heq|Heq]];
    eauto using NoDup_map_injective.
Qed.

Lemma keys_stay_unique_witness :
  well_keyed (initDatabase None)
  /\ well_keyed
       (@replay Sample.toy_bcrypt
          [CreateUser Sample.root "salt0" "2024-06-01 09:00:00";
           CreateUser Sample.root "salt9" "2024-06-01 09:05:00";
           CreatePendingRegistration Sample.ho "salt1" "2024-06-02 08:00:00";
           ApprovePendingRegistration 1 1 None "2024-06-03 08:00:00"]
          (initDatabase None)).
Proof.
  assert (Hinit : well_keyed (initDatabase None))
    by (repeat split; constructor).
  split; [exact Hinit|].
  exact (proj1 (@keys_stay_unique Sample.toy_bcrypt (initDatabase None) _ Hinit)).
Defined.

(** ** Rowids *)

Lemma counters_grow_refl db : counters_grow db db.
Proof. unfold counters_grow. lia. Qed.

Lemma counters_grow_trans a b c :
  counters_grow a b -> counters_grow b c -> counters_grow a c.
Proof. unfold counters_grow. lia. Qed.

Ltac statement_counters :=
  intros db; unfold on_table; split_ifs;
  unfold counters_grow, next_rowid;
  cbn [state_of users_seq doctors_seq pending_registrations_seq inserted with_users
       with_doctors with_patients with_customers with_pending_registrations
       with_catalog cascade_user String.eqb Ascii.eqb Bool.eqb];
  lia.

Lemma counters_insert_users u e p r f ph now :
  maintains counters_grow (insert_users u e p r f ph now).
Proof. unfold insert_users. statement_counters. Qed.

Lemma counters_update_users_password p e now :
  maintains counters_grow (update_users_password p e now).
Proof. unfold update_users_password. statement_counters. Qed.

Lemma counters_update_users_status st id now :
  maintains counters_grow (update_users_status st id now).
Proof. unfold update_users_status. statement_counters. Qed.

Lemma counters_insert_patients p now : maintains counters_grow (insert_patients p now).
Proof. unfold insert_patients. statement_counters. Qed.

Lemma counters_insert_doctors d now : maintains counters_grow (insert_doctors d now).
Proof. unfold insert_doctors. statement_counters. Qed.

Lemma counters_insert_pending u e p r f ph sp li ex fee ad ts te dep emp now :
  maintains counters_grow
    (insert_pending_registrations u e p r f ph sp li ex fee ad ts te dep emp now).
Proof. unfold insert_pending_registrations. statement_counters. Qed.

Lemma counters_update_pending st by_ notes id now :
  maintains counters_grow (update_pending_registrations st by_ notes id now).
Proof. unfold update_pending_registrations. statement_counters. Qed.

Lemma counters_select_role id : maintains counters_grow (select_role_by_id id).
Proof. unfold select_role_by_id. statement_counters. Qed.

Lemma counters_select_pending_by_id id :
  maintains counters_grow (select_pending_registrations_by_id id).
Proof. unfold select_pending_registrations_by_id. statement_counters. Qed.

Lemma counters_select_rowid : maintains counters_grow select_last_insert_rowid.
Proof. intros db. apply counters_grow_refl. Qed.

Lemma counters_save : maintains counters_grow saveDatabase.
Proof. intros db. apply counters_grow_refl. Qed.

Lemma counters_delete_patients id :
  maintains counters_grow (delete_patients_by_user_id id).
Proof. unfold delete_patients_by_user_id. statement_counters. Qed.

Lemma counters_delete_doctors id :
  maintains counters_grow (delete_doctors_by_user_id id).
Proof. unfold delete_doctors_by_user_id. statement_counters. Qed.

Lemma counters_delete_users id : maintains counters_grow (delete_users_non_admin id).
Proof. unfold delete_users_non_admin. statement_counters. Qed.

Lemma counters_create_table name :
  maintains counters_grow (fun db => Returns tt (create_table_if_not_exists name db)).
Proof. unfold create_table_if_not_exists. intros db. cbn [state_of]. split_ifs;
  unfold counters_grow; cbn; lia. Qed.

Create HintDb counters_db discriminated.

#[local] Hint Resolve counters_insert_users counters_update_users_password
  counters_update_users_status counters_insert_patients counters_insert_doctors
  counters_insert_pending counters_update_pending counters_select_role
  counters_select_pending_by_id counters_select_rowid counters_save
  counters_delete_patients counters_delete_doctors counters_delete_users
  counters_create_table : counters_db.

Ltac counters_kept :=
  maintains_by counters_grow_refl counters_grow_trans ltac:(auto with counters_db).

Lemma counters_createDoctor d now : maintains counters_grow (createDoctor d now).
Proof. unfold createDoctor. counters_kept. Qed.

#[local] Hint Resolve counters_createDoctor : counters_db.

Lemma counters_after `{Bcrypt} (c : Call) (db : Database) : counters_grow db (after c db).
Proof.
  revert c db. apply after_maintains; intros; unfold_operations; counters_kept.
Qed.

Lemma counters_replay `{Bcrypt} (calls : list Call) (db : Database) :
  counters_grow db (replay calls db).
Proof.
  revert db. induction calls as [|c calls IH]; intros db; [apply counters_grow_refl|].
  cbn [replay fold_left]. eapply counters_grow_trans; [apply counters_after|apply IH].
Qed.

Lemma createUser_returns `{Bcrypt} user salt now db userId db' :
  createUser user salt now db = Returns userId db' ->
  userId = next_rowid (map UserRow.id (users db)) (users_seq db)
  /\ users_seq db' = userId.
Proof.
  unfold createUser, try_catch, bind, insert_users, on_table, select_last_insert_rowid,
    saveDatabase, ret, throw.
  cbv zeta. destruct (table_exists "users" db); [|discriminate].
  destruct (negb (users_role_check _)); [discriminate|].
  destruct (users_unique_clash _ _ _); [discriminate|].
  intros Heq. injection Heq as <- <-. split; reflexivity.
Qed.

Lemma createPendingRegistration_returns `{Bcrypt} registration salt now db pendingId db' :
  createPendingRegistration registration salt now db = Returns pendingId db' ->
  pendingId = next_rowid (map PendingRow.id (pending_registrations db))
                (pending_registrations_seq db)
  /\ pending_registrations_seq db' = pendingId.
Proof.
  unfold createPendingRegistration, try_catch, bind, insert_pending_registrations,
    on_table, select_last_insert_rowid, saveDatabase, ret, throw.
  cbv zeta. destruct (table_exists "pending_registrations" db); [|discriminate].
  destruct (pending_unique_clash _ _); [discriminate|].
  intros Heq. injection Heq as <- <-. split; reflexivity.
Qed.

(** X7. While the rowids stay within 2^53 they are handed out in
  increasing order and never again: over a sequence of writing calls that
  ends with the next rowid of every table at most 2^53, the counters of
  [users], [doctors] and [pending_registrations] never go down, deletions
  included, so that they were below 2^53 at the start; and a rowid that
  [createUser] or [createPendingRegistration] then returns is above the
  counter the table had before that sequence, at most 2^53, the new value
  of the counter, and the rowid of no row present. *)
Theorem rowids_are_never_reused `{Bcrypt} (db : Database) (calls : list Call) :
  rowids_exact (replay calls db) ->
  counters_grow db (replay calls db)
  /\ users_seq db < 2 ^ 53
  /\ doctors_seq db < 2 ^ 53
  /\ pending_registrations_seq db < 2 ^ 53
  /\ (forall user salt now userId db',
        createUser user salt now (replay calls db) = Returns userId db' ->
        users_seq db < userId <= 2 ^ 53
        /\ users_seq db' = userId
        /\ ~ In userId (map UserRow.id (users (replay calls db))))
  /\ (forall registration salt now pendingId db',
        createPendingRegistration registration salt now (replay calls db)
        = Returns pendingId db' ->
        pending_registrations_seq db < pendingId <= 2 ^ 53
        /\ pending_registrations_seq db' = pendingId
        /\ ~ In pendingId
             (map PendingRow.id (pending_registrations (replay calls db)))).
Proof.
  intros (Husers & Hdoctors & Hpending & _). unfold exact_rowid in *.
  pose proof (counters_replay calls db) as (Hu & Hd & Hp).
  split; [apply counters_replay|].
  split; [unfold next_rowid in Husers; lia|].
  split; [unfold next_rowid in Hdoctors; lia|].
  split; [unfold next_rowid in Hpending; lia|]. split.
  - intros user salt now userId db' Hrun.
    apply createUser_returns in Hrun. destruct Hrun as [-> Hseq].
    split; [unfold next_rowid in *; lia|]. split; [exact Hseq|apply next_rowid_fresh].
  - intros registration salt now pendingId db' Hrun.
    apply createPendingRegistration_returns in Hrun. destruct Hrun as [-> Hseq].
    split; [unfold next_rowid in *; lia|]. split; [exact Hseq|apply next_rowid_fresh].
Qed.

Lemma rowids_are_never_reused_witness :
  rowids_exact
    (@replay Sample.toy_bcrypt [DeleteUser 2; SuspendUser 2 "2024-06-07 08:00:00"]
       Sample.with_ho_approved)
  /\ (exists db',
     @createUser Sample.toy_bcrypt Sample.amy "salt6" "2024-06-01 09:30:00"
       (@replay Sample.toy_bcrypt [DeleteUser 2; SuspendUser 2 "2024-06-07 08:00:00"]
          Sample.with_ho_approved)
     = Returns 3 db')
  /\ users_seq Sample.with_ho_approved < 3.
Proof.
  assert (Hrun : exists db',
             @createUser Sample.toy_bcrypt Sample.amy "salt6" "2024-06-01 09:30:00"
               (@replay Sample.toy_bcrypt
                  [DeleteUser 2; SuspendUser 2 "2024-06-07 08:00:00"]
                  Sample.with_ho_approved)
             = Returns 3 db') by (eexists; vm_compute; reflexivity).
  assert (Hexact : rowids_exact
                     (@replay Sample.toy_bcrypt
                        [DeleteUser 2; SuspendUser 2 "2024-06-07 08:00:00"]
                        Sample.with_ho_approved))
    by (vm_compute; repeat split; discriminate).
  split; [exact Hexact|]. split; [exact Hrun|]. destruct Hrun as [db' Hrun].
  destruct (@rowids_are_never_reused Sample.toy_bcrypt Sample.with_ho_approved
              [DeleteUser 2; SuspendUser 2 "2024-06-07 08:00:00"] Hexact)
    as (_ & _ & _ & _ & Hcreate & _).
  destruct (Hcreate Sample.amy "salt6" "2024-06-01 09:30:00" 3 db' Hrun)
    as ((Habove & _) & _).
  exact Habove.
Defined.

(** ** Passwords and status *)

Lemma with_users_same db : with_users (users db) db = db.
Proof. destruct db; reflexivity. Qed.

Lemma map_unchanged {A} (f : A -> A) l :
  (forall x, In x l -> f x = x) -> map f l = l.
Proof.
  induction l as [|x l IH]; intros Hf; [reflexivity|].
  cbn [map]. rewrite (Hf x (or_introl eq_refl)), IH; [reflexivity|].
  intros y Hy. apply Hf. right. exact Hy.
Qed.

(** X8. On a store with the [users] table [updateUserPassword] returns
  true whether or not a user has the address.  Every row with that address
  then holds the hash of the new password and the time of the call; every
  other row is untouched; no row is added or removed and no rowid, user
  name, address, role, name, phone, status or creation time changes.  When
  a user has the address, [getUserByEmail] afterwards returns a row with
  the new hash; when none has, the store is unchanged. *)
Theorem updateUserPassword_rewrites_the_hash `{Bcrypt} (db : Database)
    (email newPassword salt now : string) :
  table_exists "users" db = true ->
  exists db',
    updateUserPassword email newPassword salt now db = Returns true db'
    /\ map identity_of (users db') = map identity_of (users db)
    /\ map UserRow.status (users db') = map UserRow.status (users db)
    /\ (forall u', In u' (users db') -> UserRow.email u' = email ->
                   UserRow.password u' = bcrypt_hash newPassword 10 salt
                   /\ UserRow.updated_at u' = now)
    /\ (forall u', In u' (users db') -> UserRow.email u' <> email -> In u' (users db))
    /\ ((exists u, In u (users db) /\ UserRow.email u = email) ->
        exists u',
          getUserByEmail email db' = Returns (Some u') db'
          /\ UserRow.password u' = bcrypt_hash newPassword 10 salt)
    /\ ((forall u, In u (users db) -> UserRow.email u <> email) -> db' = db).
Proof.
  intros Ht.
  unfold updateUserPassword, try_catch, bind, update_users_password, on_table,
    saveDatabase, ret.
  cbv zeta. rewrite Ht. eexists. split; [reflexivity|].
  cbn [users with_users].
  set (rewrite := fun u => if String.eqb (UserRow.email u) email
                           then with_password (bcrypt_hash newPassword 10 salt) now u
                           else u).
  assert (Hin : forall u', In u' (map rewrite (users db)) ->
                  (UserRow.email u' = email
                   /\ UserRow.password u' = bcrypt_hash newPassword 10 salt
                   /\ UserRow.updated_at u' = now)
                  \/ (UserRow.email u' <> email /\ In u' (users db))).
  { intros u' Hu'. apply in_map_iff in Hu'. destruct Hu' as (u & <- & Hu).
    unfold rewrite. destruct (String.eqb_spec (UserRow.email u) email) as [Heq|Hne].
    - left. cbn. auto.
    - right. auto. }
  split; [|split; [|split; [|split; [|split]]]].
  - apply map_key_kept. intros u. unfold rewrite.
    destruct (String.eqb (UserRow.email u) email); reflexivity.
  - apply map_key_kept. intros u. unfold rewrite.
    destruct (String.eqb (UserRow.email u) email); reflexivity.
  - intros u' Hu' Hmail. destruct (Hin u' Hu') as [(_ & Hpw & Hat)|(Hne & _)];
      [auto|contradiction].
  - intros u' Hu' Hne. destruct (Hin u' Hu') as [(Hmail & _)|(_ & Hold)];
      [contradiction|exact Hold].
  - intros (u & Hu & Hmail).
    rewrite getUserByEmail_runs.
    change (table_exists "users" (with_users (map rewrite (users db)) db))
      with (table_exists "users" db).
    rewrite Ht. cbn [users with_users].
    destruct (hd_error (filter (fun v => String.eqb (UserRow.email v) email)
                          (map rewrite (users db)))) as [u'|] eqn:Hhd.
    + exists u'. split; [reflexivity|].
      apply hd_error_filter_some in Hhd. destruct Hhd as [Hu' Heq].
      apply String.eqb_eq in Heq.
      destruct (Hin u' Hu') as [(_ & Hpw & _)|(Hne & _)]; [exact Hpw|contradiction].
    + exfalso.
      pose proof (hd_error_filter_none _ _ Hhd (rewrite u) (in_map rewrite _ _ Hu)) as Hno.
      unfold rewrite in Hno. rewrite <- Hmail, String.eqb_refl in Hno.
      cbn [with_password UserRow.email] in Hno. rewrite String.eqb_refl in Hno.
      discriminate.
  - intros Hnone. rewrite map_unchanged; [apply with_users_same|].
    intros u Hu. unfold rewrite.
    destruct (String.eqb_spec (UserRow.email u) email) as [Heq|_];
      [destruct (Hnone u Hu Heq)|reflexivity].
Qed.

Lemma updateUserPassword_rewrites_the_hash_witness :
  table_exists "users" Sample.with_root = true
  /\ (exists u, In u (users Sample.with_root) /\ UserRow.email u = "root@clinic.test")
  /\ exists db' u',
       @updateUserPassword Sample.toy_bcrypt "root@clinic.test" "n3w" "salt7"
         "2024-06-08 08:00:00" Sample.with_root
       = Returns true db'
       /\ getUserByEmail "root@clinic.test" db' = Returns (Some u') db'
       /\ UserRow.password u' = "$2a$10$salt7n3w".
Proof.
  assert (Huser : exists u, In u (users Sample.with_root)
                            /\ UserRow.email u = "root@clinic.test")
    by (eexists; split; [left; reflexivity|reflexivity]).
  split; [reflexivity|]. split; [exact Huser|].
  destruct (@updateUserPassword_rewrites_the_hash Sample.toy_bcrypt Sample.with_root
              "root@clinic.test" "n3w" "salt7" "2024-06-08 08:00:00" eq_refl)
    as (db' & Hrun & _ & _ & _ & _ & Hlookup & _).
  destruct (Hlookup Huser) as (u' & Hget & Hpw).
  exists db', u'. auto.
Defined.

Lemma update_users_status_runs status id now db :
  table_exists "users" db = true ->
  update_users_status status id now db
  = Returns tt
      (with_users
         (map (fun u => if non_admin_with_id id u then with_status status now u else u)
            (users db)) db).
Proof. intros Ht. unfold update_users_status, on_table. rewrite Ht. reflexivity. Qed.

Lemma suspendUser_runs id now db :
  table_exists "users" db = true ->
  suspendUser id now db
  = Returns true
      (with_users
         (map (fun u => if non_admin_with_id id u then with_status "suspended" now u else u)
            (users db)) db).
Proof.
  intros Ht. unfold suspendUser, try_catch.
  rewrite (bind_returns _ _ _ _ _ (update_users_status_runs _ _ _ _ Ht)). reflexivity.
Qed.

Lemma reactivateUser_runs id now db :
  table_exists "users" db = true ->
  reactivateUser id now db
  = Returns true
      (with_users
         (map (fun u => if non_admin_with_id id u then with_status "active" now u else u)
            (users db)) db).
Proof.
  intros Ht. unfold reactivateUser, try_catch.
  rewrite (bind_returns _ _ _ _ _ (update_users_status_runs _ _ _ _ Ht)). reflexivity.
Qed.

Lemma status_rows_in status id now rows u' :
  In u' (map (fun u => if non_admin_with_id id u then with_status status now u else u) rows) ->
  (non_admin_with_id id u' = true
   /\ UserRow.status u' = Some status /\ UserRow.updated_at u' = now)
  \/ (non_admin_with_id id u' = false /\ In u' rows).
Proof.
  intros Hin. apply in_map_iff in Hin. destruct Hin as (u & <- & Hu).
  destruct (non_admin_with_id id u) eqn:Hsel.
  - left. unfold non_admin_with_id in *. cbn. auto.
  - right. rewrite Hsel. auto.
Qed.

(** X9. On a store with the [users] table [suspendUser] and
  [reactivateUser] return true for every id, known or not.  After a
  suspension every user with that id who is not an admin is suspended, and
  every other row is as before; when there is no such user the store is
  unchanged.  A reactivation after a suspension leaves exactly the store
  that the reactivation alone would have left: such a user is active
  again and nothing else records that a suspension took place. *)
Theorem suspend_then_reactivate (db : Database) (userId : Z) (now now' : string) :
  table_exists "users" db = true ->
  exists db1 db2,
    suspendUser userId now db = Returns true db1
    /\ reactivateUser userId now' db1 = Returns true db2
    /\ reactivateUser userId now' db = Returns true db2
    /\ map identity_of (users db1) = map identity_of (users db)
    /\ (forall u, In u (users db1) ->
                  UserRow.id u = userId -> UserRow.role u <> "admin" ->
                  UserRow.status u = Some "suspended")
    /\ (forall u, In u (users db1) ->
                  UserRow.id u <> userId \/ UserRow.role u = "admin" ->
                  In u (users db))
    /\ (forall u, In u (users db2) ->
                  UserRow.id u = userId -> UserRow.role u <> "admin" ->
                  UserRow.status u = Some "active")
    /\ ((forall u, In u (users db) -> UserRow.id u = userId -> UserRow.role u = "admin") ->
        db1 = db).
Proof.
  intros Ht.
  assert (Hsel : forall u, non_admin_with_id userId u = true <->
                           UserRow.id u = userId /\ UserRow.role u <> "admin").
  { intros u. unfold non_admin_with_id.
    rewrite andb_true_iff, negb_true_iff, Z.eqb_eq, String.eqb_neq. reflexivity. }
  eexists _, _.
  split; [apply (suspendUser_runs _ _ _ Ht)|].
  split; [apply (reactivateUser_runs userId now' (with_users _ db) Ht)|].
  cbn [users with_users].
  split; [|split; [|split; [|split; [|split]]]].
  - rewrite (reactivateUser_runs _ _ _ Ht). f_equal.
    unfold with_users. cbn. f_equal.
    rewrite map_map. apply map_ext. intros u.
    destruct (non_admin_with_id userId u) eqn:Hu; [|rewrite Hu; reflexivity].
    unfold non_admin_with_id in *. cbn [with_status UserRow.id UserRow.role].
    rewrite Hu. reflexivity.
  - apply map_key_kept. intros u. destruct (non_admin_with_id userId u); reflexivity.
  - intros u Hu Hid Hrole. apply status_rows_in in Hu.
    destruct Hu as [(_ & Hs & _)|(Hno & _)]; [exact Hs|].
    assert (Hyes : non_admin_with_id userId u = true) by (apply Hsel; auto).
    congruence.
  - intros u Hu Hother. apply status_rows_in in Hu.
    destruct Hu as [(Hyes & _)|(_ & Hold)]; [|exact Hold].
    apply Hsel in Hyes. destruct Hyes as [Hid Hrole], Hother; contradiction.
  - intros u Hu Hid Hrole. apply status_rows_in in Hu.
    destruct Hu as [(_ & Hs & _)|(Hno & _)]; [exact Hs|].
    assert (Hyes : non_admin_with_id userId u = true) by (apply Hsel; auto).
    congruence.
  - intros Hnone. rewrite map_unchanged; [apply with_users_same|].
    intros u Hu. destruct (non_admin_with_id userId u) eqn:Hyes; [|reflexivity].
    apply Hsel in Hyes. destruct Hyes as [Hid Hrole].
    destruct (Hrole (Hnone u Hu Hid)).
Qed.

Lemma suspend_then_reactivate_witness :
  table_exists "users" Sample.with_ho_approved = true
  /\ exists db1 db2,
       suspendUser 2 "2024-06-09 08:00:00" Sample.with_ho_approved = Returns true db1
       /\ reactivateUser 2 "2024-06-10 08:00:00" db1 = Returns true db2
       /\ reactivateUser 2 "2024-06-10 08:00:00" Sample.with_ho_approved
          = Returns true db2.
Proof.
  split; [reflexivity|].
  destruct (suspend_then_reactivate Sample.with_ho_approved 2 "2024-06-09 08:00:00"
              "2024-06-10 08:00:00" eq_refl)
    as (db1 & db2 & H1 & H2 & H3 & _).
  exists db1, db2. auto.
Defined.

(** ** Listings *)

Lemma insert_sorted_perm {A} (le : A -> A -> bool) x l :
  Permutation (insert_sorted le x l) (x :: l).
Proof.
  induction l as [|y l IH]; [reflexivity|].
  cbn [insert_sorted]. destruct (le x y); [reflexivity|].
  rewrite IH. apply perm_swap.
Qed.

Lemma order_by_perm {A} (le : A -> A -> bool) l : Permutation (order_by le l) l.
Proof.
  induction l as [|x l IH]; [reflexivity|].
  unfold order_by in *. cbn [fold_right]. rewrite insert_sorted_perm.
  apply perm_skip, IH.
Qed.

Lemma order_by_in {A} (le : A -> A -> bool) l x : In x (order_by le l) <-> In x l.
Proof.
  split; apply Permutation_in; [|symmetry]; apply order_by_perm.
Qed.

Lemma insert_sorted_sorted {A} (le : A -> A -> bool) x l :
  (forall a b, le a b = true \/ le b a = true) ->
  LocallySorted (fun a b => le a b = true) l ->
  LocallySorted (fun a b => le a b = true) (insert_sorted le x l).
Proof.
  intros Htotal Hl. induction Hl as [|a|a b l Hl IH Hab].
  - constructor.
  - cbn [insert_sorted]. destruct (le x a) eqn:Hxa.
    + constructor; [constructor|exact Hxa].
    + constructor; [constructor|]. destruct (Htotal x a); congruence.
  - cbn [insert_sorted] in *. destruct (le x a) eqn:Hxa.
    + constructor; [constructor; assumption|exact Hxa].
    + destruct (le x b) eqn:Hxb.
      * constructor; [exact IH|]. destruct (Htotal x a); congruence.
      * constructor; [exact IH|exact Hab].
Qed.

Lemma order_by_sorted {A} (le : A -> A -> bool) l :
  (forall a b, le a b = true \/ le b a = true) ->
  LocallySorted (fun a b => le a b = true) (order_by le l).
Proof.
  intros Htotal. induction l as [|x l IH]; [constructor|].
  unfold order_by in *. cbn [fold_right]. apply insert_sorted_sorted; assumption.
Qed.

Lemma newest_first_total a b : newest_first a b = true \/ newest_first b a = true.
Proof. unfold newest_first. apply String.leb_total. Qed.

Lemma getAllUsers_runs db :
  getAllUsers db
  = Returns (if table_exists "users" db
             then order_by newest_first
                    (map user_listing
                       (filter (fun u => negb (String.eqb (UserRow.role u) "admin"))
                          (users db)))
             else []) db.
Proof.
  unfold getAllUsers, try_catch, bind, select_users_non_admin, on_table, ret.
  destruct (table_exists "users" db); reflexivity.
Qed.

Lemma getUsersByRole_runs role db :
  getUsersByRole role db
  = Returns (if table_exists "users" db
             then order_by newest_first
                    (map user_listing
                       (filter (fun u => String.eqb (UserRow.role u) role
                                         && negb (String.eqb (UserRow.role u) "admin"))
                          (users db)))
             else []) db.
Proof.
  unfold getUsersByRole, try_catch, bind, select_users_by_role, on_table, ret.
  destruct (table_exists "users" db); reflexivity.
Qed.

(** X10. [getAllUsers] and [getUsersByRole] never throw and never change
  the store.  On a store with the [users] table, [getAllUsers] lists every
  user who is not an admin exactly once (the list is a rearrangement of
  those rows, without their passwords) and no admin, newest first; an
  entry is in [getUsersByRole role] exactly when it is in [getAllUsers]
  and has that role, so for role admin the list is empty. *)
Theorem user_listings_hide_admins (db : Database) (role : string) :
  exists everyone byRole,
    getAllUsers db = Returns everyone db
    /\ getUsersByRole role db = Returns byRole db
    /\ LocallySorted (fun a b => newest_first a b = true) everyone
    /\ LocallySorted (fun a b => newest_first a b = true) byRole
    /\ (forall entry, In entry byRole <->
                      In entry everyone /\ UserListing.role entry = role)
    /\ (forall entry, In entry everyone -> UserListing.role entry <> "admin")
    /\ (role = "admin" -> byRole = [])
    /\ (table_exists "users" db = true ->
        Permutation everyone
          (map user_listing
             (filter (fun u => negb (String.eqb (UserRow.role u) "admin")) (users db)))).
Proof.
  eexists _, _.
  split; [apply getAllUsers_runs|]. split; [apply getUsersByRole_runs|].
  destruct (table_exists "users" db).
  2: { split; [apply LSorted_nil|]. split; [apply LSorted_nil|].
       split; [intros entry; split; [intros []|intros [[] _]]|].
       split; [intros entry []|]. split; [reflexivity|discriminate]. }
  assert (Hall : forall entry,
             In entry (order_by newest_first
                         (map user_listing
                            (filter (fun u => negb (String.eqb (UserRow.role u) "admin"))
                               (users db))))
             <-> exists u, In u (users db) /\ UserRow.role u <> "admin"
                           /\ entry = user_listing u).
  { intros entry. rewrite order_by_in, in_map_iff. split.
    - intros (u & <- & Hu). apply filter_In in Hu. destruct Hu as [Hu Hrole].
      apply negb_true_iff, String.eqb_neq in Hrole. eauto.
    - intros (u & Hu & Hrole & ->). exists u. split; [reflexivity|].
      apply filter_In. split; [exact Hu|]. apply negb_true_iff, String.eqb_neq, Hrole. }
  assert (Hrole : forall entry,
             In entry (order_by newest_first
                         (map user_listing
                            (filter (fun u => String.eqb (UserRow.role u) role
                                              && negb (String.eqb (UserRow.role u) "admin"))
                               (users db))))
             <-> exists u, In u (users db) /\ UserRow.role u <> "admin"
                           /\ UserRow.role u = role /\ entry = user_listing u).
  { intros entry. rewrite order_by_in, in_map_iff. split.
    - intros (u & <- & Hu). apply filter_In in Hu. destruct Hu as [Hu Hsel].
      apply andb_true_iff in Hsel. destruct Hsel as [Hr Hna].
      apply String.eqb_eq in Hr. apply negb_true_iff, String.eqb_neq in Hna. eauto 6.
    - intros (u & Hu & Hna & Hr & ->). exists u. split; [reflexivity|].
      apply filter_In. split; [exact Hu|]. apply andb_true_iff.
      split; [apply String.eqb_eq, Hr|apply negb_true_iff, String.eqb_neq, Hna]. }
  split; [apply order_by_sorted, newest_first_total|].
  split; [apply order_by_sorted, newest_first_total|].
  split; [|split; [|split; [|intros _; apply order_by_perm]]].
  - intros entry. rewrite Hrole, Hall. split.
    + intros (u & Hu & Hna & Hr & ->). split; [eauto|exact Hr].
    + intros ((u & Hu & Hna & ->) & Hr). exists u. auto.
  - intros entry Hin. apply Hall in Hin. destruct Hin as (u & _ & Hna & ->). exact Hna.
  - intros ->. rewrite filter_none; [reflexivity|].
    intros u _. destruct (String.eqb (UserRow.role u) "admin"); reflexivity.
Qed.

Lemma user_listings_hide_admins_witness :
  table_exists "users" Sample.with_ho_approved = true
  /\ exists everyone,
       getAllUsers Sample.with_ho_approved = Returns everyone Sample.with_ho_approved
       /\ map UserListing.username everyone = ["drho"].
Proof.
  split; [reflexivity|].
  destruct (user_listings_hide_admins Sample.with_ho_approved "admin")
    as (everyone & byRole & Hall & _).
  exists everyone. split; [exact Hall|].
  assert (Heq : Returns everyone Sample.with_ho_approved
                = getAllUsers Sample.with_ho_approved) by (symmetry; exact Hall).
  vm_compute in Heq. injection Heq as ->. reflexivity.
Defined.

Lemma getAllDoctors_runs db :
  getAllDoctors db
  = Returns (if table_exists "users" db && table_exists "doctors" db
             then order_by
                    (fun a b => String.leb (DoctorListing.full_name a)
                                  (DoctorListing.full_name b))
                    (flat_map (fun u =>
                       map (doctor_listing u)
                         (filter (fun d => UserRow.id u =? DoctorRow.user_id d)
                            (doctors db)))
                       (users db))
             else []) db.
Proof.
  unfold getAllDoctors, try_catch, bind, select_users_join_doctors, on_table, ret.
  destruct (table_exists "users" db), (table_exists "doctors" db); reflexivity.
Qed.

Lemma doctor_listing_in db entry :
  In entry
    (order_by
       (fun a b => String.leb (DoctorListing.full_name a) (DoctorListing.full_name b))
       (flat_map (fun u =>
          map (doctor_listing u)
            (filter (fun d => UserRow.id u =? DoctorRow.user_id d) (doctors db)))
          (users db)))
  <-> exists u d, In u (users db) /\ In d (doctors db)
                  /\ DoctorRow.user_id d = UserRow.id u
                  /\ entry = doctor_listing u d.
Proof.
  rewrite order_by_in, in_flat_map. split.
  - intros (u & Hu & Hin). apply in_map_iff in Hin. destruct Hin as (d & <- & Hd).
    apply filter_In in Hd. destruct Hd as [Hd Heq]. apply Z.eqb_eq in Heq.
    exists u, d. auto.
  - intros (u & d & Hu & Hd & Heq & ->). exists u. split; [exact Hu|].
    apply in_map, filter_In. split; [exact Hd|]. apply Z.eqb_eq. auto.
Qed.

(** X11. [getAllDoctors] never throws and never changes the store.  On a
  store with its two tables an entry is listed exactly when it pairs a row
  of [doctors] with the row of [users] that its [user_id] names: a doctor
  row whose user is missing is not listed, nor is a doctor-role user
  without a doctor row.  The list is in the order of the names. *)
Theorem doctor_listing_is_the_join (db : Database) :
  exists listed,
    getAllDoctors db = Returns listed db
    /\ LocallySorted
         (fun a b => String.leb (DoctorListing.full_name a) (DoctorListing.full_name b)
                     = true)
         listed
    /\ (table_exists "users" db = true -> table_exists "doctors" db = true ->
        forall entry,
          In entry listed
          <-> exists u d, In u (users db) /\ In d (doctors db)
                          /\ DoctorRow.user_id d = UserRow.id u
                          /\ entry = doctor_listing u d).
Proof.
  eexists. split; [apply getAllDoctors_runs|].
  destruct (table_exists "users" db), (table_exists "doctors" db); cbn [andb];
    (split; [try apply LSorted_nil|]); try discriminate;
    try (intros _ Hd; discriminate).
  - apply order_by_sorted. intros a b. apply String.leb_total.
  - intros _ _ entry. apply doctor_listing_in.
Qed.

Lemma doctor_listing_is_the_join_witness :
  table_exists "users" Sample.with_ho_approved = true
  /\ table_exists "doctors" Sample.with_ho_approved = true
  /\ exists listed,
       getAllDoctors Sample.with_ho_approved = Returns listed Sample.with_ho_approved
       /\ exists entry, In entry listed /\ DoctorListing.user_id entry = 2.
Proof.
  split; [reflexivity|]. split; [reflexivity|].
  destruct (doctor_listing_is_the_join Sample.with_ho_approved)
    as (listed & Hrun & _ & Hin).
  exists listed. split; [exact Hrun|].
  assert (Hdoctors : exists d, doctors Sample.with_ho_approved = [d]
                               /\ DoctorRow.user_id d = 2)
    by (eexists; split; vm_compute; reflexivity).
  assert (Husers : exists r u, users Sample.with_ho_approved = [r; u]
                               /\ UserRow.id u = 2)
    by (eexists _, _; split; vm_compute; reflexivity).
  destruct Hdoctors as (d & Hd & Hdid), Husers as (r & u & Hu & Huid).
  exists (doctor_listing u d). split; [|exact Huid].
  apply (Hin eq_refl eq_refl). exists u, d.
  rewrite Hu, Hd. cbn [In]. repeat split; auto. congruence.
Defined.

(** X12. Approval and the doctors' list compose while the rowids stay
  within 2^53: on a store whose next rowids are at most 2^53, once the
  approval of a doctor's registration has returned true, [getAllDoctors]
  lists an entry for the new user (a user rowid that did not exist before),
  with the address of the registration and its specialization. *)
Theorem approved_doctor_is_listed (db : Database) (pendingId adminUserId : Z)
    (adminNotes : option string) (now : string) (r : PendingRow.t)
    (rest : list PendingRow.t) (db' : Database) :
  rowids_exact db ->
  table_exists "pending_registrations" db = true ->
  table_exists "users" db = true ->
  table_exists "doctors" db = true ->
  filter (fun r => PendingRow.id r =? pendingId) (pending_registrations db) = r :: rest ->
  PendingRow.role r = "doctor" ->
  approvePendingRegistration pendingId adminUserId adminNotes now db = Returns true db' ->
  exists listed entry,
    getAllDoctors db' = Returns listed db'
    /\ In entry listed
    /\ ~ In (DoctorListing.user_id entry) (map UserRow.id (users db))
    /\ DoctorListing.user_id entry <= 2 ^ 53
    /\ DoctorListing.email entry = PendingRow.email r
    /\ DoctorListing.specialization entry = Js.or_null (PendingRow.specialization r).
Proof.
  intros (Hexact & _) Hp Hu Hd Hsel Hrole Happ. unfold exact_rowid in Hexact.
  pose proof (approve_run db pendingId adminUserId adminNotes now Hp Hu Hd) as Hrun.
  rewrite Hsel in Hrun.
  destruct (users_role_check (PendingRow.role r)
            && negb (users_unique_clash _ _ (users db))); [|congruence].
  destruct Hrun as (u & db1 & Hid & _ & Hmail & _ & _ & _ & _ & _ & _ & _ & Hrun).
  rewrite Hrole in Hrun. cbn [String.eqb Ascii.eqb Bool.eqb andb] in Hrun.
  destruct (doctors_unique_clash _ (doctors db)); [congruence|].
  destruct Hrun as (db2 & Happ2 & Husers & Hcat & _ & d & Hdocs & Huid & _ & Hspec).
  assert (db2 = db') by congruence. subst db2.
  exists (order_by
            (fun a b => String.leb (DoctorListing.full_name a) (DoctorListing.full_name b))
            (flat_map (fun u =>
               map (doctor_listing u)
                 (filter (fun d => UserRow.id u =? DoctorRow.user_id d) (doctors db')))
               (users db'))),
    (doctor_listing u d).
  split.
  - rewrite getAllDoctors_runs, !(table_exists_same_catalog _ _ _ Hcat), Hu, Hd.
    reflexivity.
  - split.
    + apply doctor_listing_in. exists u, d. rewrite Husers, Hdocs.
      repeat split; auto; apply in_or_app; right; left; reflexivity.
    + cbn [doctor_listing DoctorListing.user_id DoctorListing.email
           DoctorListing.specialization].
      split; [rewrite Hid; apply next_rowid_fresh|].
      split; [rewrite Hid; exact Hexact|]. auto.
Qed.

Lemma approved_doctor_is_listed_witness :
  rowids_exact Sample.with_ho
  /\ table_exists "pending_registrations" Sample.with_ho = true
  /\ approvePendingRegistration 1 1 None "2024-06-03 08:00:00" Sample.with_ho
     = Returns true Sample.with_ho_approved
  /\ exists listed entry,
       getAllDoctors Sample.with_ho_approved = Returns listed Sample.with_ho_approved
       /\ In entry listed
       /\ DoctorListing.email entry = "ho@clinic.test".
Proof.
  assert (Happ : approvePendingRegistration 1 1 None "2024-06-03 08:00:00" Sample.with_ho
                 = Returns true Sample.with_ho_approved) by (vm_compute; reflexivity).
  assert (Hsel : exists r,
             filter (fun r => PendingRow.id r =? 1) (pending_registrations Sample.with_ho)
             = [r]
             /\ PendingRow.role r = "doctor" /\ PendingRow.email r = "ho@clinic.test")
    by (eexists; split; [vm_compute; reflexivity|split; reflexivity]).
  destruct Hsel as (r & Hsel & Hrole & Hmail).
  assert (Hexact : rowids_exact Sample.with_ho)
    by (vm_compute; repeat split; discriminate).
  split; [exact Hexact|]. split; [reflexivity|]. split; [exact Happ|].
  destruct (approved_doctor_is_listed Sample.with_ho 1 1 None "2024-06-03 08:00:00" r []
              Sample.with_ho_approved Hexact eq_refl eq_refl eq_refl Hsel Hrole Happ)
    as (listed & entry & Hrun & Hin & _ & _ & Hentry & _).
  exists listed, entry. rewrite Hentry. auto.
Defined.

Lemma filter_unique_key {A} (k : A -> Z) (key : Z) l :
  NoDup (map k l) ->
  filter (fun x => key =? k x) l = []
  \/ exists x, In x l /\ k x = key /\ filter (fun x => key =? k x) l = [x].
Proof.
  induction l as [|y l IH]; intros Hl; [left; reflexivity|].
  cbn [map] in Hl. inversion Hl as [|? ? Hy Hrest]; subst.
  cbn [filter]. destruct (key =? k y) eqn:Hkey.
  - apply Z.eqb_eq in Hkey. right. exists y. split; [left; reflexivity|].
    split; [auto|]. f_equal. apply filter_none. intros z Hz.
    apply Z.eqb_neq. intros Heq. apply Hy. rewrite <- Hkey, Heq. apply in_map, Hz.
  - destruct (IH Hrest) as [Hnone|(x & Hx & Hk & Hone)]; [left; exact Hnone|].
    right. exists x. split; [right; exact Hx|]. auto.
Qed.

Lemma with_reviewer_one rows pr :
  NoDup (map UserRow.id rows) ->
  exists name,
    with_reviewer rows pr
    = [ {| PendingListing.registration := pr; PendingListing.approved_by_name := name |} ]
    /\ (forall n, name = Some n ->
                  exists u, In u rows
                            /\ PendingRow.approved_by pr = Some (UserRow.id u)
                            /\ UserRow.full_name u = n)
    /\ (name = None ->
        forall u, In u rows -> PendingRow.approved_by pr <> Some (UserRow.id u)).
Proof.
  intros Hids. unfold with_reviewer.
  destruct (PendingRow.approved_by pr) as [reviewer|].
  - destruct (filter_unique_key UserRow.id reviewer rows Hids)
      as [Hnone|(u & Hu & Hid & Hone)].
    + rewrite Hnone. exists None. split; [reflexivity|]. split; [discriminate|].
      intros _ u Hu Heq. injection Heq as ->.
      assert (Hin : In u (filter (fun x => UserRow.id u =? UserRow.id x) rows))
        by (apply filter_In; split; [exact Hu|apply Z.eqb_refl]).
      rewrite Hnone in Hin. destruct Hin.
    + rewrite Hone. exists (Some (UserRow.full_name u)). split; [reflexivity|].
      split; [|discriminate].
      intros n Hn. injection Hn as <-. exists u. rewrite Hid. auto.
  - rewrite filter_none by reflexivity. exists None.
    split; [reflexivity|]. split; discriminate.
Qed.

Lemma with_reviewer_all rows prs :
  NoDup (map UserRow.id rows) ->
  map PendingListing.registration (flat_map (with_reviewer rows) prs) = prs.
Proof.
  intros Hids. induction prs as [|pr prs IH]; [reflexivity|].
  cbn [flat_map]. rewrite map_app, IH.
  destruct (with_reviewer_one rows pr Hids) as (name & -> & _). reflexivity.
Qed.

Lemma getPendingRegistrations_runs db :
  getPendingRegistrations db
  = Returns (if table_exists "pending_registrations" db && table_exists "users" db
             then order_by
                    (fun a b =>
                       String.leb (PendingRow.created_at (PendingListing.registration b))
                         (PendingRow.created_at (PendingListing.registration a)))
                    (flat_map (with_reviewer (users db)) (pending_registrations db))
             else []) db.
Proof.
  unfold getPendingRegistrations, try_catch, bind,
    select_pending_registrations_with_reviewer, on_table, ret.
  destruct (table_exists "pending_registrations" db), (table_exists "users" db);
    reflexivity.
Qed.

(** X13. [getPendingRegistrations] never throws and never changes the
  store.  On a store with its two tables and unique user rowids it lists
  every registration exactly once, whatever its status: the registrations
  listed are a rearrangement of the table.  An entry carries a reviewer's
  name exactly when a user has the rowid in [approved_by], and the name is
  that user's; a registration that nobody decided, or whose reviewer is
  gone, is listed with no name. *)
Theorem every_registration_is_listed (db : Database) :
  exists listed,
    getPendingRegistrations db = Returns listed db
    /\ (table_exists "pending_registrations" db = true ->
        table_exists "users" db = true ->
        NoDup (map UserRow.id (users db)) ->
        Permutation (map PendingListing.registration listed) (pending_registrations db)
        /\ forall entry,
             In entry listed ->
             (forall n, PendingListing.approved_by_name entry = Some n ->
                        exists u, In u (users db)
                                  /\ PendingRow.approved_by (PendingListing.registration entry)
                                     = Some (UserRow.id u)
                                  /\ UserRow.full_name u = n)
             /\ (PendingListing.approved_by_name entry = None ->
                 forall u, In u (users db) ->
                           PendingRow.approved_by (PendingListing.registration entry)
                           <> Some (UserRow.id u))).
Proof.
  eexists. split; [apply getPendingRegistrations_runs|].
  intros Hp Hu Hids. rewrite Hp, Hu. cbn [andb]. split.
  - rewrite order_by_perm, with_reviewer_all by exact Hids. reflexivity.
  - intros entry Hin. apply order_by_in, in_flat_map in Hin.
    destruct Hin as (pr & _ & Hin).
    destruct (with_reviewer_one (users db) pr Hids) as (name & Heq & Hsome & Hnone).
    rewrite Heq in Hin. destruct Hin as [<-|[]].
    cbn [PendingListing.approved_by_name PendingListing.registration]. auto.
Qed.

Lemma every_registration_is_listed_witness :
  table_exists "pending_registrations" Sample.with_lee = true
  /\ table_exists "users" Sample.with_lee = true
  /\ NoDup (map UserRow.id (users Sample.with_lee))
  /\ exists listed,
       getPendingRegistrations Sample.with_lee = Returns listed Sample.with_lee
       /\ Permutation (map PendingListing.registration listed)
            (pending_registrations Sample.with_lee).
Proof.
  assert (Hids : NoDup (map UserRow.id (users Sample.with_lee))).
  { vm_compute. repeat constructor; cbn; intuition discriminate. }
  split; [reflexivity|]. split; [reflexivity|]. split; [exact Hids|].
  destruct (every_registration_is_listed Sample.with_lee) as (listed & Hrun & Hall).
  exists listed. split; [exact Hrun|]. apply (Hall eq_refl eq_refl Hids).
Defined.

(** ** Statistics *)

(** X14. [getDatabaseStats] never throws and never changes the store.  It
  counts the rows of [users], [patients] and [doctors] when all four of
  its tables exist; when [patients] is missing, as on every database that
  this module has set up, it reports zero users, patients, doctors and
  appointments, however many rows the tables hold. *)
Theorem database_stats_fall_back_to_zero `{Bcrypt} (db : Database) (appointmentRows : Z) :
  (table_exists "patients" db = false \/ schema_created db ->
   getDatabaseStats appointmentRows db
   = Returns {| DatabaseStats.users := 0; DatabaseStats.patients := 0;
                DatabaseStats.doctors := 0; DatabaseStats.appointments := 0 |} db)
  /\ (table_exists "users" db = true ->
      table_exists "patients" db = true ->
      table_exists "doctors" db = true ->
      table_exists "appointments" db = true ->
      getDatabaseStats appointmentRows db
      = Returns {| DatabaseStats.users := Z.of_nat (List.length (users db));
                   DatabaseStats.patients := Z.of_nat (List.length (patients db));
                   DatabaseStats.doctors := Z.of_nat (List.length (doctors db));
                   DatabaseStats.appointments := appointmentRows |} db)
  /\ exists stats, getDatabaseStats appointmentRows db = Returns stats db.
Proof.
  split; [|split].
  - intros Hno.
    assert (Hpatients : table_exists "patients" db = false).
    { destruct Hno as [Hno|Hdb]; [exact Hno|].
      apply schema_has_no_patients, schema_created_catalog, Hdb. }
    unfold getDatabaseStats, try_catch, bind, select_count_users, select_count_patients,
      on_table, ret.
    destruct (table_exists "users" db); [rewrite Hpatients|]; reflexivity.
  - intros Hu Hp Hd Ha.
    unfold getDatabaseStats, try_catch, bind, select_count_users, select_count_patients,
      select_count_doctors, select_count_appointments, on_table, ret.
    rewrite Hu, Hp, Hd, Ha. reflexivity.
  - unfold getDatabaseStats, try_catch, bind, select_count_users, select_count_patients,
      select_count_doctors, select_count_appointments, on_table, ret.
    destruct (table_exists "users" db), (table_exists "patients" db),
      (table_exists "doctors" db), (table_exists "appointments" db);
      eexists; reflexivity.
Qed.

Lemma database_stats_fall_back_to_zero_witness :
  schema_created (H := Sample.toy_bcrypt) Sample.with_root
  /\ users Sample.with_root <> []
  /\ getDatabaseStats 4 Sample.with_root
     = Returns {| DatabaseStats.users := 0; DatabaseStats.patients := 0;
                  DatabaseStats.doctors := 0; DatabaseStats.appointments := 0 |}
         Sample.with_root.
Proof.
  assert (Hdb : schema_created (H := Sample.toy_bcrypt) Sample.with_root).
  { unfold Sample.with_root, Sample.fresh. apply created_after, created_fresh. }
  split; [exact Hdb|]. split; [discriminate|].
  exact (proj1 (@database_stats_fall_back_to_zero Sample.toy_bcrypt Sample.with_root 4)
           (or_intror Hdb)).
Defined.

(** ** Registrations: submission and lookup *)

(** X15. Submission and lookup compose: on a store with the table where
  no registration has the address, [getPendingRegistrationByEmail] returns
  nothing before the submission and afterwards returns the registration
  just stored, with the returned rowid, status pending, no reviewer, no
  notes and the hash of the password. *)
Theorem submit_then_lookup `{Bcrypt} (db : Database)
    (registration : PendingRegistration.t) (salt now : string) :
  table_exists "pending_registrations" db = true ->
  (forall r, In r (pending_registrations db) ->
             PendingRow.email r <> PendingRegistration.email registration) ->
  getPendingRegistrationByEmail (PendingRegistration.email registration) db
  = Returns None db
  /\ exists pendingId row db',
       createPendingRegistration registration salt now db = Returns pendingId db'
       /\ getPendingRegistrationByEmail (PendingRegistration.email registration) db'
          = Returns (Some row) db'
       /\ PendingRow.id row = pendingId
       /\ PendingRow.status row = Some "pending"
       /\ PendingRow.approved_by row = None
       /\ PendingRow.admin_notes row = None
       /\ PendingRow.password row
          = bcrypt_hash (PendingRegistration.password registration) 10 salt
       /\ PendingRow.created_at row = now.
Proof.
  intros Ht Hfree.
  assert (Hnone : filter (fun r => String.eqb (PendingRow.email r)
                                     (PendingRegistration.email registration))
                    (pending_registrations db) = []).
  { apply filter_none. intros r Hr. apply String.eqb_neq, (Hfree r Hr). }
  split.
  - unfold getPendingRegistrationByEmail, try_catch, bind,
      select_pending_registrations_by_email, on_table, ret.
    rewrite Ht, Hnone. reflexivity.
  - apply pending_unique_clash_false in Hfree.
    unfold createPendingRegistration, getPendingRegistrationByEmail, try_catch, bind,
      insert_pending_registrations, select_pending_registrations_by_email,
      on_table, select_last_insert_rowid, saveDatabase, ret.
    cbv zeta. rewrite Ht, Hfree.
    eexists _, _, _. split; [reflexivity|].
    change (table_exists "pending_registrations" (inserted _ _ (with_pending_registrations _ db)))
      with (table_exists "pending_registrations" db).
    rewrite Ht.
    cbn [pending_registrations inserted with_pending_registrations last_insert_rowid].
    rewrite filter_app, Hnone. cbn [filter PendingRow.email app].
    rewrite String.eqb_refl. cbn [hd_error].
    repeat split; reflexivity.
Qed.

Lemma submit_then_lookup_witness :
  table_exists "pending_registrations" Sample.with_root = true
  /\ exists pendingId row db',
       @createPendingRegistration Sample.toy_bcrypt Sample.ho "salt1"
         "2024-06-02 08:00:00" Sample.with_root
       = Returns pendingId db'
       /\ getPendingRegistrationByEmail "ho@clinic.test" db' = Returns (Some row) db'
       /\ PendingRow.status row = Some "pending".
Proof.
  split; [reflexivity|].
  destruct (@submit_then_lookup Sample.toy_bcrypt Sample.with_root Sample.ho "salt1"
              "2024-06-02 08:00:00" eq_refl)
    as (_ & pendingId & row & db' & Hrun & Hget & _ & Hstatus & _).
  - intros r [].
  - exists pendingId, row, db'. auto.
Defined.

(** ** Doctor profiles *)

Lemma or_null_not_empty x : Js.or_null x <> Some "".
Proof.
  destruct x as [s|]; cbn [Js.or_null]; [|discriminate].
  destruct (String.eqb_spec s ""); [discriminate|congruence].
Qed.

Lemma or_null_int_not_zero x : Js.or_null_int x <> Some 0.
Proof.
  destruct x as [n|]; cbn [Js.or_null_int]; [|discriminate].
  destruct (Z.eqb_spec n 0); [discriminate|congruence].
Qed.

Lemma or_null_keeps x s : x = Some s -> s <> "" -> Js.or_null x = Some s.
Proof.
  intros -> Hs. cbn [Js.or_null]. apply String.eqb_neq in Hs. rewrite Hs. reflexivity.
Qed.

Lemma doctors_unique_clash_iff licence rows :
  doctors_unique_clash licence rows = false <->
  forall d l, In d rows -> licence = Some l -> DoctorRow.license_number d <> Some l.
Proof.
  destruct licence as [l|]; cbn [doctors_unique_clash].
  - split.
    + intros Hfree d l' Hd Hl Heq. injection Hl as <-.
      assert (Hex : existsb (fun d => Js.opt_eqb (DoctorRow.license_number d) l) rows = true).
      { apply existsb_exists. exists d. split; [exact Hd|]. apply opt_eqb_eq, Heq. }
      congruence.
    + intros Hall. destruct (existsb _ rows) eqn:Hex; [|reflexivity].
      apply existsb_exists in Hex. destruct Hex as (d & Hd & Heq).
      apply opt_eqb_eq in Heq. destruct (Hall d l Hd eq_refl Heq).
  - split; [discriminate|reflexivity].
Qed.

(** X16. On a store with the [doctors] table [createDoctor] returns
  exactly when no doctor row has the licence number (an absent or empty
  one clashes with nothing) and, if foreign keys are enforced, a user has
  the given [user_id]; with foreign keys off, as the program leaves them,
  any [user_id] is accepted.  When it returns, the table has gained exactly
  one row, under a rowid no row had, with the caller's [user_id] and the
  time of the call; each of its seven other columns holds NULL where the
  caller passed nothing, an empty text or a zero, and the caller's value
  otherwise.  When it throws, the store is unchanged. *)
Theorem createDoctor_outcomes (db : Database) (doctor : Doctor.t) (now : string) :
  table_exists "doctors" db = true ->
  ((exists doctorId db', createDoctor doctor now db = Returns doctorId db')
   <-> ((forall d l, In d (doctors db) ->
                     Js.or_null (Doctor.license_number doctor) = Some l ->
                     DoctorRow.license_number d <> Some l)
        /\ (foreign_keys db = false
            \/ exists u, In u (users db) /\ UserRow.id u = Doctor.user_id doctor)))
  /\ (forall doctorId db',
        createDoctor doctor now db = Returns doctorId db' ->
        exists d,
          doctors db' = doctors db ++ [d]
          /\ users db' = users db
          /\ DoctorRow.id d = doctorId
          /\ ~ In doctorId (map DoctorRow.id (doctors db))
          /\ DoctorRow.user_id d = Doctor.user_id doctor
          /\ DoctorRow.created_at d = now
          /\ null_or_given (fun text => String.eqb text "")
               (Doctor.specialization doctor) (DoctorRow.specialization d)
          /\ null_or_given (fun text => String.eqb text "")
               (Doctor.license_number doctor) (DoctorRow.license_number d)
          /\ null_or_given (fun years => years =? 0)
               (Doctor.experience_years doctor) (DoctorRow.experience_years d)
          /\ null_or_given (fun fee => Qeq_bool fee 0)
               (Doctor.consultation_fee doctor) (DoctorRow.consultation_fee d)
          /\ null_or_given (fun text => String.eqb text "")
               (Doctor.available_days doctor) (DoctorRow.available_days d)
          /\ null_or_given (fun text => String.eqb text "")
               (Doctor.available_time_start doctor) (DoctorRow.available_time_start d)
          /\ null_or_given (fun text => String.eqb text "")
               (Doctor.available_time_end doctor) (DoctorRow.available_time_end d)
          /\ DoctorRow.license_number d <> Some ""
          /\ DoctorRow.specialization d <> Some ""
          /\ DoctorRow.experience_years d <> Some 0)
  /\ (forall e db', createDoctor doctor now db = Throws e db' -> db' = db).
Proof.
  intros Ht.
  assert (Hfk : references_user (Doctor.user_id doctor) db = true <->
                (foreign_keys db = false
                 \/ exists u, In u (users db) /\ UserRow.id u = Doctor.user_id doctor)).
  { unfold references_user. rewrite orb_true_iff, negb_true_iff, existsb_exists.
    split; (intros [Hoff|(u & Hu & Hid)]; [left; exact Hoff|right; exists u]);
      (split; [exact Hu|]); apply Z.eqb_eq; exact Hid. }
  unfold createDoctor, try_catch, bind, insert_doctors, on_table,
    select_last_insert_rowid, saveDatabase, ret, throw.
  rewrite Ht. cbn [Doctor.license_number Doctor.user_id].
  destruct (doctors_unique_clash (Js.or_null (Doctor.license_number doctor)) (doctors db))
    eqn:Hclash.
  { split; [|split].
    - split; [intros (? & ? & Heq); discriminate|].
      intros [Hfree _]. apply doctors_unique_clash_iff in Hfree. congruence.
    - intros ? ? Heq. discriminate.
    - intros e db' Heq. injection Heq as _ <-. reflexivity. }
  destruct (references_user (Doctor.user_id doctor) db) eqn:Href; cbn [negb].
  - split; [|split].
    + split; [|eauto]. intros _.
      split; [apply doctors_unique_clash_iff, Hclash|apply Hfk; reflexivity].
    + intros doctorId db' Heq. injection Heq as <- <-.
      eexists. split; [reflexivity|].
      cbn [users inserted with_doctors last_insert_rowid DoctorRow.id DoctorRow.user_id
           DoctorRow.license_number DoctorRow.specialization DoctorRow.experience_years
           DoctorRow.consultation_fee DoctorRow.available_days
           DoctorRow.available_time_start DoctorRow.available_time_end
           DoctorRow.created_at
           Doctor.license_number Doctor.specialization Doctor.experience_years
           Doctor.consultation_fee Doctor.available_days Doctor.available_time_start
           Doctor.available_time_end].
      split; [reflexivity|]. split; [reflexivity|].
      split; [apply next_rowid_fresh|]. split; [reflexivity|]. split; [reflexivity|].
      do 7 (split; [unfold null_or_given, Js.or_null, Js.or_null_int, Js.or_null_num;
                    match goal with |- match ?given with _ => _ end => destruct given end;
                    reflexivity|]).
      split; [apply or_null_not_empty|]. split; [apply or_null_not_empty|].
      apply or_null_int_not_zero.
    + intros e db' Heq. discriminate.
  - split; [|split].
    + split; [intros (? & ? & Heq); discriminate|].
      intros [_ Hok]. apply Hfk in Hok. congruence.
    + intros ? ? Heq. discriminate.
    + intros e db' Heq. injection Heq as _ <-. reflexivity.
Qed.

Lemma createDoctor_outcomes_witness :
  table_exists "doctors" Sample.with_root = true
  /\ exists doctorId db' d,
       createDoctor
         {| Doctor.user_id := 77; Doctor.specialization := Some "";
            Doctor.license_number := Some "LIC-7"; Doctor.experience_years := Some 0;
            Doctor.consultation_fee := None; Doctor.available_days := None;
            Doctor.available_time_start := None; Doctor.available_time_end := None |}
         "2024-06-11 08:00:00" Sample.with_root
       = Returns doctorId db'
       /\ doctors db' = doctors Sample.with_root ++ [d]
       /\ DoctorRow.specialization d = None
       /\ DoctorRow.license_number d = Some "LIC-7"
       /\ DoctorRow.experience_years d = None.
Proof.
  split; [reflexivity|].
  pose proof (createDoctor_outcomes Sample.with_root
                {| Doctor.user_id := 77; Doctor.specialization := Some "";
                   Doctor.license_number := Some "LIC-7";
                   Doctor.experience_years := Some 0;
                   Doctor.consultation_fee := None; Doctor.available_days := None;
                   Doctor.available_time_start := None;
                   Doctor.available_time_end := None |}
                "2024-06-11 08:00:00" eq_refl) as (Hiff & Hrow & _).
  destruct (proj2 Hiff) as (doctorId & db' & Hrun).
  - split; [intros d l []|left; reflexivity].
  - destruct (Hrow doctorId db' Hrun)
      as (d & Hdocs & _ & _ & _ & _ & _ & Hspec & Hlicence & Hexp & _).
    exists doctorId, db', d. auto.
Defined.

(** ** The handlers *)

Lemma getAllPatients_returns db : exists patients, getAllPatients db = Returns patients db.
Proof.
  unfold getAllPatients, try_catch, bind, select_users_join_patients, on_table, ret.
  destruct (table_exists "users" db), (table_exists "patients" db); eexists; reflexivity.
Qed.

(** X17. For a request that carries a user, none of the three handlers
  ever answers 500, and none changes the store: the listings they call
  swallow every failure.  [handleGetDoctors] answers with the list of
  [getAllDoctors] and its length; [handleGetPatients] answers 403 to a role
  other than doctor and admin and otherwise the list of [getAllPatients]
  and its length; [handleGetDashboardStats] answers every role with the
  two lengths and with appointment and report figures that depend on the
  role alone: 12 and 7 for a doctor, 45 and 23 for an admin, 0 and 0
  otherwise. *)
Theorem handlers_never_fail (db : Database) (role : string) :
  exists patients doctors,
    getAllPatients db = Returns patients db
    /\ getAllDoctors db = Returns doctors db
    /\ Routes.handleGetDoctors db
       = Returns (Routes.DoctorsJson doctors (Z.of_nat (List.length doctors))) db
    /\ Routes.handleGetPatients role db
       = Returns
           (if negb (String.eqb role "doctor") && negb (String.eqb role "admin")
            then Routes.Status 403 "Unauthorized to view patients list"
            else Routes.Json patients (Z.of_nat (List.length patients)))
           db
    /\ Routes.handleGetDashboardStats role db
       = Returns
           (Routes.StatsJson
              {| Routes.Stats.totalPatients := Z.of_nat (List.length patients);
                 Routes.Stats.totalDoctors := Z.of_nat (List.length doctors);
                 Routes.Stats.todayAppointments :=
                   if String.eqb role "doctor" then 12
                   else if String.eqb role "admin" then 45 else 0;
                 Routes.Stats.pendingReports :=
                   if String.eqb role "doctor" then 7
                   else if String.eqb role "admin" then 23 else 0 |})
           db.
Proof.
  destruct (getAllPatients_returns db) as (patients & Hpatients).
  exists patients. eexists.
  split; [exact Hpatients|]. split; [apply getAllDoctors_runs|].
  split; [|split].
  - unfold Routes.handleGetDoctors, try_catch.
    rewrite (bind_returns _ _ _ _ _ (getAllDoctors_runs db)). reflexivity.
  - unfold Routes.handleGetPatients, try_catch.
    destruct (negb (String.eqb role "doctor") && negb (String.eqb role "admin"));
      [reflexivity|].
    rewrite (bind_returns _ _ _ _ _ Hpatients). reflexivity.
  - unfold Routes.handleGetDashboardStats, try_catch.
    rewrite (bind_returns _ _ _ _ _ Hpatients).
    rewrite (bind_returns _ _ _ _ _ (getAllDoctors_runs db)).
    cbv zeta. unfold ret.
    destruct (String.eqb role "doctor"); [reflexivity|].
    destruct (String.eqb role "admin"); reflexivity.
Qed.

(** * Further properties of the store: deletion *)

(** X29. On a store with the [users] and [doctors] tables [deleteUser]
  is all or nothing and never throws.  When it returns false the store is
  unchanged.  It returns true only on a store with a [patients] table, and
  then the users left are those that are admins or have another id, no
  doctor row and no patient row with that id is left, the other doctor rows
  are all kept, and the rows of [customers] with that id are removed only
  if foreign keys are enforced and a user was deleted: otherwise
  [customers] is as it was. *)
Theorem deleteUser_is_all_or_nothing (db : Database) (userId : Z) :
  table_exists "users" db = true ->
  table_exists "doctors" db = true ->
  exists done db',
    deleteUser userId db = Returns done db'
    /\ (done = false -> db' = db)
    /\ (done = true ->
        table_exists "patients" db = true
        /\ users db' = filter (fun u => negb (non_admin_with_id userId u)) (users db)
        /\ (forall d, In d (doctors db') -> DoctorRow.user_id d <> userId)
        /\ (forall p, In p (patients db') ->
                      Patient.user_id (PatientRow.profile p) <> userId)
        /\ (forall d, In d (doctors db) -> DoctorRow.user_id d <> userId ->
                      In d (doctors db'))
        /\ customers db'
           = if foreign_keys db && existsb (non_admin_with_id userId) (users db)
             then filter (fun c => negb (Patient.user_id (CustomerRow.profile c) =? userId))
                    (customers db)
             else customers db).
Proof.
  intros Hu Hd.
  unfold deleteUser, try_catch.
  assert (Hselect : select_role_by_id userId db
                    = Returns (map UserRow.role
                                 (filter (fun u => UserRow.id u =? userId) (users db))) db)
    by (unfold select_role_by_id, on_table; rewrite Hu; reflexivity).
  rewrite (bind_returns _ _ _ _ _ Hselect).
  assert (Hfalse : forall e, Throws (A := bool) e db = Throws e db ->
                             exists done db',
                               Returns false db = Returns done db'
                               /\ (done = false -> db' = db)
                               /\ (done = true -> False)).
  { intros e _. exists false, db. repeat split; auto; discriminate. }
  assert (Hguard :
            (match map UserRow.role
                     (filter (fun u => UserRow.id u =? userId) (users db)) with
             | role :: _ =>
                 if String.eqb role "admin"
                 then throw (JsError "Cannot delete admin user") else ret tt
             | [] => ret tt
             end) db = Returns tt db
            \/ (match map UserRow.role
                        (filter (fun u => UserRow.id u =? userId) (users db)) with
                | role :: _ =>
                    if String.eqb role "admin"
                    then throw (JsError "Cannot delete admin user") else ret tt
                | [] => ret tt
                end) db = Throws (JsError "Cannot delete admin user") db).
  { destruct (map UserRow.role _) as [|role rest]; [left; reflexivity|].
    destruct (String.eqb role "admin"); [right|left]; reflexivity. }
  destruct Hguard as [Hguard|Hguard].
  2: { rewrite (bind_throws _ _ _ _ _ Hguard). exists false, db.
       split; [reflexivity|]. split; [reflexivity|discriminate]. }
  rewrite (bind_returns _ _ _ _ _ Hguard).
  unfold bind, delete_patients_by_user_id, delete_doctors_by_user_id,
    delete_users_non_admin, on_table, saveDatabase, ret.
  destruct (table_exists "patients" db) eqn:Hp.
  2: { exists false, db. split; [reflexivity|]. split; [reflexivity|discriminate]. }
  change (table_exists "doctors" (with_patients ?rows db))
    with (table_exists "doctors" db).
  rewrite Hd.
  change (table_exists "users" (with_doctors ?rows ?d)) with (table_exists "users" db).
  rewrite Hu.
  eexists true, _. split; [reflexivity|]. split; [discriminate|]. intros _.
  split; [reflexivity|].
  cbn [foreign_keys users with_patients with_doctors].
  assert (Hgone : forall d,
             In d (filter (fun d => negb (DoctorRow.user_id d =? userId)) (doctors db)) ->
             DoctorRow.user_id d <> userId).
  { intros d Hin. apply filter_In in Hin. destruct Hin as [_ Hne].
    apply negb_true_iff, Z.eqb_neq in Hne. exact Hne. }
  assert (Hpgone : forall p,
             In p (filter (fun p => negb (Patient.user_id (PatientRow.profile p) =? userId))
                     (patients db)) ->
             Patient.user_id (PatientRow.profile p) <> userId).
  { intros p Hin. apply filter_In in Hin. destruct Hin as [_ Hne].
    apply negb_true_iff, Z.eqb_neq in Hne. exact Hne. }
  assert (Hkept : forall d, In d (doctors db) -> DoctorRow.user_id d <> userId ->
                            In d (filter (fun d => negb (DoctorRow.user_id d =? userId))
                                    (doctors db))).
  { intros d Hin Hne. apply filter_In. split; [exact Hin|].
    apply negb_true_iff, Z.eqb_neq, Hne. }
  destruct (foreign_keys db && existsb (non_admin_with_id userId) (users db));
    cbn [users doctors patients customers cascade_user with_users with_patients
         with_doctors with_customers].
  - split; [reflexivity|]. split; [|split; [exact Hpgone|split; [|reflexivity]]].
    + intros d Hin. apply filter_In in Hin. apply Hgone, Hin.
    + intros d Hin Hne. apply filter_In. split; [apply Hkept; assumption|].
      apply negb_true_iff, Z.eqb_neq, Hne.
  - split; [reflexivity|]. split; [exact Hgone|].
    split; [exact Hpgone|]. split; [exact Hkept|reflexivity].
Qed.

Lemma deleteUser_is_all_or_nothing_witness :
  table_exists "users" Sample.older_with_amy = true
  /\ table_exists "doctors" Sample.older_with_amy = true
  /\ exists db',
       deleteUser 2 Sample.older_with_amy = Returns true db'
       /\ users db' = filter (fun u => negb (non_admin_with_id 2 u))
                        (users Sample.older_with_amy).
Proof.
  split; [reflexivity|]. split; [reflexivity|].
  destruct (deleteUser_is_all_or_nothing Sample.older_with_amy 2 eq_refl eq_refl)
    as (done & db' & Hrun & _ & Htrue).
  assert (Hdone : done = true).
  { assert (Heq : Returns done db' = deleteUser 2 Sample.older_with_amy)
      by (symmetry; exact Hrun).
    vm_compute in Heq. injection Heq as -> _. reflexivity. }
  subst done. exists db'. split; [exact Hrun|]. apply (Htrue eq_refl).
Defined.
(** * Further properties of the directory page *)

(** ** Active filters *)

Lemma filter_all {A} (f : A -> bool) l : (forall x, f x = true) -> filter f l = l.
Proof.
  intros Hf. induction l as [|x l IH]; [reflexivity|].
  cbn [filter]. rewrite Hf, IH. reflexivity.
Qed.

Lemma activeFiltersCount_sum filters :
  activeFiltersCount filters
  = active (FilterState.gender filters) + active (FilterState.bloodGroup filters)
    + active (FilterState.ageRange filters) + active (FilterState.hasConditions filters)
    + active (FilterState.registrationPeriod filters).
Proof.
  unfold activeFiltersCount, values, active. cbn [filter].
  destruct (String.eqb (FilterState.gender filters) "all"),
    (String.eqb (FilterState.bloodGroup filters) "all"),
    (String.eqb (FilterState.ageRange filters) "all"),
    (String.eqb (FilterState.hasConditions filters) "all"),
    (String.eqb (FilterState.registrationPeriod filters) "all"); reflexivity.
Qed.

Lemma active_zero value : active value = 0 <-> value = "all".
Proof.
  unfold active. destruct (String.eqb_spec value "all") as [Heq|Hne].
  - split; auto.
  - split; [discriminate|]. intros Heq. destruct (Hne Heq).
Qed.

Lemma active_range value : 0 <= active value <= 1.
Proof. unfold active. destruct (String.eqb value "all"); lia. Qed.

Lemma no_age_range_no_call `{CaseMapping} searchTerm filters p :
  FilterState.ageRange filters = "all" -> calls_calculateAge searchTerm filters p = false.
Proof.
  intros Hall. unfold calls_calculateAge. rewrite Hall.
  change (String.eqb "all" "all") with true. cbn [negb].
  rewrite andb_false_r. reflexivity.
Qed.

(** X18. The badge and the list agree: [activeFiltersCount] is between 0
  and 5 and is 0 exactly for the initial filters, which [clearFilters]
  restores from any state; and when it is 0 and the search box is empty the
  filter returns and the page lists every patient, in the order
  received. *)
Theorem no_active_filter_lists_everyone `{DateParser} `{CaseMapping} (now : Date)
    (patients : list Customer) (filters : FilterState.t) :
  0 <= activeFiltersCount filters <= 5
  /\ (activeFiltersCount filters = 0 <-> filters = no_filters)
  /\ clearFilters filters = no_filters
  /\ (activeFiltersCount filters = 0 ->
      filteredPatients now patients "" filters = Normal patients).
Proof.
  rewrite activeFiltersCount_sum.
  pose proof (active_range (FilterState.gender filters)).
  pose proof (active_range (FilterState.bloodGroup filters)).
  pose proof (active_range (FilterState.ageRange filters)).
  pose proof (active_range (FilterState.hasConditions filters)).
  pose proof (active_range (FilterState.registrationPeriod filters)).
  assert (Hzero : active (FilterState.gender filters)
                  + active (FilterState.bloodGroup filters)
                  + active (FilterState.ageRange filters)
                  + active (FilterState.hasConditions filters)
                  + active (FilterState.registrationPeriod filters) = 0
                  <-> filters = no_filters).
  { split.
    - intros Hsum.
      assert (Hg : active (FilterState.gender filters) = 0) by lia.
      assert (Hb : active (FilterState.bloodGroup filters) = 0) by lia.
      assert (Ha : active (FilterState.ageRange filters) = 0) by lia.
      assert (Hc : active (FilterState.hasConditions filters) = 0) by lia.
      assert (Hr : active (FilterState.registrationPeriod filters) = 0) by lia.
      apply active_zero in Hg, Hb, Ha, Hc, Hr.
      destruct filters; cbn in *; subst; reflexivity.
    - intros ->. reflexivity. }
  split; [lia|]. split; [exact Hzero|]. split; [reflexivity|].
  intros Hsum. apply Hzero in Hsum. subst filters.
  rewrite filteredPatients_normal
    by (intros p _; apply no_age_range_no_call; reflexivity).
  f_equal. apply filter_all. intros p. unfold passes.
  rewrite matchesSearch_empty. reflexivity.
Qed.

Lemma no_active_filter_lists_everyone_witness :
  activeFiltersCount (clearFilters (only_ageRange "0-18")) = 0
  /\ @filteredPatients sample_parser ascii_folding noon
       [patient "Rory Williams" (Some "2006-06-14") "2024-06-12 12:00:00";
        patient "Rose Tyler" None "2024-06-07 12:00:00"]
       "" (clearFilters (only_ageRange "0-18"))
     = Normal [patient "Rory Williams" (Some "2006-06-14") "2024-06-12 12:00:00";
               patient "Rose Tyler" None "2024-06-07 12:00:00"].
Proof.
  split; [reflexivity|].
  apply (proj2 (proj2 (proj2 (@no_active_filter_lists_everyone sample_parser ascii_folding
                                 noon _ (clearFilters (only_ageRange "0-18")))))).
  reflexivity.
Defined.

(** X19. [updateFilter] sets the one key it is given and leaves the other
  four as they were, and the badge follows: the count of active filters
  goes down by one if that key was constraining and up by one if the new
  value constrains. *)
Theorem updateFilter_moves_the_count (key : FilterKey) (value : string)
    (filters : FilterState.t) :
  value_of key (updateFilter key value filters) = value
  /\ (forall other, other <> key ->
                    value_of other (updateFilter key value filters)
                    = value_of other filters)
  /\ activeFiltersCount (updateFilter key value filters)
     = activeFiltersCount filters - active (value_of key filters) + active value.
Proof.
  split; [destruct key; reflexivity|]. split.
  - intros other Hother. destruct key, other; try reflexivity; congruence.
  - rewrite !activeFiltersCount_sum. destruct key; cbn; lia.
Qed.

Lemma updateFilter_moves_the_count_witness :
  key_gender <> key_ageRange
  /\ value_of key_gender (updateFilter key_ageRange "19-30" (only_gender "male")) = "male"
  /\ activeFiltersCount (updateFilter key_ageRange "19-30" (only_gender "male")) = 2.
Proof.
  assert (Hne : key_gender <> key_ageRange) by discriminate.
  split; [exact Hne|].
  destruct (updateFilter_moves_the_count key_ageRange "19-30" (only_gender "male"))
    as (_ & Hother & Hcount).
  split; [exact (Hother key_gender Hne)|]. rewrite Hcount. reflexivity.
Defined.

(** ** How the constraints combine *)

Lemma calls_somewhere `{CaseMapping} searchTerm filters patients :
  (exists p, In p patients /\ calls_calculateAge searchTerm filters p = true)
  \/ (forall p, In p patients -> calls_calculateAge searchTerm filters p = false).
Proof.
  destruct (existsb (calls_calculateAge searchTerm filters) patients) eqn:Hex.
  - left. apply existsb_exists, Hex.
  - right. intros p Hp. destruct (calls_calculateAge searchTerm filters p) eqn:Hp'; auto.
    assert (existsb (calls_calculateAge searchTerm filters) patients = true)
      by (apply existsb_exists; eauto).
    congruence.
Qed.

Lemma filteredPatients_returns `{DateParser} `{CaseMapping} now patients searchTerm
    filters listed :
  filteredPatients now patients searchTerm filters = Normal listed ->
  (forall p, In p patients -> calls_calculateAge searchTerm filters p = false)
  /\ listed = filter (passes now searchTerm filters) patients.
Proof.
  intros Hrun. destruct (calls_somewhere searchTerm filters patients) as [Hex|Hnone].
  - rewrite (filteredPatients_throws now _ _ _ Hex) in Hrun. discriminate.
  - split; [exact Hnone|].
    rewrite (filteredPatients_normal now _ _ _ Hnone) in Hrun. congruence.
Qed.

(** X20. The filter is a conjunction or nothing.  A record for which the
  search text matches, the gender and the blood group fit, an age range is
  selected and a date of birth is present makes the callback throw;
  for every other record the callback returns the conjunction of its six
  tests, a record without a date of birth counting as age 0.  So the
  filter throws exactly when the list holds a record of the first kind,
  and otherwise returns the records that pass all six tests, in the order
  received; with no age range selected it always returns. *)
Theorem filters_are_a_conjunction `{DateParser} `{CaseMapping} (now : Date)
    (patients : list Customer) (searchTerm : string) (filters : FilterState.t) :
  (forall p,
      keeps now searchTerm filters p
      = if calls_calculateAge searchTerm filters p
        then ReferenceError "calculateAge"
        else Normal (passes now searchTerm filters p))
  /\ (filteredPatients now patients searchTerm filters = ReferenceError "calculateAge"
      <-> exists p, In p patients /\ calls_calculateAge searchTerm filters p = true)
  /\ (filteredPatients now patients searchTerm filters
      = Normal (filter (passes now searchTerm filters) patients)
      <-> forall p, In p patients -> calls_calculateAge searchTerm filters p = false)
  /\ (FilterState.ageRange filters = "all" ->
      filteredPatients now patients searchTerm filters
      = Normal (filter (passes now searchTerm filters) patients)).
Proof.
  split; [intros p; apply keeps_cases|]. split; [|split].
  - split; [|apply filteredPatients_throws].
    intros Hrun. destruct (calls_somewhere searchTerm filters patients) as [Hex|Hnone];
      [exact Hex|].
    rewrite (filteredPatients_normal now _ _ _ Hnone) in Hrun. discriminate.
  - split; [|apply filteredPatients_normal].
    intros Hrun. apply (filteredPatients_returns now _ _ _ _ Hrun).
  - intros Hall. apply filteredPatients_normal.
    intros p _. apply no_age_range_no_call, Hall.
Qed.

Lemma filters_are_a_conjunction_witness :
  FilterState.ageRange (only_gender "female") = "all"
  /\ @filteredPatients sample_parser ascii_folding noon
       [patient "Rory Williams" (Some "2006-06-14") "2024-06-12 12:00:00";
        patient "Rose Tyler" None "2024-06-07 12:00:00"]
       "ROSE" (only_gender "female")
     = Normal [patient "Rose Tyler" None "2024-06-07 12:00:00"].
Proof.
  split; [reflexivity|].
  rewrite (proj2 (proj2 (proj2 (@filters_are_a_conjunction sample_parser ascii_folding
                                  noon _ "ROSE" (only_gender "female")))) eq_refl).
  vm_compute. reflexivity.
Defined.

Lemma passes_relaxed `{DateParser} `{CaseMapping} now searchTerm filters key p :
  passes now searchTerm filters p = true ->
  passes now searchTerm (updateFilter key "all" filters) p = true
  /\ passes now "" filters p = true.
Proof.
  unfold passes. intros Hpasses.
  repeat (apply andb_true_iff in Hpasses; destruct Hpasses as [Hpasses ?]).
  split.
  - destruct key;
      unfold excludedByGender, excludedByBloodGroup, excludedAtAgeZero,
        excludedByConditions, excludedByRegistrationPeriod in *;
      cbn [updateFilter FilterState.gender FilterState.bloodGroup FilterState.ageRange
           FilterState.hasConditions FilterState.registrationPeriod] in *;
      change (String.eqb "all" "all") with true;
      cbn [negb andb existsb String.eqb Ascii.eqb Bool.eqb orb];
      repeat (apply andb_true_iff; split); assumption || reflexivity.
  - rewrite matchesSearch_empty.
    repeat (apply andb_true_iff; split); assumption || reflexivity.
Qed.

(** X21. Relaxing a filter never hides a record, as long as the filter
  still returns: when the page lists some records under a search text and
  filters, every one of them is a record received, and is still listed
  after any one filter is put back to "all" or the search box is emptied,
  if the filter returns then.  It does return when the filter put back is
  the age range, the conditions or the registration period; putting back
  the gender or the blood group, or emptying the search box, can bring a
  record with a date of birth to the age block, where the callback
  throws. *)
Theorem relaxing_a_filter_keeps_records `{DateParser} `{CaseMapping} (now : Date)
    (patients : list Customer) (searchTerm : string) (filters : FilterState.t)
    (key : FilterKey) (listed : list Customer) :
  filteredPatients now patients searchTerm filters = Normal listed ->
  (forall p, In p listed -> In p patients)
  /\ (forall relaxed,
        filteredPatients now patients searchTerm (updateFilter key "all" filters)
        = Normal relaxed ->
        forall p, In p listed -> In p relaxed)
  /\ (forall relaxed,
        filteredPatients now patients "" filters = Normal relaxed ->
        forall p, In p listed -> In p relaxed)
  /\ (key = key_ageRange \/ key = key_hasConditions \/ key = key_registrationPeriod ->
      exists relaxed,
        filteredPatients now patients searchTerm (updateFilter key "all" filters)
        = Normal relaxed).
Proof.
  intros Hrun. apply filteredPatients_returns in Hrun. destruct Hrun as [Hnone ->].
  split; [intros p Hp; apply filter_In in Hp; tauto|]. split; [|split].
  - intros relaxed Hrelaxed p Hp.
    apply filteredPatients_returns in Hrelaxed. destruct Hrelaxed as [_ ->].
    apply filter_In in Hp. apply filter_In. split; [tauto|].
    apply (passes_relaxed now searchTerm filters key p), Hp.
  - intros relaxed Hrelaxed p Hp.
    apply filteredPatients_returns in Hrelaxed. destruct Hrelaxed as [_ ->].
    apply filter_In in Hp. apply filter_In. split; [tauto|].
    apply (passes_relaxed now searchTerm filters key p), Hp.
  - intros Hkey. eexists. apply filteredPatients_normal. intros p Hp.
    destruct Hkey as [->|[->| ->]].
    + apply no_age_range_no_call. reflexivity.
    + exact (Hnone p Hp).
    + exact (Hnone p Hp).
Qed.

Lemma relaxing_a_filter_keeps_records_witness :
  @filteredPatients sample_parser ascii_folding noon
    [patient "Rose Tyler" None "2024-06-12 12:00:00"] "rose"
    (only_registrationPeriod "last-week")
  = Normal [patient "Rose Tyler" None "2024-06-12 12:00:00"]
  /\ exists relaxed,
       @filteredPatients sample_parser ascii_folding noon
         [patient "Rose Tyler" None "2024-06-12 12:00:00"] "rose"
         (updateFilter key_registrationPeriod "all" (only_registrationPeriod "last-week"))
       = Normal relaxed.
Proof.
  assert (Hrun : @filteredPatients sample_parser ascii_folding noon
                   [patient "Rose Tyler" None "2024-06-12 12:00:00"] "rose"
                   (only_registrationPeriod "last-week")
                 = Normal [patient "Rose Tyler" None "2024-06-12 12:00:00"])
    by (vm_compute; reflexivity).
  split; [exact Hrun|].
  apply (proj2 (proj2 (proj2 (@relaxing_a_filter_keeps_records sample_parser ascii_folding
                                noon _ "rose" (only_registrationPeriod "last-week")
                                key_registrationPeriod _ Hrun)))).
  right. right. reflexivity.
Defined.

(** Putting the gender back to "all" can make the filter throw: under
  gender "male" and age range 0-18 the page lists nobody; with the gender
  relaxed, the one record (female, with a date of birth) reaches the age
  block. *)
Example relaxing_the_gender_can_throw :
  @filteredPatients sample_parser ascii_folding noon
    [patient "Rory Williams" (Some "2006-06-14") "2024-06-12 12:00:00"] ""
    (updateFilter key_gender "male" (only_ageRange "0-18"))
  = Normal []
  /\ @filteredPatients sample_parser ascii_folding noon
       [patient "Rory Williams" (Some "2006-06-14") "2024-06-12 12:00:00"] ""
       (updateFilter key_gender "all" (updateFilter key_gender "male" (only_ageRange "0-18")))
     = ReferenceError "calculateAge".
Proof. split; vm_compute; reflexivity. Qed.

(** ** Ranges *)

(** X23. A registration date that cannot be read constrains nothing: a
  record whose [created_at] does not read as a date is listed under every
  registration period.  A filter value that is none of the options
  constrains nothing either: such a registration period lists every
  record, and such an age range lists every record that has no date of
  birth. *)
Theorem unreadable_dates_pass_every_range `{DateParser} `{CaseMapping} (now : Date)
    (p : Customer) (option : string) :
  (new_Date (created_at p) = None ->
   keeps now "" (only_registrationPeriod option) p = Normal true)
  /\ (~ In option buckets ->
      keeps now "" (only_registrationPeriod option) p = Normal true)
  /\ (~ In option brackets ->
      Js.truthy (date_of_birth p) = false ->
      keeps now "" (only_ageRange option) p = Normal true).
Proof.
  rewrite keeps_only_registrationPeriod, keeps_only_ageRange.
  unfold excludedByRegistrationPeriod, diffDays.
  cbn [FilterState.registrationPeriod only_registrationPeriod].
  cbv zeta. split; [|split].
  - intros Hparse. rewrite Hparse. cbn [gt].
    repeat match goal with |- context [if ?b then _ else _] => destruct b end;
      reflexivity.
  - intros Hnot. unfold buckets in Hnot. cbn [In] in Hnot.
    destruct (String.eqb option "all"); [reflexivity|].
    destruct (String.eqb_spec option "last-week"); [intuition congruence|].
    destruct (String.eqb_spec option "last-month"); [intuition congruence|].
    destruct (String.eqb_spec option "last-3-months"); [intuition congruence|].
    destruct (String.eqb_spec option "last-year"); [intuition congruence|].
    reflexivity.
  - intros Hnot Hmissing. rewrite Hmissing, andb_false_r.
    unfold brackets in Hnot. cbn [In] in Hnot. cbn [existsb].
    destruct (String.eqb_spec option "19-30"); [intuition congruence|].
    destruct (String.eqb_spec option "31-50"); [intuition congruence|].
    destruct (String.eqb_spec option "51+"); [intuition congruence|].
    reflexivity.
Qed.

Lemma unreadable_dates_pass_every_range_witness :
  @new_Date sample_parser "not a date" = None
  /\ @keeps sample_parser ascii_folding noon "" (only_registrationPeriod "last-week")
       (patient "River Song" None "not a date")
     = Normal true.
Proof.
  split; [reflexivity|].
  apply (proj1 (@unreadable_dates_pass_every_range sample_parser ascii_folding noon
                  (patient "River Song" None "not a date") "last-week")).
  reflexivity.
Defined.
(** ** Medical conditions *)

Lemma strip_prefix_some prefix l rest :
  strip_prefix prefix l = Some rest -> l = prefix ++ rest.
Proof.
  revert l. induction prefix as [|p prefix IH]; intros l Hstrip.
  - cbn in Hstrip. injection Hstrip as ->. reflexivity.
  - destruct l as [|c l]; [discriminate|]. cbn [strip_prefix] in Hstrip.
    destruct (Ascii.eqb_spec p c) as [->|]; [|discriminate].
    cbn [app]. f_equal. apply IH, Hstrip.
Qed.

Lemma skip_one_some spaces l rest :
  skip_one spaces l = Some rest -> exists space, In space spaces /\ l = space ++ rest.
Proof.
  induction spaces as [|space others IH]; intros Hskip; [discriminate|].
  cbn [skip_one] in Hskip. destruct (strip_prefix space l) as [r|] eqn:Hstrip.
  - injection Hskip as ->. exists space. split; [left; reflexivity|].
    apply strip_prefix_some, Hstrip.
  - destruct (IH Hskip) as (s & Hin & Heq). exists s. split; [right; exact Hin|exact Heq].
Qed.

Lemma skip_spaces_split fuel spaces l :
  exists skipped,
    Forall (fun space => In space spaces) skipped
    /\ l = List.concat skipped ++ skip_spaces fuel spaces l.
Proof.
  revert l. induction fuel as [|fuel IH]; intros l.
  - exists []. split; [constructor|reflexivity].
  - cbn [skip_spaces]. destruct (skip_one spaces l) as [rest|] eqn:Hskip.
    + destruct (skip_one_some _ _ _ Hskip) as (space & Hin & ->).
      destruct (IH rest) as (skipped & Hall & Heq).
      exists (space :: skipped). split; [constructor; assumption|].
      cbn [List.concat]. rewrite <- app_assoc, <- Heq. reflexivity.
    + exists []. split; [constructor|reflexivity].
Qed.

Lemma skip_one_white_space space rest :
  In space white_space -> skip_one white_space (space ++ rest) = Some rest.
Proof.
  intros Hin. unfold white_space, bytes in Hin. cbn [map In] in Hin.
  repeat (destruct Hin as [<-|Hin]; [reflexivity|]). destruct Hin.
Qed.

Lemma white_space_not_empty space : In space white_space -> space <> [].
Proof.
  intros Hin. unfold white_space, bytes in Hin. cbn [map In] in Hin.
  repeat (destruct Hin as [<-|Hin]; [discriminate|]). destruct Hin.
Qed.

Lemma skip_white_space fuel spaces :
  Forall (fun space => In space white_space) spaces ->
  (List.length spaces <= fuel)%nat ->
  skip_spaces fuel white_space (List.concat spaces) = [].
Proof.
  revert spaces. induction fuel as [|fuel IH]; intros spaces Hall Hfuel.
  - destruct spaces; [reflexivity|cbn in Hfuel; lia].
  - destruct spaces as [|space spaces]; [reflexivity|].
    inversion Hall as [|? ? Hspace Hrest]; subst.
    cbn [skip_spaces List.concat]. rewrite (skip_one_white_space _ _ Hspace).
    apply IH; [exact Hrest|cbn in Hfuel; lia].
Qed.

Lemma concat_length_spaces spaces :
  Forall (fun space => In space white_space) spaces ->
  (List.length spaces <= List.length (List.concat spaces))%nat.
Proof.
  induction 1 as [|space spaces Hspace _ IH]; [reflexivity|].
  cbn [List.concat List.length]. rewrite length_app.
  apply white_space_not_empty in Hspace. destruct space; [congruence|]. cbn. lia.
Qed.

Lemma rev_concat {A} (l : list (list A)) :
  rev (List.concat l) = List.concat (map (@rev A) (rev l)).
Proof.
  induction l as [|x l IH]; [reflexivity|].
  cbn [List.concat rev]. rewrite rev_app_distr, IH, map_app, concat_app.
  cbn [map List.concat]. rewrite app_nil_r. reflexivity.
Qed.

Lemma trim_blank text : trim text = "" <-> blank text.
Proof.
  unfold trim, blank. split.
  - intros Hempty.
    assert (Hend : trim_end (trim_start (list_ascii_of_string text)) = []).
    { destruct (trim_end _) as [|c l]; [reflexivity|discriminate]. }
    unfold trim_end, trim_start in Hend.
    destruct (skip_spaces_split (List.length (list_ascii_of_string text)) white_space
                (list_ascii_of_string text)) as (leading & Hleading & Hsplit).
    set (middle := skip_spaces _ white_space (list_ascii_of_string text)) in *.
    destruct (skip_spaces_split (List.length middle) (map (@rev ascii) white_space)
                (rev middle)) as (trailing & Htrailing & Hsplit').
    assert (Hnil : skip_spaces (List.length middle) (map (@rev ascii) white_space)
                     (rev middle) = []).
    { destruct (skip_spaces _ _ (rev middle)) as [|c l]; [reflexivity|].
      cbn [rev] in Hend. destruct (rev l); discriminate. }
    rewrite Hnil, app_nil_r in Hsplit'.
    apply (f_equal (@rev ascii)) in Hsplit'. rewrite rev_involutive, rev_concat in Hsplit'.
    exists (leading ++ map (@rev ascii) (rev trailing)). split.
    + apply Forall_app. split; [exact Hleading|].
      apply Forall_forall. intros space Hspace.
      apply in_map_iff in Hspace. destruct Hspace as (reversed & <- & Hin).
      apply in_rev in Hin. rewrite Forall_forall in Htrailing.
      apply Htrailing, in_map_iff in Hin. destruct Hin as (w & <- & Hw).
      rewrite rev_involutive. exact Hw.
    + rewrite concat_app, <- Hsplit'. exact Hsplit.
  - intros (spaces & Hall & Heq). rewrite Heq. unfold trim_start.
    rewrite (skip_white_space _ _ Hall (concat_length_spaces _ Hall)). reflexivity.
Qed.

Lemma keeps_only_hasConditions `{DateParser} `{CaseMapping} now value p :
  keeps now "" (only_hasConditions value) p
  = Normal (negb (excludedByConditions (only_hasConditions value) p)).
Proof.
  rewrite keeps_cases. unfold calls_calculateAge, passes.
  rewrite matchesSearch_empty.
  cbn [only_hasConditions FilterState.ageRange FilterState.gender FilterState.bloodGroup
       FilterState.registrationPeriod excludedByGender excludedByBloodGroup
       excludedAtAgeZero excludedByRegistrationPeriod existsb String.eqb Ascii.eqb
       Bool.eqb negb andb orb].
  rewrite andb_true_r. reflexivity.
Qed.

(** X24. The conditions filter splits the list in two: the callback
  returns for every record, and every record is listed by exactly one of
  "yes" and "no".  "yes" lists the records whose [medical_conditions] is a
  text that is not made of white space only; a record with no conditions,
  with the empty text or with white space only (the no-break space and the
  other Unicode spaces included) is listed by "no". *)
Theorem conditions_filter_partitions `{DateParser} `{CaseMapping} (now : Date)
    (p : Customer) :
  (exists listed,
      keeps now "" (only_hasConditions "yes") p = Normal listed
      /\ keeps now "" (only_hasConditions "no") p = Normal (negb listed))
  /\ (keeps now "" (only_hasConditions "yes") p = Normal true
      <-> exists text, medical_conditions p = Some text /\ ~ blank text).
Proof.
  rewrite !keeps_only_hasConditions. unfold excludedByConditions.
  cbn [FilterState.hasConditions only_hasConditions String.eqb Ascii.eqb Bool.eqb
       negb andb orb].
  cbv zeta.
  assert (Hhas : match Js.or_null (medical_conditions p) with
                 | Some text => negb (String.eqb (trim text) "")
                 | None => false
                 end = true
                 <-> exists text, medical_conditions p = Some text /\ ~ blank text).
  { destruct (medical_conditions p) as [text|]; cbn [Js.or_null].
    - destruct (String.eqb_spec text "") as [->|Hne].
      + split; [discriminate|]. intros (t & Ht & Hblank). injection Ht as <-.
        exfalso. apply Hblank. exists []. split; [constructor|reflexivity].
      + rewrite negb_true_iff, String.eqb_neq, trim_blank. split.
        * intros Hnot. exists text. auto.
        * intros (t & Ht & Hnot). injection Ht as <-. exact Hnot.
    - split; [discriminate|]. intros (t & Ht & _). discriminate. }
  set (has := match Js.or_null (medical_conditions p) with
              | Some text => negb (String.eqb (trim text) "")
              | None => false
              end) in *.
  clearbody has. rewrite !orb_false_r. split.
  - exists has. destruct has; split; reflexivity.
  - rewrite <- Hhas. destruct has; cbn [negb]; split; congruence.
Qed.

Lemma conditions_filter_partitions_witness :
  (exists text,
     medical_conditions
       {| user_id := 9; full_name := "Martha Jones"; email := "martha@example.test";
          phone := None; date_of_birth := None; gender := None; blood_group := None;
          address := None;
          medical_conditions := Some (string_of_list_ascii (bytes [194; 160; 32]%nat));
          created_at := "2024-06-12 12:00:00" |}
     = Some text
     /\ blank text)
  /\ @keeps sample_parser ascii_folding noon "" (only_hasConditions "yes")
       {| user_id := 9; full_name := "Martha Jones"; email := "martha@example.test";
          phone := None; date_of_birth := None; gender := None; blood_group := None;
          address := None;
          medical_conditions := Some (string_of_list_ascii (bytes [194; 160; 32]%nat));
          created_at := "2024-06-12 12:00:00" |}
     <> Normal true.
Proof.
  assert (Hblank : blank (string_of_list_ascii (bytes [194; 160; 32]%nat))).
  { exists [bytes [194; 160]%nat; bytes [32]%nat]. split; [|reflexivity].
    constructor; [|constructor; [|constructor]]; unfold white_space; apply in_map.
    - do 6 right. left. reflexivity.
    - do 5 right. left. reflexivity. }
  split; [eexists; split; [reflexivity|exact Hblank]|].
  intros Hyes.
  apply (proj2 (@conditions_filter_partitions sample_parser ascii_folding noon _)) in Hyes.
  destruct Hyes as (text & Htext & Hnot). injection Htext as <-. exact (Hnot Hblank).
Defined.

(** ** Blood groups *)

Lemma unique_in values v : In v (unique values) <-> In v values.
Proof.
  induction values as [|w rest IH]; [reflexivity|].
  cbn [unique In]. rewrite filter_In, IH, negb_true_iff, String.eqb_neq.
  destruct (string_dec w v); intuition congruence.
Qed.

Lemma unique_NoDup values : NoDup (unique values).
Proof.
  induction values as [|w rest IH]; [constructor|].
  cbn [unique]. constructor; [|apply NoDup_filter, IH].
  rewrite filter_In, String.eqb_refl. intros [_ Hfalse]. discriminate.
Qed.

Lemma truthy_values_in values v :
  In v (truthy_values values) <-> v <> "" /\ In (Some v) values.
Proof.
  induction values as [|w rest IH]; [cbn; tauto|].
  cbn [truthy_values In]. destruct w as [s|]; cbn [Js.or_null].
  - destruct (String.eqb_spec s "") as [->|Hne].
    + rewrite IH. intuition congruence.
    + cbn [In]. rewrite IH. intuition congruence.
  - rewrite IH. intuition congruence.
Qed.

(** X25. The blood groups offered by the filter are exactly the blood
  groups that occur in the list, each once: no duplicate, no empty entry,
  and none that no patient has. *)
Theorem bloodGroups_are_the_distinct_groups (patients : list Customer) :
  NoDup (bloodGroups patients)
  /\ forall group,
       In group (bloodGroups patients)
       <-> group <> "" /\ exists p, In p patients /\ blood_group p = Some group.
Proof.
  unfold bloodGroups. split; [apply unique_NoDup|].
  intros group. rewrite unique_in, truthy_values_in, in_map_iff.
  split; intros (Hne & p & H1 & H2); split; eauto.
Qed.

(** ** Search *)

Lemma lower_ascii_append a b :
  lower_ascii (String.append a b) = String.append (lower_ascii a) (lower_ascii b).
Proof.
  induction a as [|c a IH]; [reflexivity|]. cbn [String.append lower_ascii].
  rewrite IH. reflexivity.
Qed.

Lemma prefix_append t b : String.prefix t (String.append t b) = true.
Proof.
  induction t as [|c t IH]; [destruct b; reflexivity|].
  cbn [String.append String.prefix]. destruct (ascii_dec c c); [exact IH|congruence].
Qed.

Lemma includes_append a t b :
  includes (String.append a (String.append t b)) t = true.
Proof.
  induction a as [|c a IH].
  - cbn [String.append]. destruct (String.append t b) eqn:Heq;
      cbn [includes]; rewrite <- Heq, prefix_append; reflexivity.
  - cbn [String.append includes]. rewrite IH. apply orb_true_r.
Qed.

(** X26. On ASCII text the search ignores the case of the letters A to Z:
  a text typed in ASCII, in any mix of upper and lower case, finds every
  record whose name or address is ASCII and contains it in any other mix,
  whatever else the record holds. *)
Theorem search_ignores_letter_case `{CaseMapping} (typed term before after : string)
    (p : Customer) :
  ascii_only typed = true ->
  lower_ascii typed = lower_ascii term ->
  (full_name p = String.append before (String.append term after)
   /\ ascii_only (full_name p) = true)
  \/ (email p = String.append before (String.append term after)
      /\ ascii_only (email p) = true) ->
  matchesSearch typed p = true.
Proof.
  intros Htyped Hcase Hin. unfold matchesSearch.
  rewrite (toLowerCase_ascii typed Htyped), Hcase.
  destruct Hin as [[Hname Hascii] | [Hmail Hascii]].
  - rewrite (toLowerCase_ascii _ Hascii), Hname, !lower_ascii_append, includes_append.
    reflexivity.
  - rewrite (toLowerCase_ascii (email p) Hascii), Hmail, !lower_ascii_append,
      includes_append, orb_true_r.
    reflexivity.
Qed.

Lemma search_ignores_letter_case_witness :
  ascii_only "sMiTh" = true
  /\ lower_ascii "sMiTh" = lower_ascii "Smith"
  /\ ascii_only "John Smith" = true
  /\ @matchesSearch ascii_folding "sMiTh"
       (patient "John Smith" None "2024-06-12 12:00:00") = true.
Proof.
  split; [reflexivity|]. split; [reflexivity|]. split; [reflexivity|].
  apply (@search_ignores_letter_case ascii_folding "sMiTh" "Smith" "John " "" _
           eq_refl eq_refl).
  left. split; reflexivity.
Defined.
(** ** The statistics cards *)

(** X27. The counts on the cards are consistent: none is negative, the
  male and female counts together never exceed the total, and they add up
  to it exactly when every record's gender is male or female; the count of
  records new this month never exceeds the total and leaves out every
  record whose [created_at] does not read as a date. *)
Theorem statistics_cards_are_consistent `{DateParser} (currentDate : Date)
    (patients : list Customer) :
  0 <= maleCount patients
  /\ 0 <= femaleCount patients
  /\ maleCount patients + femaleCount patients <= totalCount patients
  /\ (maleCount patients + femaleCount patients = totalCount patients
      <-> forall p, In p patients -> gender p = Some "male" \/ gender p = Some "female")
  /\ 0 <= newThisMonth currentDate patients <= totalCount patients
  /\ (forall p, new_Date (created_at p) = None -> createdThisMonth currentDate p = false).
Proof.
  unfold maleCount, femaleCount, totalCount, newThisMonth.
  assert (Hgender :
            (List.length (filter (fun p => Js.opt_eqb (gender p) "male") patients)
             + List.length (filter (fun p => Js.opt_eqb (gender p) "female") patients)
             <= List.length patients)%nat
            /\ ((List.length (filter (fun p => Js.opt_eqb (gender p) "male") patients)
                 + List.length (filter (fun p => Js.opt_eqb (gender p) "female") patients)
                 = List.length patients)%nat
                <-> forall p, In p patients ->
                              gender p = Some "male" \/ gender p = Some "female")).
  { induction patients as [|q l (IHle & IHeq)]; [cbn; split; [lia|tauto]|].
    cbn [filter].
    destruct (Js.opt_eqb (gender q) "male") eqn:Hm;
      destruct (Js.opt_eqb (gender q) "female") eqn:Hf.
    - apply opt_eqb_eq in Hm, Hf. congruence.
    - apply opt_eqb_eq in Hm. cbn [List.length]. split; [lia|].
      split.
      + intros Hsum p [<-|Hp]; [auto|]. apply IHeq; [lia|exact Hp].
      + intros Hall. assert (Hl := proj2 IHeq (fun p Hp => Hall p (or_intror Hp))). lia.
    - apply opt_eqb_eq in Hf. cbn [List.length]. split; [lia|].
      split.
      + intros Hsum p [<-|Hp]; [auto|]. apply IHeq; [lia|exact Hp].
      + intros Hall. assert (Hl := proj2 IHeq (fun p Hp => Hall p (or_intror Hp))). lia.
    - cbn [List.length]. split; [lia|]. split; [lia|].
      intros Hall. destruct (Hall q (or_introl eq_refl)) as [Hg|Hg];
        apply opt_eqb_eq in Hg; congruence. }
  destruct Hgender as [Hle Heq].
  pose proof (filter_length_le (createdThisMonth currentDate) patients) as Hnew.
  split; [lia|]. split; [lia|]. split; [lia|]. split; [|split; [lia|]].
  - rewrite <- Heq. lia.
  - intros p Hp. unfold createdThisMonth. rewrite Hp. reflexivity.
Qed.

Lemma statistics_cards_are_consistent_witness :
  @new_Date sample_parser "not a date" = None
  /\ @createdThisMonth sample_parser noon
       (patient "River Song" None "not a date") = false.
Proof.
  split; [reflexivity|].
  destruct (@statistics_cards_are_consistent sample_parser noon [])
    as (_ & _ & _ & _ & _ & Hunreadable).
  exact (Hunreadable (patient "River Song" None "not a date") eq_refl).
Defined.

